(** * Universal Clipboard: the synchronisation engine of [src/enhanced-server.js]

    A shallow embedding of [EnhancedClipboardServer]: the fingerprint
    ([generateHash]), the content filter ([isContentFiltered]), the history
    ([addToHistory]), the ingestion path ([updateClipboard]), the deferred
    queue ([processSyncQueue] and its timer) and the socket and HTTP handlers
    that reach them.

    - The server object is a record, and every handler is a function from
      the record to the new record and the list of effects the handler has
      on the outside: events emitted to one socket or to all, writes to the
      OS clipboard, HTTP replies and lines printed.
    - What a handler reads from outside is an argument: the readings of
      [Date.now()], and whether the clipboard write returns or throws.
    - Handlers run to completion one after the other, as on the event loop
      of a server that is not in terminal-only mode: there the clipboard
      write is the synchronous [clipboardy.writeSync] and [updateClipboard]
      never yields.
    - A string is a sequence of code units below 256, so that [String.length],
      [substring] and the regular expressions count what JavaScript counts. *)

From Stdlib Require Import ZArith Ascii String Lia.
From stdpp Require Import base decidable option list strings gmap.

Local Open Scope string_scope.
Local Open Scope list_scope.

(** ** MD5 ([crypto.createHash('md5')], RFC 1321) *)

Module MD5.
Local Open Scope Z_scope.

Definition mask32 (x : Z) : Z := Z.land x 0xFFFFFFFF.
Definition lnot32 (x : Z) : Z := Z.lxor x 0xFFFFFFFF.
Definition rotl (x c : Z) : Z :=
  mask32 (Z.lor (Z.shiftl x c) (Z.shiftr x (32 - c))).

Definition K : list Z :=
  [ 0xd76aa478; 0xe8c7b756; 0x242070db; 0xc1bdceee;
    0xf57c0faf; 0x4787c62a; 0xa8304613; 0xfd469501;
    0x698098d8; 0x8b44f7af; 0xffff5bb1; 0x895cd7be;
    0x6b901122; 0xfd987193; 0xa679438e; 0x49b40821;
    0xf61e2562; 0xc040b340; 0x265e5a51; 0xe9b6c7aa;
    0xd62f105d; 0x02441453; 0xd8a1e681; 0xe7d3fbc8;
    0x21e1cde6; 0xc33707d6; 0xf4d50d87; 0x455a14ed;
    0xa9e3e905; 0xfcefa3f8; 0x676f02d9; 0x8d2a4c8a;
    0xfffa3942; 0x8771f681; 0x6d9d6122; 0xfde5380c;
    0xa4beea44; 0x4bdecfa9; 0xf6bb4b60; 0xbebfbc70;
    0x289b7ec6; 0xeaa127fa; 0xd4ef3085; 0x04881d05;
    0xd9d4d039; 0xe6db99e5; 0x1fa27cf8; 0xc4ac5665;
    0xf4292244; 0x432aff97; 0xab9423a7; 0xfc93a039;
    0x655b59c3; 0x8f0ccc92; 0xffeff47d; 0x85845dd1;
    0x6fa87e4f; 0xfe2ce6e0; 0xa3014314; 0x4e0811a1;
    0xf7537e82; 0xbd3af235; 0x2ad7d2bb; 0xeb86d391 ].

Definition S : list Z :=
  [ 7; 12; 17; 22; 7; 12; 17; 22; 7; 12; 17; 22; 7; 12; 17; 22;
    5; 9; 14; 20; 5; 9; 14; 20; 5; 9; 14; 20; 5; 9; 14; 20;
    4; 11; 16; 23; 4; 11; 16; 23; 4; 11; 16; 23; 4; 11; 16; 23;
    6; 10; 15; 21; 6; 10; 15; 21; 6; 10; 15; 21; 6; 10; 15; 21 ].

Definition digest : Type := (Z * Z * Z * Z)%type.

Definition init : digest := (0x67452301, 0xefcdab89, 0x98badcfe, 0x10325476).

(** UTF-8 bytes of a string whose characters are code units below 256. *)
Definition utf8 (s : string) : list Z :=
  flat_map (fun a : ascii =>
    let c := Z.of_N (N_of_ascii a) in
    if c <? 128 then [c] else [0xC0 + c / 64; 0x80 + c mod 64])
    (list_ascii_of_string s).

Fixpoint le_bytes (n : nat) (x : Z) : list Z :=
  match n with
  | O => []
  | Datatypes.S n => (x mod 256) :: le_bytes n (x / 256)
  end.

Definition pad (m : list Z) : list Z :=
  let len := Z.of_nat (length m) in
  m ++ [0x80] ++ replicate (Z.to_nat ((55 - len) mod 64)) 0 ++ le_bytes 8 (len * 8).

Fixpoint words (n : nat) (bs : list Z) : list Z :=
  match n, bs with
  | Datatypes.S n, b0 :: b1 :: b2 :: b3 :: r =>
      (b0 + 256 * b1 + 65536 * b2 + 16777216 * b3) :: words n r
  | _, _ => []
  end.

Definition round (M : list Z) (st : digest) (i : nat) : digest :=
  let '(a, b, c, d) := st in
  let iz := Z.of_nat i in
  let '(f, g) :=
    if iz <? 16 then (Z.lor (Z.land b c) (Z.land (lnot32 b) d), iz)
    else if iz <? 32 then (Z.lor (Z.land d b) (Z.land (lnot32 d) c), (5 * iz + 1) mod 16)
    else if iz <? 48 then (Z.lxor b (Z.lxor c d), (3 * iz + 5) mod 16)
    else (Z.lxor c (Z.lor b (lnot32 d)), (7 * iz) mod 16) in
  let f' := mask32 (f + a + nth i K 0 + nth (Z.to_nat g) M 0) in
  (d, mask32 (b + rotl f' (nth i S 0)), b, c).

Definition compress (st : digest) (M : list Z) : digest :=
  let '(a0, b0, c0, d0) := st in
  let '(a, b, c, d) := fold_left (round M) (seq 0 64) st in
  (mask32 (a0 + a), mask32 (b0 + b), mask32 (c0 + c), mask32 (d0 + d)).

Fixpoint blocks (n : nat) (bs : list Z) (st : digest) : digest :=
  match n with
  | O => st
  | Datatypes.S n => blocks n (drop 64 bs) (compress st (words 16 (take 64 bs)))
  end.

Definition md5 (s : string) : digest :=
  let bs := pad (utf8 s) in
  blocks (length bs / 64)%nat bs init.

Definition hexdigit (x : Z) : ascii :=
  ascii_of_N (Z.to_N (if x <? 10 then 48 + x else 87 + x)).

Definition hexbyte (x : Z) (k : string) : string :=
  String (hexdigit (x / 16)) (String (hexdigit (x mod 16)) k).

Definition hexword (x : Z) (k : string) : string :=
  hexbyte (x mod 256)
    (hexbyte (x / 256 mod 256)
      (hexbyte (x / 65536 mod 256)
        (hexbyte (x / 16777216 mod 256) k))).

(** [digest('hex')] *)
Definition hex (d : digest) : string :=
  let '(a, b, c, d) := d in
  hexword a (hexword b (hexword c (hexword d ""%string))).

End MD5.

(** ** Regular expressions ([RegExp.prototype.test])

    The patterns of [sensitivePatterns] are sequences of character classes
    under a quantifier and of word boundaries; [test] looks for a match
    starting at any position, as a pattern without the sticky or global flag
    does. *)

Module Regex.

(** A character class is a list of inclusive ranges of code units. *)
Definition class : Type := list (N * N).

Inductive atom : Type :=
| Cls (set : class) (min : nat) (max : option nat)
| WordB.

Definition regex : Type := list atom.

Definition code (a : ascii) : N := N_of_ascii a.

Definition in_class (set : class) (a : ascii) : bool :=
  existsb (fun r : N * N => (r.1 <=? code a)%N && (code a <=? r.2)%N) set.

Definition digit : class := [(48, 57)%N].
Definition upper : class := [(65, 90)%N].
Definition lower : class := [(97, 122)%N].
Definition alnum : class := upper ++ lower ++ digit.
Definition chars (set : string) : class :=
  map (fun c => (code c, code c)) (list_ascii_of_string set).

(** [\w] *)
Definition word : class := alnum ++ chars "_".
(** [\s], for code units below 256: tab, LF, VT, FF, CR, space, NBSP *)
Definition space : class := [(9, 13)%N; (32, 32)%N; (160, 160)%N].

(** a literal character under the [i] flag: the letter in both cases *)
Definition ci (c : ascii) : class :=
  if in_class upper c then [(code c, code c); (code c + 32, code c + 32)%N]
  else if in_class lower c then [(code c - 32, code c - 32)%N; (code c, code c)]
  else [(code c, code c)].

Definition once (set : class) : atom := Cls set 1 (Some 1).
Definition lit_ci (w : string) : regex := map (fun c => once (ci c)) (list_ascii_of_string w).

Definition below (max : option nat) (n : nat) : bool :=
  match max with
  | None => true
  | Some m => (n <? m)%nat
  end.

Definition is_word (a : ascii) : bool := in_class word a.

(** [\b]: exactly one side is a word character *)
Definition boundary (prev next : option ascii) : bool :=
  xorb (from_option is_word false prev) (from_option is_word false next).

(** Does [r] match a prefix of [s], the character before [s] being [prev]?
    A quantified class first takes one more character when it may, and gives
    it back when the rest of the pattern fails. *)
Fixpoint match_here (r : regex) (prev : option ascii) (s : list ascii) : bool :=
  match r with
  | [] => true
  | WordB :: r' => if boundary prev (head s) then match_here r' prev s else false
  | Cls set min max :: r' =>
      (fix rep (n : nat) (prev : option ascii) (s : list ascii) {struct s} : bool :=
         if match s with
            | c :: s' =>
                if below max n then
                  if in_class set c then rep (Datatypes.S n) (Some c) s' else false
                else false
            | [] => false
            end
         then true
         else if (min <=? n)%nat then match_here r' prev s else false) O prev s
  end.

Fixpoint search (r : regex) (prev : option ascii) (s : list ascii) : bool :=
  if match_here r prev s then true
  else match s with
       | c :: s' => search r (Some c) s'
       | [] => false
       end.

Definition test (r : regex) (s : string) : bool :=
  search r None (list_ascii_of_string s).

End Regex.

(** ** Values and records of the server *)

(** What a [content] argument can be: a string, or the falsy non-strings. *)
Inductive jsval : Type :=
| JUndefined
| JNull
| JString (s : string).

Definition truthy (v : jsval) : bool :=
  match v with
  | JString s => negb (s =? "")
  | _ => false
  end.

(** [content || ''] *)
Definition or_empty (v : jsval) : string :=
  match v with
  | JString s => s
  | _ => ""
  end.

Record device : Type := mkDevice {
  dev_id : string;
  dev_name : string;
  dev_type : string;
  dev_autoSync : bool;
  dev_connectedAt : Z
}.

Record historyItem : Type := mkHistoryItem {
  h_content : string;
  h_timestamp : Z;
  h_hash : string;
  h_preview : string;
  h_size : nat
}.

(** An entry of [syncQueue]. *)
Record queued : Type := mkQueued {
  q_content : jsval;
  q_sourceId : string;
  q_autoWrite : bool;
  q_timestamp : Z;
  q_hash : string
}.

(** The fields of [EnhancedClipboardServer] that the engine reads or writes.
    [connectedDevices] is a [Map]: keys in insertion order. *)
Record server : Type := mkServer {
  headless : bool;
  connectedDevices : list (string * device);
  clipboardHistory : list historyItem;
  maxHistorySize : nat;
  lastClipboard : jsval;
  lastClipboardHash : string;
  syncQueue : list queued;
  processing : bool;
  conflictResolver : gmap string Z;
  lastSyncTime : Z;
  minSyncInterval : Z;
  autoSyncEnabled : bool;
  totalSyncs : nat;
  maxContentLength : Z;
  sensitivePatterns : list Regex.regex
}.

(** The payload of a [clipboard-update] event; [u_force] is false where the
    source leaves the field out. *)
Record updateData : Type := mkUpdate {
  u_content : jsval;
  u_from : string;
  u_timestamp : Z;
  u_hash : string;
  u_autoWrite : bool;
  u_force : bool
}.

Inductive message : Type :=
| ClipboardUpdate (d : updateData)
| ClipboardHistory (h : list historyItem)
| DeviceList (l : list device).

Inductive logmsg : Type :=
| LogAutoSyncDisabled
| LogConflict
| LogSensitive
| LogBlocked
| LogWritten
| LogWriteFailed
| LogSynced (devices : nat) (chars : nat)
| LogRegistered (name : string)
| LogUpdateFrom (socketId : string)
| LogAutoSync (name : string) (enabled : bool)
| LogDisconnected (socketId : string)
| LogLocalChange
| LogReadWarning.

(** What a handler does to the outside world, in order. *)
Inductive effect : Type :=
| EmitTo (target : string) (m : message)
| EmitAll (m : message)
| OsWrite (content : string) (ok : bool)
| HttpReply (status : nat)
| Log (m : logmsg).

(** The readings a call of [updateClipboard] takes from its environment:
    [Date.now()] at its rate-limit check, whether the clipboard write
    returns ([true]) or throws, and [Date.now()] inside [addToHistory]. *)
Record env : Type := mkEnv {
  now : Z;
  write_ok : bool;
  history_now : Z
}.

(** The [return] an invocation of [updateClipboard] leaves through. *)
Inductive outcome : Type :=
| Skipped
| Duplicate
| Queued
| Conflict
| Filtered
| Synced.

(** ** Field updates *)

Definition set_connectedDevices (v : list (string * device)) (s : server) : server :=
  mkServer (headless s) v (clipboardHistory s) (maxHistorySize s) (lastClipboard s)
    (lastClipboardHash s) (syncQueue s) (processing s) (conflictResolver s)
    (lastSyncTime s) (minSyncInterval s) (autoSyncEnabled s) (totalSyncs s)
    (maxContentLength s) (sensitivePatterns s).

Definition set_clipboardHistory (v : list historyItem) (s : server) : server :=
  mkServer (headless s) (connectedDevices s) v (maxHistorySize s) (lastClipboard s)
    (lastClipboardHash s) (syncQueue s) (processing s) (conflictResolver s)
    (lastSyncTime s) (minSyncInterval s) (autoSyncEnabled s) (totalSyncs s)
    (maxContentLength s) (sensitivePatterns s).

Definition set_syncQueue (v : list queued) (s : server) : server :=
  mkServer (headless s) (connectedDevices s) (clipboardHistory s) (maxHistorySize s)
    (lastClipboard s) (lastClipboardHash s) v (processing s) (conflictResolver s)
    (lastSyncTime s) (minSyncInterval s) (autoSyncEnabled s) (totalSyncs s)
    (maxContentLength s) (sensitivePatterns s).

Definition set_processing (v : bool) (s : server) : server :=
  mkServer (headless s) (connectedDevices s) (clipboardHistory s) (maxHistorySize s)
    (lastClipboard s) (lastClipboardHash s) (syncQueue s) v (conflictResolver s)
    (lastSyncTime s) (minSyncInterval s) (autoSyncEnabled s) (totalSyncs s)
    (maxContentLength s) (sensitivePatterns s).

Definition set_autoSyncEnabled (v : bool) (s : server) : server :=
  mkServer (headless s) (connectedDevices s) (clipboardHistory s) (maxHistorySize s)
    (lastClipboard s) (lastClipboardHash s) (syncQueue s) (processing s)
    (conflictResolver s) (lastSyncTime s) (minSyncInterval s) v (totalSyncs s)
    (maxContentLength s) (sensitivePatterns s).

Definition set_totalSyncs (v : nat) (s : server) : server :=
  mkServer (headless s) (connectedDevices s) (clipboardHistory s) (maxHistorySize s)
    (lastClipboard s) (lastClipboardHash s) (syncQueue s) (processing s)
    (conflictResolver s) (lastSyncTime s) (minSyncInterval s) (autoSyncEnabled s) v
    (maxContentLength s) (sensitivePatterns s).

Definition set_conflictResolver (v : gmap string Z) (s : server) : server :=
  mkServer (headless s) (connectedDevices s) (clipboardHistory s) (maxHistorySize s)
    (lastClipboard s) (lastClipboardHash s) (syncQueue s) (processing s) v
    (lastSyncTime s) (minSyncInterval s) (autoSyncEnabled s) (totalSyncs s)
    (maxContentLength s) (sensitivePatterns s).

(** Lines 549-552 of [updateClipboard]:
    [conflictResolver.set(contentHash, now); lastSyncTime = now;
     lastClipboard = content; lastClipboardHash = contentHash]. *)
Definition remember (contentHash : string) (t : Z) (content : jsval) (s : server) : server :=
  mkServer (headless s) (connectedDevices s) (clipboardHistory s) (maxHistorySize s)
    content contentHash (syncQueue s) (processing s)
    (<[contentHash := t]> (conflictResolver s))
    t (minSyncInterval s) (autoSyncEnabled s) (totalSyncs s)
    (maxContentLength s) (sensitivePatterns s).

(** ** The constructor *)

Definition sensitivePatterns0 : list Regex.regex :=
  [ Regex.lit_ci "password";
    Regex.lit_ci "secret";
    Regex.lit_ci "token";
    Regex.lit_ci "key" ++ [Regex.Cls Regex.space 0 None; Regex.once (Regex.chars ":=")];
    Regex.lit_ci "api" ++ [Regex.Cls (Regex.chars "_-") 0 (Some 1)] ++ Regex.lit_ci "key";
    [Regex.Cls Regex.digit 16 (Some 16)];
    [ Regex.WordB;
      Regex.Cls (Regex.alnum ++ Regex.chars "._%+-") 1 None;
      Regex.once (Regex.chars "@");
      Regex.Cls (Regex.alnum ++ Regex.chars ".-") 1 None;
      Regex.once (Regex.chars ".");
      Regex.Cls (Regex.upper ++ Regex.chars "|" ++ Regex.lower) 2 None;
      Regex.WordB ] ].

(** [new EnhancedClipboardServer(options)], [options.headless] given. *)
Definition new_server (headless0 : bool) : server :=
  {| headless := headless0;
     connectedDevices := [];
     clipboardHistory := [];
     maxHistorySize := 10;
     lastClipboard := JString "";
     lastClipboardHash := "";
     syncQueue := [];
     processing := false;
     conflictResolver := ∅;
     lastSyncTime := 0;
     minSyncInterval := 50;
     autoSyncEnabled := true;
     totalSyncs := 0;
     maxContentLength := 50000;
     sensitivePatterns := sensitivePatterns0 |}.

(** ** [generateHash], [isContentFiltered], [addToHistory] *)

Definition generateHash (content : jsval) : string :=
  MD5.hex (MD5.md5 (or_empty content)).

Definition matches_sensitive (s : server) (str : string) : bool :=
  existsb (fun p => Regex.test p str) (sensitivePatterns s).

Definition isContentFiltered (s : server) (content : jsval) : bool :=
  match content with
  | JString str =>
      if str =? "" then true
      else if (maxContentLength s <? Z.of_nat (String.length str))%Z then true
      else matches_sensitive s str
  | _ => true
  end.

(** The line [isContentFiltered] prints when a pattern matched. *)
Definition isContentFiltered_log (s : server) (content : jsval) : list effect :=
  match content with
  | JString str =>
      if str =? "" then []
      else if (maxContentLength s <? Z.of_nat (String.length str))%Z then []
      else if matches_sensitive s str then [Log LogSensitive] else []
  | _ => []
  end.

(** [Array.prototype.findIndex], [None] for -1. *)
Fixpoint findIndex {A : Type} (p : A -> bool) (l : list A) : option nat :=
  match l with
  | [] => None
  | x :: r => if p x then Some O else S <$> findIndex p r
  end.

(** [s.replace(/\n/g, ' ')] *)
Fixpoint replace_newlines (s : string) : string :=
  match s with
  | EmptyString => EmptyString
  | String c r =>
      String (if Ascii.eqb c "010"%char then " "%char else c) (replace_newlines r)
  end.

Definition new_historyItem (content : string) (t : Z) (hash : string) : historyItem :=
  {| h_content := substring 0 1000 content;
     h_timestamp := t;
     h_hash := hash;
     h_preview := replace_newlines (substring 0 100 content);
     h_size := String.length content |}.

(** [addToHistory(content)]; [t] is its reading of [Date.now()]. *)
Definition addToHistory (s : server) (content : string) (t : Z) : server * list effect :=
  if content =? "" then (s, [])
  else
    let hash := generateHash (JString content) in
    let existingIndex := findIndex (fun item => h_hash item =? hash) (clipboardHistory s) in
    match existingIndex with
    | Some O => (s, [])
    | _ =>
        let moved :=
          match existingIndex with
          | Some i =>
              match clipboardHistory s !! i with
              | Some item => item :: delete i (clipboardHistory s)
              | None => clipboardHistory s
              end
          | None => new_historyItem content t hash :: clipboardHistory s
          end in
        let kept :=
          if (maxHistorySize s <? length moved)%nat
          then take (maxHistorySize s) moved else moved in
        (set_clipboardHistory kept s, [EmitAll (ClipboardHistory kept)])
    end.

(** ** [processSyncQueue] and [updateClipboard] *)

(** [processSyncQueue()]: arms the timer unless one is armed already.  A
    timer is pending exactly while [processing] is true. *)
Definition processSyncQueue (s : server) : server :=
  if processing s || (length (syncQueue s) =? 0)%nat then s
  else set_processing true s.

(** [getAutoSyncDeviceCount()] *)
Definition getAutoSyncDeviceCount (s : server) : nat :=
  length (filter (fun d => dev_autoSync d = true) (map snd (connectedDevices s))).

(** [updateData], as the [forEach] at the end of [updateClipboard] builds it. *)
Definition payload (content : jsval) (sourceId : string) (t : Z) (contentHash : string)
    : updateData :=
  {| u_content := content; u_from := sourceId; u_timestamp := t;
     u_hash := contentHash; u_autoWrite := true; u_force := false |}.

(** The [forEach] at the end of [updateClipboard]. *)
Definition broadcast (s : server) (content : jsval) (sourceId : string)
    (t : Z) (contentHash : string) : list effect :=
  flat_map (fun kv : string * device =>
    let (deviceId, device) := kv in
    if negb (deviceId =? sourceId) && dev_autoSync device
    then [EmitTo deviceId (ClipboardUpdate (payload content sourceId t contentHash))]
    else [])
    (connectedDevices s).

(** The [try]/[catch] around the clipboard write (the server not running in
    terminal-only mode): the write returns or throws as [e] says, and the
    exception is caught here. *)
Definition write_clipboard (s : server) (content : string) (sourceId : string)
    (autoWrite : bool) (e : env) : list effect :=
  if autoWrite && negb (sourceId =? "local") then
    if write_ok e then
      OsWrite content true :: (if headless s then [] else [Log LogWritten])
    else
      OsWrite content false :: (if headless s then [] else [Log LogWriteFailed])
  else [].

(** The conflict check: [conflictResolver.has(contentHash)] and the entry is
    younger than one second. *)
Definition conflicting (s : server) (contentHash : string) (t : Z) : bool :=
  match conflictResolver s !! contentHash with
  | Some existingTime => (t - existingTime <? 1000)%Z
  | None => false
  end.

(** The entry [updateClipboard] pushes onto [syncQueue]. *)
Definition queue_entry (content : jsval) (sourceId : string) (autoWrite : bool) (e : env)
    : queued :=
  {| q_content := content; q_sourceId := sourceId; q_autoWrite := autoWrite;
     q_timestamp := now e; q_hash := generateHash content |}.

Definition updateClipboard (s : server) (content : jsval) (sourceId : string)
    (autoWrite : bool) (e : env) : server * list effect * outcome :=
  if negb (autoSyncEnabled s) && negb (sourceId =? "local") then
    (s, [Log LogAutoSyncDisabled], Skipped)
  else
    let contentHash := generateHash content in
    if contentHash =? lastClipboardHash s then (s, [], Duplicate)
    else if (now e - lastSyncTime s <? minSyncInterval s)%Z then
      let entry := queue_entry content sourceId autoWrite e in
      (processSyncQueue (set_syncQueue (syncQueue s ++ [entry]) s), [], Queued)
    else if conflicting s contentHash (now e) then (s, [Log LogConflict], Conflict)
    else
      let s1 := remember contentHash (now e) content s in
      if isContentFiltered s1 content then
        (s1, isContentFiltered_log s1 content ++ [Log LogBlocked], Filtered)
      else
        let str := or_empty content in
        let wr := write_clipboard s1 str sourceId autoWrite e in
        let (s2, hist) := addToHistory s1 str (history_now e) in
        let sent := broadcast s2 content sourceId (now e) contentHash in
        let s3 := set_totalSyncs (Datatypes.S (totalSyncs s2)) s2 in
        (s3,
         wr ++ hist ++ sent ++
           (if headless s3 then []
            else [Log (LogSynced (getAutoSyncDeviceCount s3) (String.length str))]),
         Synced).

(** ** The timer armed by [processSyncQueue] *)

(** The callback of [setTimeout]: takes the newest entry, empties the queue,
    re-submits the entry and only then clears [processing]. *)
Definition syncQueueTimer (s : server) (e : env) : server * list effect :=
  match last (syncQueue s) with
  | Some latest =>
      let '(s1, eff, _) :=
        updateClipboard (set_syncQueue [] s)
          (q_content latest) (q_sourceId latest) (q_autoWrite latest) e in
      (set_processing false s1, eff)
  | None => (set_processing false s, [])
  end.

(** ** [connectedDevices] as a [Map] *)

Fixpoint map_set (k : string) (v : device) (m : list (string * device))
    : list (string * device) :=
  match m with
  | [] => [(k, v)]
  | (k', v') :: r => if k' =? k then (k, v) :: r else (k', v') :: map_set k v r
  end.

Fixpoint map_get (k : string) (m : list (string * device)) : option device :=
  match m with
  | [] => None
  | (k', v') :: r => if k' =? k then Some v' else map_get k r
  end.

Fixpoint map_delete (k : string) (m : list (string * device)) : list (string * device) :=
  match m with
  | [] => []
  | (k', v') :: r => if k' =? k then r else (k', v') :: map_delete k r
  end.

(** ** Socket and HTTP handlers *)

(** The [deviceInfo] of a [register-device] event; [None] is a field left out. *)
Record deviceInfo : Type := mkDeviceInfo {
  i_name : option string;
  i_type : option string;
  i_autoSync : option bool
}.

(** [x || dflt] for a string that may be missing *)
Definition str_or (x : option string) (dflt : string) : string :=
  match x with
  | Some v => if v =? "" then dflt else v
  | None => dflt
  end.

(** [flag !== false] *)
Definition not_false (flag : option bool) : bool :=
  match flag with
  | Some false => false
  | _ => true
  end.

Definition server_update (s : server) (t : Z) (force : bool) : updateData :=
  {| u_content := lastClipboard s; u_from := "server"; u_timestamp := t;
     u_hash := lastClipboardHash s; u_autoWrite := true; u_force := force |}.

(** [socket.on('register-device', ...)]; [t] is [Date.now()]. *)
Definition register_device (s : server) (socketId : string) (info : deviceInfo) (t : Z)
    : server * list effect :=
  let device :=
    {| dev_id := socketId;
       dev_name := str_or (i_name info) ("Device " +:+ substring 0 6 socketId);
       dev_type := str_or (i_type info) "unknown";
       dev_autoSync := not_false (i_autoSync info);
       dev_connectedAt := t |} in
  let s1 := set_connectedDevices (map_set socketId device (connectedDevices s)) s in
  (s1,
   [ Log (LogRegistered (dev_name device));
     EmitAll (DeviceList (map snd (connectedDevices s1)));
     EmitAll (ClipboardHistory (clipboardHistory s1)) ] ++
   (if truthy (lastClipboard s1)
    then [EmitTo socketId (ClipboardUpdate (server_update s1 t false))]
    else [])).

(** [socket.on('clipboard-update', ...)] *)
Definition clipboard_update (s : server) (socketId : string) (content : string)
    (autoWrite : option bool) (e : env) : server * list effect :=
  let '(s1, eff, _) := updateClipboard s (JString content) socketId (not_false autoWrite) e in
  (s1, Log (LogUpdateFrom socketId) :: eff).

(** [socket.on('toggle-auto-sync', ...)] *)
Definition toggle_auto_sync (s : server) (socketId : string) (enabled : bool)
    : server * list effect :=
  match map_get socketId (connectedDevices s) with
  | Some device =>
      let device' := mkDevice (dev_id device) (dev_name device) (dev_type device)
                       enabled (dev_connectedAt device) in
      (set_connectedDevices (map_set socketId device' (connectedDevices s)) s,
       [Log (LogAutoSync (dev_name device) enabled)])
  | None => (s, [])
  end.

(** [clipboardHistory[index]] when [index >= 0 && index < length] *)
Definition history_at (s : server) (index : Z) : option historyItem :=
  if (0 <=? index)%Z && (index <? Z.of_nat (length (clipboardHistory s)))%Z
  then clipboardHistory s !! Z.to_nat index else None.

(** [socket.on('use-history-item', ...)] *)
Definition use_history_item (s : server) (socketId : string) (index : Z) (e : env)
    : server * list effect :=
  match history_at s index with
  | Some item =>
      let '(s1, eff, _) := updateClipboard s (JString (h_content item)) socketId true e in
      (s1, eff)
  | None => (s, [])
  end.

(** [socket.on('disconnect', ...)] *)
Definition disconnect (s : server) (socketId : string) : server * list effect :=
  let s1 := set_connectedDevices (map_delete socketId (connectedDevices s)) s in
  (s1, [Log (LogDisconnected socketId); EmitAll (DeviceList (map snd (connectedDevices s1)))]).

(** [forceSyncToDevice(deviceId)], the handler of [force-sync] *)
Definition forceSyncToDevice (s : server) (deviceId : string) (t : Z) : server * list effect :=
  (s, if truthy (lastClipboard s)
      then [EmitTo deviceId (ClipboardUpdate (server_update s t true))]
      else []).

(** [POST /api/clipboard] with [content] the field of the request body *)
Definition post_clipboard (s : server) (content : jsval) (e : env) : server * list effect :=
  match content with
  | JUndefined => (s, [HttpReply 400])
  | _ =>
      let '(s1, eff, _) := updateClipboard s content "api" true e in
      (s1, eff ++ [HttpReply 200])
  end.

(** [POST /api/history/:index]; [None] is an index [parseInt] cannot read. *)
Definition post_history (s : server) (index : option Z) (e : env) : server * list effect :=
  match index ≫= history_at s with
  | Some item =>
      let '(s1, eff, _) := updateClipboard s (JString (h_content item)) "history" true e in
      (s1, eff ++ [HttpReply 200])
  | None => (s, [HttpReply 404])
  end.

(** [POST /api/settings], the [autoSync] field of the body *)
Definition post_settings (s : server) (autoSync : option bool) : server * list effect :=
  (match autoSync with
   | Some b => set_autoSyncEnabled b s
   | None => s
   end, [HttpReply 200]).

(** What the clipboard read of a tick gave: the text it returned, or the
    [message] of the error it threw. *)
Inductive clipboardRead : Type :=
| ReadOk (currentClipboard : string)
| ReadThrows (message : string).

(** One tick of the interval set by [startClipboardMonitoring].  The [catch]
    prints its warning unless the server is headless or the error says
    ["No clipboard content"]. *)
Definition monitor_tick (s : server) (read : clipboardRead) (e : env) : server * list effect :=
  match read with
  | ReadOk currentClipboard =>
      if negb (generateHash (JString currentClipboard) =? lastClipboardHash s)
         && negb (currentClipboard =? "")
      then
        let '(s1, eff, _) := updateClipboard s (JString currentClipboard) "local" false e in
        (s1, (if headless s then [] else [Log LogLocalChange]) ++ eff)
      else (s, [])
  | ReadThrows message =>
      (s, if negb (headless s) && negb (message =? "No clipboard content")
          then [Log LogReadWarning] else [])
  end.

(** The periodic clean-up started by [start()]: entries of
    [conflictResolver] older than five seconds go. *)
Definition cleanup_conflicts (s : server) (t : Z) : server :=
  set_conflictResolver (filter (fun kv : string * Z => ¬ (t - kv.2 > 5000)%Z) (conflictResolver s)) s.

(** ** The server as a transition system *)

Inductive event : Type :=
| RegisterDevice (socketId : string) (info : deviceInfo) (t : Z)
| ClipboardUpdateFrom (socketId : string) (content : string) (autoWrite : option bool) (e : env)
| ToggleAutoSync (socketId : string) (enabled : bool)
| UseHistoryItem (socketId : string) (index : Z) (e : env)
| Disconnect (socketId : string)
| ForceSync (socketId : string) (t : Z)
| PostClipboard (content : jsval) (e : env)
| PostHistory (index : option Z) (e : env)
| PostSettings (autoSync : option bool)
| MonitorTick (read : clipboardRead) (e : env)
| QueueTimer (e : env)
| CleanupTimer (t : Z).

(** [QueueTimer] can only happen while a timer is armed. *)
Definition step (s : server) (ev : event) : server * list effect :=
  match ev with
  | RegisterDevice socketId info t => register_device s socketId info t
  | ClipboardUpdateFrom socketId content autoWrite e =>
      clipboard_update s socketId content autoWrite e
  | ToggleAutoSync socketId enabled => toggle_auto_sync s socketId enabled
  | UseHistoryItem socketId index e => use_history_item s socketId index e
  | Disconnect socketId => disconnect s socketId
  | ForceSync socketId t => forceSyncToDevice s socketId t
  | PostClipboard content e => post_clipboard s content e
  | PostHistory index e => post_history s index e
  | PostSettings autoSync => post_settings s autoSync
  | MonitorTick read e => monitor_tick s read e
  | QueueTimer e => if processing s then syncQueueTimer s e else (s, [])
  | CleanupTimer t => (cleanup_conflicts s t, [])
  end.

Fixpoint run (s : server) (evs : list event) : server * list effect :=
  match evs with
  | [] => (s, [])
  | ev :: rest =>
      let (s1, eff1) := step s ev in
      let (s2, eff2) := run s1 rest in
      (s2, eff1 ++ eff2)
  end.

(** ** Observations on effects *)

(** The devices a [clipboard-update] with these effects goes to, with what
    each receives. *)
Definition deliveries (effs : list effect) : list (string * updateData) :=
  flat_map (fun ef =>
    match ef with
    | EmitTo target (ClipboardUpdate d) => [(target, d)]
    | _ => []
    end) effs.

Definition os_writes (effs : list effect) : list string :=
  flat_map (fun ef =>
    match ef with
    | OsWrite c _ => [c]
    | _ => []
    end) effs.

Definition history_emits (effs : list effect) : list (list historyItem) :=
  flat_map (fun ef =>
    match ef with
    | EmitAll (ClipboardHistory h) => [h]
    | EmitTo _ (ClipboardHistory h) => [h]
    | _ => []
    end) effs.

Definition logged (m : logmsg) (effs : list effect) : Prop := In (Log m) effs.

Definition logs (effs : list effect) : list logmsg :=
  flat_map (fun ef =>
    match ef with
    | Log m => [m]
    | _ => []
    end) effs.

(** The gate at the top of [updateClipboard] is open: sync is on, or the
    update comes from the poller. *)
Definition gate_open (s : server) (sourceId : string) : Prop :=
  autoSyncEnabled s = true \/ sourceId = "local".

(** What the handlers keep true of the state: the keys of the [Map] are
    distinct and the history is within its cap. *)
Definition wf (s : server) : Prop :=
  NoDup (map fst (connectedDevices s))
  /\ length (clipboardHistory s) <= maxHistorySize s.

(** The settings the constructor fixes. *)
Definition same_config (s s' : server) : Prop :=
  headless s' = headless s
  /\ maxHistorySize s' = maxHistorySize s
  /\ minSyncInterval s' = minSyncInterval s
  /\ maxContentLength s' = maxContentLength s
  /\ sensitivePatterns s' = sensitivePatterns s.

(** The targets of the fan-out: registered, auto-sync on, not the sender. *)
Definition fanout_targets (s : server) (sourceId : string) : list string :=
  map fst (filter (fun kv : string * device =>
                     kv.1 <> sourceId /\ dev_autoSync kv.2 = true)
                  (connectedDevices s)).

(** ** The history contract, as the specification words it

    [record(content, hash, timestamp)]: nothing happens when [hash] is the
    hash of the front item; an item with that hash further down moves to the
    front; otherwise a new item goes to the front and the tail is evicted
    beyond the cap.  With [refresh] the moved item takes the content and
    timestamp of the new occurrence; without, it moves as it is. *)

Fixpoint remove_hash (hash : string) (store : list historyItem) : list historyItem :=
  match store with
  | [] => []
  | item :: rest => if h_hash item =? hash then rest else item :: remove_hash hash rest
  end.

Definition refreshed (item : historyItem) (content : string) (t : Z) : historyItem :=
  {| h_content := substring 0 1000 content;
     h_timestamp := t;
     h_hash := h_hash item;
     h_preview := h_preview item;
     h_size := h_size item |}.

Definition record_contract (refresh : bool) (cap : nat) (store : list historyItem)
    (content hash : string) (t : Z) : list historyItem :=
  match store with
  | front :: _ =>
      if h_hash front =? hash then store
      else
        match List.find (fun item => h_hash item =? hash) store with
        | Some item =>
            (if refresh then refreshed item content t else item) :: remove_hash hash store
        | None => take cap (new_historyItem content t hash :: store)
        end
  | [] => take cap [new_historyItem content t hash]
  end.

(** Recording a sequence of contents, each with its own clock reading. *)
Definition record_all (s : server) (cs : list (string * Z)) : server :=
  fold_left (fun s ct => (addToHistory s ct.1 ct.2).1) cs s.

Definition fresh_item (ct : string * Z) : historyItem :=
  new_historyItem ct.1 ct.2 (generateHash (JString ct.1)).

(** ** [getStats] *)



(** ** Further observations *)

(** The states a server started by the constructor can be in. *)
Definition reachable (s : server) : Prop :=
  exists (h : bool) (evs : list event), s = (run (new_server h) evs).1.

(** The number of lines "Clipboard synced to ... devices" among the effects. *)
Definition synced_lines (effs : list effect) : nat :=
  length (flat_map (fun ef =>
    match ef with
    | Log (LogSynced n k) => [(n, k)]
    | _ => []
    end) effs).

(** The replies to HTTP requests among the effects. *)
Definition http_replies (effs : list effect) : list nat :=
  flat_map (fun ef =>
    match ef with
    | HttpReply status => [status]
    | _ => []
    end) effs.

(** Events that hand a content to [updateClipboard] under a source other
    than ["local"]: updates and history picks of a device, and the two POST
    routes. *)
Definition remote_ingest (ev : event) : Prop :=
  match ev with
  | ClipboardUpdateFrom socketId _ _ _ => socketId <> "local"
  | UseHistoryItem socketId _ _ => socketId <> "local"
  | PostClipboard _ _ => True
  | PostHistory _ _ => True
  | _ => False
  end.

(** A timer is armed only over a queue that holds something. *)
Definition timer_inv (s : server) : Prop :=
  processing s = true -> syncQueue s <> [].

(** The last known value and its fingerprint belong together. *)
Definition last_known_inv (s : server) : Prop :=
  (lastClipboard s = JString "" /\ lastClipboardHash s = "")
  \/ lastClipboardHash s = generateHash (lastClipboard s).

(** A history item made by [addToHistory] from a content the filter let
    through. *)
Definition item_of_accepted (s : server) (item : historyItem) : Prop :=
  exists (content : string) (t : Z),
    item = new_historyItem content t (generateHash (JString content))
    /\ isContentFiltered s (JString content) = false.

Definition history_inv (s : server) : Prop :=
  Forall (item_of_accepted s) (clipboardHistory s)
  /\ NoDup (map h_hash (clipboardHistory s)).

(** [s.toLowerCase()] on letters A-Z *)
Definition lower_char (a : ascii) : ascii :=
  if Regex.in_class Regex.upper a then ascii_of_N (Regex.code a + 32) else a.

Fixpoint lower_string (s : string) : string :=
  match s with
  | EmptyString => EmptyString
  | String c r => String (lower_char c) (lower_string r)
  end.

Definition all_digits (s : string) : Prop :=
  Forall (fun a => Regex.in_class Regex.digit a = true) (list_ascii_of_string s).

(** ** Scenarios *)

(** The string of [n] characters [c]. *)
Fixpoint repeat_char (n : nat) (c : ascii) : string :=
  match n with
  | O => EmptyString
  | Datatypes.S n => String c (repeat_char n c)
  end.

Definition plain_info : deviceInfo := mkDeviceInfo None None None.

(** Readings of an update at time [t] whose clipboard write succeeds. *)
Definition at_time (t : Z) : env := mkEnv t true t.

(** D1, D2 and D3 registered on a fresh server. *)
Definition three_devices : server :=
  (run (new_server false)
     [ RegisterDevice "D1" plain_info 1;
       RegisterDevice "D2" plain_info 2;
       RegisterDevice "D3" plain_info 3 ]).1.

(** The same with D2's auto-sync switched off. *)
Definition d2_manual : server := (step three_devices (ToggleAutoSync "D2" false)).1.

(** D1 has sent a string with an API key to the three devices. *)
Definition after_secret : server :=
  (updateClipboard three_devices (JString "my api_key: xyz123") "D1" true
     (at_time 1000)).1.1.

(** Sync paused through [POST /api/settings]. *)
Definition paused : server := (step three_devices (PostSettings (Some false))).1.

(** D1's "X" was accepted at time 1000. *)
Definition after_X : server :=
  (updateClipboard three_devices (JString "X") "D1" true (at_time 1000)).1.1.

(** A fresh server: D1 registers and sends an API key, D2 registers,
    D1 asks for a forced re-sync. *)
Definition secret_trace : list event :=
  [ RegisterDevice "D1" plain_info 1;
    ClipboardUpdateFrom "D1" "my api_key: xyz123" None (at_time 1000);
    RegisterDevice "D2" plain_info 2000;
    ForceSync "D1" 3000 ].

(** "A" recorded at time 1 and "B" at time 2 on a fresh server. *)
Definition recorded_AB : server := record_all (new_server false) [("A", 1%Z); ("B", 2%Z)].

(** The three devices on a server started with [headless]. *)
Definition headless_devices : server :=
  (run (new_server true)
     [ RegisterDevice "D1" plain_info 1;
       RegisterDevice "D2" plain_info 2;
       RegisterDevice "D3" plain_info 3 ]).1.

(** After "X" was accepted at time 1000: D1 sends "Y" at 1010 and "X" again
    at 1020, and the timer armed by "Y" fires at 1060. *)
Definition stale_trace : list event :=
  [ ClipboardUpdateFrom "D1" "Y" None (at_time 1010);
    ClipboardUpdateFrom "D1" "X" None (at_time 1020);
    QueueTimer (at_time 1060) ].

(** Readings of an update at time [t] whose clipboard write throws. *)
Definition write_fails_at (t : Z) : env := mkEnv t false t.

(** After "X" was accepted at 1000: "Y" from D1 is queued at 1040, and "Z"
    from D2, arriving at 1060, is accepted while "Y" waits for its timer. *)
Definition overtaken_trace : list event :=
  [ ClipboardUpdateFrom "D1" "Y" None (at_time 1040);
    ClipboardUpdateFrom "D2" "Z" None (at_time 1060) ].

Definition overtaken : server := (run after_X overtaken_trace).1.

(** The events that lead a fresh server to [after_X]. *)
Definition after_X_trace : list event :=
  [ RegisterDevice "D1" plain_info 1;
    RegisterDevice "D2" plain_info 2;
    RegisterDevice "D3" plain_info 3;
    ClipboardUpdateFrom "D1" "X" None (at_time 1000) ].

(** The [stats] object of [GET /api/device-info]: its [totalSyncs] and
    [lastSyncTime] fields. *)
Definition device_info_stats (s : server) : nat * Z :=
  (length (syncQueue s), lastSyncTime s).

(** The digest is computed by [vm_compute] only; proofs never unfold it. *)
Opaque MD5.md5.
Opaque Regex.test.
Arguments generateHash : simpl never.
Arguments matches_sensitive : simpl never.

(** * Properties *)

Section Fingerprint.

Example md5_empty : generateHash (JString "") = "d41d8cd98f00b204e9800998ecf8427e".
Proof. vm_compute. reflexivity. Qed.

Example md5_hello : generateHash (JString "hello") = "5d41402abc4b2a76b9719d911017c592".
Proof. vm_compute. reflexivity. Qed.

Example md5_two_blocks :
  generateHash (JString "aaaaaaaaaaaaaaaaaaaaaaaaaaaaaaaaaaaaaaaaaaaaaaaaaaaaaaaaaaaa")
  = "cc7ed669cf88f201c3297c6a91e1d18d".
Proof. vm_compute. reflexivity. Qed.

(** Padding at the block boundary, and a code unit above 127 (e acute). *)
Example md5_55 :
  generateHash (JString (repeat_char 55 "c")) = "b10b80f4827119c278d5ed1800b05206".
Proof. vm_compute. reflexivity. Qed.

Example md5_56 :
  generateHash (JString (repeat_char 56 "c")) = "228784bce59b932df9388be833d9fe5c".
Proof. vm_compute. reflexivity. Qed.

Example md5_64 :
  generateHash (JString (repeat_char 64 "c")) = "bcd5708ed79b18f0f0aaa27fd0056d86".
Proof. vm_compute. reflexivity. Qed.

Example md5_latin1 :
  generateHash (JString (String (ascii_of_nat 233) "")) = "66ddcd97cfdeabb2f6fb8a999b4bc76f".
Proof. vm_compute. reflexivity. Qed.

(** Falsy contents all hash like the empty string. *)
Lemma generateHash_falsy (c : jsval) :
  truthy c = false -> generateHash c = generateHash (JString "").
Proof.
  destruct c as [| |str]; try reflexivity.
  simpl. destruct (String.eqb_spec str ""); [subst; reflexivity | discriminate].
Qed.

(** A hex digest is never the empty string the constructor puts in
    [lastClipboardHash]. *)
Lemma generateHash_nonempty (c : jsval) : generateHash c <> "".
Proof.
  unfold generateHash, MD5.hex.
  destruct (MD5.md5 (or_empty c)) as [[[a b] c'] d].
  discriminate.
Qed.

(** So loop suppression never stops the first update of a fresh server. *)
Lemma fresh_server_no_duplicate (h : bool) (c : jsval) :
  (generateHash c =? lastClipboardHash (new_server h)) = false.
Proof. apply String.eqb_neq, generateHash_nonempty. Qed.

End Fingerprint.

Section Filter.

Example filter_api_key :
  isContentFiltered (new_server false) (JString "my api_key: xyz123") = true.
Proof. vm_compute. reflexivity. Qed.

Example filter_hello : isContentFiltered (new_server false) (JString "hello") = false.
Proof. vm_compute. reflexivity. Qed.

Example filter_card :
  isContentFiltered (new_server false) (JString "card 4111111111111111") = true.
Proof. vm_compute. reflexivity. Qed.

Example filter_email :
  isContentFiltered (new_server false) (JString "write to bob@example.org") = true.
Proof. vm_compute. reflexivity. Qed.

(** The length limit is inclusive. *)
Example filter_at_limit :
  isContentFiltered (new_server false) (JString (repeat_char (Z.to_nat 50000) "c")) = false.
Proof. vm_compute. reflexivity. Qed.

Example filter_over_limit :
  isContentFiltered (new_server false) (JString (repeat_char (Z.to_nat 50001) "c")) = true.
Proof. vm_compute. reflexivity. Qed.

Lemma isContentFiltered_falsy (s : server) (c : jsval) :
  truthy c = false -> isContentFiltered s c = true.
Proof.
  destruct c as [| |str]; try reflexivity.
  simpl. destruct (str =? ""); [reflexivity | discriminate].
Qed.

End Filter.

(** ** Effects of the pieces of [updateClipboard] *)

Section Effects.

Lemma deliveries_app (a b : list effect) :
  deliveries (a ++ b) = deliveries a ++ deliveries b.
Proof. unfold deliveries. apply flat_map_app. Qed.

Lemma os_writes_app (a b : list effect) :
  os_writes (a ++ b) = os_writes a ++ os_writes b.
Proof. unfold os_writes. apply flat_map_app. Qed.

Lemma history_emits_app (a b : list effect) :
  history_emits (a ++ b) = history_emits a ++ history_emits b.
Proof. unfold history_emits. apply flat_map_app. Qed.

Lemma write_clipboard_deliveries s str src aw e :
  deliveries (write_clipboard s str src aw e) = [].
Proof.
  unfold write_clipboard.
  destruct (aw && negb (src =? "local")), (write_ok e), (headless s); reflexivity.
Qed.

Lemma write_clipboard_history_emits s str src aw e :
  history_emits (write_clipboard s str src aw e) = [].
Proof.
  unfold write_clipboard.
  destruct (aw && negb (src =? "local")), (write_ok e), (headless s); reflexivity.
Qed.

Lemma isContentFiltered_log_silent s c :
  deliveries (isContentFiltered_log s c) = []
  /\ os_writes (isContentFiltered_log s c) = []
  /\ history_emits (isContentFiltered_log s c) = [].
Proof.
  unfold isContentFiltered_log. destruct c as [| |str]; auto.
  destruct (str =? ""); auto.
  destruct (maxContentLength s <? Z.of_nat (String.length str))%Z; auto.
  destruct (matches_sensitive s str); auto.
Qed.

(** [addToHistory] touches the history and nothing else. *)
Lemma addToHistory_frame s str t :
  let s' := (addToHistory s str t).1 in
  s' = set_clipboardHistory (clipboardHistory s') s.
Proof.
  unfold addToHistory.
  destruct (str =? ""); [destruct s; reflexivity|].
  destruct (findIndex _ _) as [[|i]|]; try (destruct s; reflexivity).
Qed.

Lemma addToHistory_effects s str t :
  let eff := (addToHistory s str t).2 in
  deliveries eff = [] /\ os_writes eff = [] /\
  (eff = [] \/ eff = [EmitAll (ClipboardHistory (clipboardHistory (addToHistory s str t).1))]).
Proof.
  unfold addToHistory.
  destruct (str =? ""); [simpl; auto|].
  destruct (findIndex _ _) as [[|i]|]; simpl; auto.
Qed.

(** The [forEach] sends one event to each fan-out target, in [Map] order. *)
Lemma broadcast_deliveries s c src t h :
  deliveries (broadcast s c src t h)
  = map (fun id => (id, payload c src t h)) (fanout_targets s src).
Proof.
  unfold broadcast, fanout_targets.
  induction (connectedDevices s) as [|[k d] l IH]; [reflexivity|].
  cbn [flat_map]. rewrite deliveries_app, IH. clear IH.
  destruct (String.eqb_spec k src) as [->|Hne]; cbn [negb andb].
  - rewrite filter_cons_False by (simpl; tauto). reflexivity.
  - destruct (dev_autoSync d) eqn:Ha.
    + rewrite filter_cons_True by (simpl; tauto). reflexivity.
    + rewrite filter_cons_False by (simpl; intros [_ ?]; congruence). reflexivity.
Qed.

End Effects.

(** ** The return paths of [updateClipboard] *)

Section Paths.

Variables (s : server) (content : jsval) (sourceId : string) (autoWrite : bool) (e : env).

Lemma gate_open_test :
  gate_open s sourceId -> negb (autoSyncEnabled s) && negb (sourceId =? "local") = false.
Proof.
  intros [->| ->]; [reflexivity|].
  rewrite String.eqb_refl. apply andb_false_r.
Qed.

Lemma gate_closed_test :
  ~ gate_open s sourceId -> negb (autoSyncEnabled s) && negb (sourceId =? "local") = true.
Proof.
  unfold gate_open. intros H.
  destruct (autoSyncEnabled s); [tauto|].
  destruct (String.eqb_spec sourceId "local"); [tauto | reflexivity].
Qed.

(** What the accept path leaves behind, in full. *)
Lemma updateClipboard_synced :
  (updateClipboard s content sourceId autoWrite e).2 = Synced ->
  let contentHash := generateHash content in
  let s1 := remember contentHash (now e) content s in
  let s2 := (addToHistory s1 (or_empty content) (history_now e)).1 in
  gate_open s sourceId
  /\ contentHash <> lastClipboardHash s
  /\ (minSyncInterval s <= now e - lastSyncTime s)%Z
  /\ conflicting s contentHash (now e) = false
  /\ isContentFiltered s content = false
  /\ (updateClipboard s content sourceId autoWrite e).1.1
       = set_totalSyncs (Datatypes.S (totalSyncs s2)) s2
  /\ (updateClipboard s content sourceId autoWrite e).1.2
       = write_clipboard s1 (or_empty content) sourceId autoWrite e
         ++ (addToHistory s1 (or_empty content) (history_now e)).2
         ++ broadcast s content sourceId (now e) contentHash
         ++ (if headless s then []
             else [Log (LogSynced (getAutoSyncDeviceCount s)
                                  (String.length (or_empty content)))]).
Proof.
  unfold updateClipboard.
  destruct (negb (autoSyncEnabled s) && negb (sourceId =? "local")) eqn:Hg;
    [discriminate|].
  destruct (String.eqb_spec (generateHash content) (lastClipboardHash s)) as [|Hh];
    [discriminate|].
  destruct (Z.ltb_spec (now e - lastSyncTime s) (minSyncInterval s)); [discriminate|].
  destruct (conflicting s (generateHash content) (now e)) eqn:Hc; [discriminate|].
  change (isContentFiltered (remember (generateHash content) (now e) content s) content)
    with (isContentFiltered s content).
  destruct (isContentFiltered s content) eqn:Hf; [discriminate|].
  pose proof (addToHistory_frame (remember (generateHash content) (now e) content s)
                (or_empty content) (history_now e)) as Hfr.
  destruct (addToHistory _ _ _) as [s2 hist] eqn:Hadd. cbn [fst snd] in *.
  intros _. repeat split; auto.
  - unfold gate_open. destruct (autoSyncEnabled s); [auto|].
    destruct (String.eqb_spec sourceId "local"); [auto | discriminate].
  - rewrite Hfr. reflexivity.
Qed.

End Paths.

(** ** Fan-out *)

Section Fanout.

Lemma synced_deliveries s content sourceId autoWrite e :
  (updateClipboard s content sourceId autoWrite e).2 = Synced ->
  deliveries (updateClipboard s content sourceId autoWrite e).1.2
  = map (fun id => (id, payload content sourceId (now e) (generateHash content)))
        (fanout_targets s sourceId).
Proof.
  intros H. destruct (updateClipboard_synced _ _ _ _ _ H) as (_ & _ & _ & _ & _ & _ & ->).
  rewrite !deliveries_app, write_clipboard_deliveries.
  destruct (addToHistory_effects (remember (generateHash content) (now e) content s)
              (or_empty content) (history_now e)) as (-> & _).
  rewrite broadcast_deliveries. destruct (headless s); cbn; by rewrite app_nil_r.
Qed.

Lemma fanout_targets_spec s sourceId id :
  id ∈ fanout_targets s sourceId <->
  exists d, (id, d) ∈ connectedDevices s /\ dev_autoSync d = true /\ id <> sourceId.
Proof.
  unfold fanout_targets. rewrite list_elem_of_fmap. split.
  - intros [[k d] [-> [[Hne Ha] Hin]%list_elem_of_filter]]. eauto.
  - intros (d & Hin & Ha & Hne). exists (id, d). split; [reflexivity|].
    apply list_elem_of_filter. auto.
Qed.

Lemma fanout_targets_nodup s sourceId :
  NoDup (map fst (connectedDevices s)) -> NoDup (fanout_targets s sourceId).
Proof.
  unfold fanout_targets. induction (connectedDevices s) as [|kv l IH]; cbn [map].
  - intros _. rewrite filter_nil. constructor.
  - intros [Hnotin Hnd]%NoDup_cons.
    destruct (decide (kv.1 <> sourceId /\ dev_autoSync kv.2 = true)).
    + rewrite filter_cons_True by assumption. cbn [map fmap list_fmap].
      apply NoDup_cons. split; [|auto].
      intros [x [Hx [_ Hin]%list_elem_of_filter]]%list_elem_of_fmap.
      apply Hnotin. apply list_elem_of_fmap. exists x. auto.
    + rewrite filter_cons_False by assumption. auto.
Qed.

Lemma map_fst_deliveries (f : string -> updateData) (l : list string) :
  map fst (map (fun id => (id, f id)) l) = l.
Proof. induction l; cbn; congruence. Qed.

End Fanout.

(** C5. An accepted update is sent to exactly the registered devices whose
    [autoSync] flag is true and whose id differs from the update's
    [sourceId], once each and in the order of the [Map]: the sender is not
    among the targets, and a device with [autoSync = false] receives
    nothing. *)
Theorem C5_fanout_exactly_autosync_except_sender
    (s : server) (content : jsval) (sourceId : string) (autoWrite : bool) (e : env) :
  (updateClipboard s content sourceId autoWrite e).2 = Synced ->
  NoDup (map fst (connectedDevices s)) ->
  let sent := deliveries (updateClipboard s content sourceId autoWrite e).1.2 in
  sent = map (fun id => (id, payload content sourceId (now e) (generateHash content)))
             (fanout_targets s sourceId)
  /\ (forall id, id ∈ map fst sent <->
        exists d, (id, d) ∈ connectedDevices s /\ dev_autoSync d = true /\ id <> sourceId)
  /\ NoDup (map fst sent)
  /\ (sourceId ∉ map fst sent)
  /\ (forall id d, (id, d) ∈ connectedDevices s -> dev_autoSync d = false ->
        id ∉ map fst sent).
Proof.
  intros H Hnd sent. subst sent. rewrite (synced_deliveries _ _ _ _ _ H).
  rewrite map_fst_deliveries. split; [reflexivity|].
  split; [apply fanout_targets_spec|].
  split; [by apply fanout_targets_nodup|].
  split.
  - rewrite fanout_targets_spec. intros (d & _ & _ & Hne). congruence.
  - intros id d Hin Hoff. rewrite fanout_targets_spec. intros (d' & Hin' & Hon & _).
    assert (d = d') as <-; [|congruence].
    clear -Hnd Hin Hin'. induction (connectedDevices s) as [|[k v] l IH]; cbn [map] in *.
    + by apply elem_of_nil in Hin.
    + apply NoDup_cons in Hnd as [Hk Hnd].
      apply elem_of_cons in Hin as [Hin|Hin], Hin' as [Hin'|Hin'].
      * congruence.
      * injection Hin as -> ->. exfalso. apply Hk.
        apply list_elem_of_fmap. by exists (k, d').
      * injection Hin' as -> ->. exfalso. apply Hk.
        apply list_elem_of_fmap. by exists (k, d).
      * auto.
Qed.

(** ** Loop suppression *)

Section LoopSuppression.

Variables (s : server) (content : jsval) (sourceId : string) (autoWrite : bool) (e : env).

(** An update whose fingerprint is [lastClipboardHash] changes nothing. *)
Lemma updateClipboard_duplicate :
  generateHash content = lastClipboardHash s ->
  (gate_open s sourceId ->
     updateClipboard s content sourceId autoWrite e = (s, [], Duplicate))
  /\ (~ gate_open s sourceId ->
     updateClipboard s content sourceId autoWrite e = (s, [Log LogAutoSyncDisabled], Skipped)).
Proof.
  intros Hh. unfold updateClipboard. split; intros Hg.
  - rewrite (gate_open_test _ _ Hg), Hh, String.eqb_refl. reflexivity.
  - rewrite (gate_closed_test _ _ Hg). reflexivity.
Qed.

(** The bookkeeping the accept path leaves in the state. *)
Lemma updateClipboard_synced_state :
  (updateClipboard s content sourceId autoWrite e).2 = Synced ->
  let s' := (updateClipboard s content sourceId autoWrite e).1.1 in
  lastClipboardHash s' = generateHash content
  /\ lastClipboard s' = content
  /\ lastSyncTime s' = now e
  /\ connectedDevices s' = connectedDevices s
  /\ autoSyncEnabled s' = autoSyncEnabled s
  /\ clipboardHistory s'
     = clipboardHistory
         (addToHistory (remember (generateHash content) (now e) content s)
                       (or_empty content) (history_now e)).1.
Proof.
  intros H. destruct (updateClipboard_synced _ _ _ _ _ H) as (_ & _ & _ & _ & _ & -> & _).
  rewrite addToHistory_frame. cbn. auto 10.
Qed.

(** Nothing stands between a fresh, timely, unfiltered update and the
    accept path. *)
Lemma updateClipboard_accepts :
  gate_open s sourceId ->
  generateHash content <> lastClipboardHash s ->
  (minSyncInterval s <= now e - lastSyncTime s)%Z ->
  conflicting s (generateHash content) (now e) = false ->
  isContentFiltered s content = false ->
  (updateClipboard s content sourceId autoWrite e).2 = Synced.
Proof.
  intros Hg Hh Ht Hc Hf. unfold updateClipboard.
  rewrite (gate_open_test _ _ Hg).
  destruct (String.eqb_spec (generateHash content) (lastClipboardHash s)); [contradiction|].
  destruct (Z.ltb_spec (now e - lastSyncTime s) (minSyncInterval s)); [lia|].
  rewrite Hc.
  change (isContentFiltered (remember (generateHash content) (now e) content s) content)
    with (isContentFiltered s content).
  rewrite Hf. destruct (addToHistory _ _ _). reflexivity.
Qed.

End LoopSuppression.

(** C2. When an update has been accepted, an update with the same content
    that follows it, from whatever source and whenever, has the fingerprint
    now stored in [lastClipboardHash] and is dropped: the state is not
    changed and nothing is written, recorded or sent, so the two together
    give one broadcast. *)
Theorem C2_identical_update_is_discarded
    (s : server) (c : jsval) (src1 src2 : string) (aw1 aw2 : bool) (e1 e2 : env) :
  (updateClipboard s c src1 aw1 e1).2 = Synced ->
  let first := updateClipboard s c src1 aw1 e1 in
  let second := updateClipboard first.1.1 c src2 aw2 e2 in
  generateHash c = lastClipboardHash first.1.1
  /\ second.1.1 = first.1.1
  /\ (second.2 = Duplicate \/ second.2 = Skipped)
  /\ (gate_open first.1.1 src2 -> second = (first.1.1, [], Duplicate))
  /\ deliveries second.1.2 = []
  /\ os_writes second.1.2 = []
  /\ history_emits second.1.2 = []
  /\ deliveries (first.1.2 ++ second.1.2) = deliveries first.1.2.
Proof.
  intros H first second.
  destruct (updateClipboard_synced_state _ _ _ _ _ H) as (Hh & _).
  fold first in Hh. symmetry in Hh.
  destruct (updateClipboard_duplicate first.1.1 c src2 aw2 e2 Hh) as [Hopen Hclosed].
  fold second in Hopen, Hclosed.
  split; [exact Hh|].
  assert (second = (first.1.1, [], Duplicate)
          \/ second = (first.1.1, [Log LogAutoSyncDisabled], Skipped)) as Hcases.
  { destruct (autoSyncEnabled first.1.1) eqn:Ha.
    - left. apply Hopen. by left.
    - destruct (String.eqb_spec src2 "local") as [->|Hne].
      + left. apply Hopen. by right.
      + right. apply Hclosed. intros [?|?]; congruence. }
  split; [destruct Hcases as [->| ->]; reflexivity|].
  split; [destruct Hcases as [->| ->]; auto|].
  split; [exact Hopen|].
  rewrite deliveries_app.
  destruct Hcases as [->| ->]; cbn; rewrite ?app_nil_r; auto.
Qed.

(** C2 at work: D1's "hello" is accepted by the three devices, and the same
    "hello" coming back from D2 a millisecond later is dropped. *)
Lemma C2_identical_update_is_discarded_witness :
  (updateClipboard three_devices (JString "hello") "D1" true (at_time 1000)).2 = Synced
  /\ updateClipboard
       (updateClipboard three_devices (JString "hello") "D1" true (at_time 1000)).1.1
       (JString "hello") "D2" true (at_time 1001)
     = ((updateClipboard three_devices (JString "hello") "D1" true (at_time 1000)).1.1,
        [], Duplicate).
Proof.
  assert ((updateClipboard three_devices (JString "hello") "D1" true (at_time 1000)).2
          = Synced) as H by (vm_compute; reflexivity).
  split; [exact H|].
  apply (C2_identical_update_is_discarded three_devices (JString "hello")
           "D1" "D2" true true (at_time 1000) (at_time 1001) H).
  left. vm_compute. reflexivity.
Defined.

(** C5 at work: with D2 on manual, "hello" from D1 goes to D3 alone. *)
Lemma C5_fanout_exactly_autosync_except_sender_witness :
  (updateClipboard d2_manual (JString "hello") "D1" true (at_time 1000)).2 = Synced
  /\ NoDup (map fst (connectedDevices d2_manual))
  /\ map fst (deliveries
                (updateClipboard d2_manual (JString "hello") "D1" true (at_time 1000)).1.2)
     = fanout_targets d2_manual "D1"
  /\ fanout_targets d2_manual "D1" = ["D3"].
Proof.
  assert ((updateClipboard d2_manual (JString "hello") "D1" true (at_time 1000)).2
          = Synced) as H by (vm_compute; reflexivity).
  assert (NoDup (map fst (connectedDevices d2_manual))) as Hnd
    by (apply (bool_decide_unpack _); vm_compute; exact I).
  split; [exact H|]. split; [exact Hnd|]. split.
  - destruct (C5_fanout_exactly_autosync_except_sender d2_manual (JString "hello")
                "D1" true (at_time 1000) H Hnd) as [Heq _].
    rewrite Heq. apply map_fst_deliveries.
  - vm_compute. reflexivity.
Defined.

(** ** Registration and forced re-sync *)

Section Register.

Lemma register_device_deliveries s socketId info t :
  deliveries (register_device s socketId info t).2
  = if truthy (lastClipboard s)
    then [(socketId, server_update s t false)] else [].
Proof.
  unfold register_device. cbn -[map_set].
  destruct (truthy (lastClipboard s)); reflexivity.
Qed.

(** Whatever gets past the conflict check becomes the last known value,
    filtered or not. *)
Lemma updateClipboard_last_known s c src aw e :
  let r := updateClipboard s c src aw e in
  r.2 = Filtered \/ r.2 = Synced ->
  lastClipboard r.1.1 = c /\ lastClipboardHash r.1.1 = generateHash c.
Proof.
  intros r [H|H]; subst r.
  - revert H. unfold updateClipboard.
    destruct (negb _ && negb _); [discriminate|].
    destruct (generateHash c =? lastClipboardHash s); [discriminate|].
    destruct (now e - lastSyncTime s <? minSyncInterval s)%Z; [discriminate|].
    destruct (conflicting _ _ _); [discriminate|].
    destruct (isContentFiltered _ _); [auto|].
    destruct (addToHistory _ _ _). discriminate.
  - destruct (updateClipboard_synced_state _ _ _ _ _ H) as (? & ? & _). auto.
Qed.

End Register.

(** C10. A device that registers while the last known clipboard value is
    non-empty is sent, alone and at once, a [clipboard-update] with that
    value, [from = "server"] and [autoWrite = true], whatever its own
    [autoSync] flag says; and the value is the content of the last update
    that got as far as the filter, also when the filter rejected it. *)
Theorem C10_register_sends_last_known_value
    (s : server) (socketId : string) (info : deviceInfo) (t : Z) :
  truthy (lastClipboard s) = true ->
  deliveries (register_device s socketId info t).2
  = [(socketId,
      {| u_content := lastClipboard s; u_from := "server"; u_timestamp := t;
         u_hash := lastClipboardHash s; u_autoWrite := true; u_force := false |})]
  /\ (forall s0 c src aw e,
        s = (updateClipboard s0 c src aw e).1.1 ->
        (updateClipboard s0 c src aw e).2 = Filtered
        \/ (updateClipboard s0 c src aw e).2 = Synced ->
        lastClipboard s = c /\ lastClipboardHash s = generateHash c).
Proof.
  intros Ht. split.
  - rewrite register_device_deliveries, Ht. reflexivity.
  - intros s0 c src aw e -> H. by apply updateClipboard_last_known.
Qed.

(** C10 at work: D4 registers with [autoSync = false] after the API key was
    rejected, and is sent the key. *)
Lemma C10_register_sends_last_known_value_witness :
  truthy (lastClipboard after_secret) = true
  /\ isContentFiltered three_devices (JString "my api_key: xyz123") = true
  /\ deliveries
       (register_device after_secret "D4" (mkDeviceInfo None None (Some false)) 2000).2
     = [("D4",
         {| u_content := JString "my api_key: xyz123"; u_from := "server";
            u_timestamp := 2000; u_hash := "0e2d516d6d7dc83454f85a8afd13f292";
            u_autoWrite := true; u_force := false |})].
Proof.
  assert (truthy (lastClipboard after_secret) = true) as H by (vm_compute; reflexivity).
  split; [exact H|]. split; [vm_compute; reflexivity|].
  destruct (C10_register_sends_last_known_value _ "D4"
              (mkDeviceInfo None None (Some false)) 2000 H) as [-> _].
  vm_compute. reflexivity.
Defined.

(** C1. The filter does not keep a sensitive string from the devices: the
    string becomes the last known value before the filter runs, and
    [register-device] and [force-sync] send the last known value.  Here
    D1 sends "my api_key: xyz123": the filter rejects it and the history stays
    empty, yet D2, registering afterwards, receives it, and so does D1 on
    [force-sync]. *)
Theorem C1_filtered_content_reaches_devices :
  isContentFiltered (new_server false) (JString "my api_key: xyz123") = true
  /\ clipboardHistory (run (new_server false) secret_trace).1 = []
  /\ deliveries (run (new_server false) secret_trace).2
     = [ ("D2", {| u_content := JString "my api_key: xyz123"; u_from := "server";
                   u_timestamp := 2000; u_hash := "0e2d516d6d7dc83454f85a8afd13f292";
                   u_autoWrite := true; u_force := false |});
         ("D1", {| u_content := JString "my api_key: xyz123"; u_from := "server";
                   u_timestamp := 3000; u_hash := "0e2d516d6d7dc83454f85a8afd13f292";
                   u_autoWrite := true; u_force := true |}) ].
Proof. vm_compute. auto. Qed.

(** ** Rejected content *)

Section Rejected.

Variables (s : server) (c : jsval) (src : string) (aw : bool) (e : env).

Lemma processSyncQueue_history (s0 : server) :
  clipboardHistory (processSyncQueue s0) = clipboardHistory s0.
Proof. unfold processSyncQueue. destruct (_ || _); reflexivity. Qed.

(** Content the filter rejects is not recorded, written or sent by
    [updateClipboard], whichever way the call returns. *)
Lemma updateClipboard_filtered_silent :
  isContentFiltered s c = true ->
  let r := updateClipboard s c src aw e in
  r.2 <> Synced
  /\ clipboardHistory r.1.1 = clipboardHistory s
  /\ deliveries r.1.2 = []
  /\ os_writes r.1.2 = []
  /\ history_emits r.1.2 = [].
Proof.
  intros Hf. unfold updateClipboard.
  destruct (negb _ && negb _); [cbn; auto 10|].
  destruct (generateHash c =? lastClipboardHash s); [cbn; auto 10|].
  destruct (now e - lastSyncTime s <? minSyncInterval s)%Z.
  { cbn. rewrite processSyncQueue_history. auto 10. }
  destruct (conflicting _ _ _); [cbn; auto 10|].
  change (isContentFiltered (remember (generateHash c) (now e) c s) c)
    with (isContentFiltered s c).
  rewrite Hf. cbn [fst snd].
  destruct (isContentFiltered_log_silent (remember (generateHash c) (now e) c s) c)
    as (H1 & H2 & H3).
  rewrite deliveries_app, os_writes_app, history_emits_app, H1, H2, H3.
  cbn. auto 10.
Qed.

(** Past the gate, loop suppression, rate limit and conflict check, rejected
    content is remembered as the last known value and goes no further. *)
Lemma updateClipboard_filtered :
  gate_open s src ->
  generateHash c <> lastClipboardHash s ->
  (minSyncInterval s <= now e - lastSyncTime s)%Z ->
  conflicting s (generateHash c) (now e) = false ->
  isContentFiltered s c = true ->
  updateClipboard s c src aw e
  = (remember (generateHash c) (now e) c s,
     isContentFiltered_log s c ++ [Log LogBlocked], Filtered).
Proof.
  intros Hg Hh Ht Hc Hf. unfold updateClipboard.
  rewrite (gate_open_test _ _ Hg).
  destruct (String.eqb_spec (generateHash c) (lastClipboardHash s)); [contradiction|].
  destruct (Z.ltb_spec (now e - lastSyncTime s) (minSyncInterval s)); [lia|].
  rewrite Hc.
  change (isContentFiltered (remember (generateHash c) (now e) c s) c)
    with (isContentFiltered s c).
  rewrite Hf. reflexivity.
Qed.

End Rejected.

(** C9 as stated fails: an empty update on a fresh server is fingerprinted,
    and the fingerprint of the empty string is stored in [lastClipboardHash]
    and in [conflictResolver] before the filter rejects the update.  The
    stored fingerprint shows: after "X" was accepted a repeated "X" is
    suppressed, but not once an empty update has come in between. *)
Lemma C9_empty_update_is_fingerprinted :
  (updateClipboard (new_server false) (JString "") "D1" true (at_time 1000)).2 = Filtered
  /\ lastClipboardHash (new_server false) = ""
  /\ lastClipboardHash
       (updateClipboard (new_server false) (JString "") "D1" true (at_time 1000)).1.1
     = "d41d8cd98f00b204e9800998ecf8427e"
  /\ conflictResolver
       (updateClipboard (new_server false) (JString "") "D1" true (at_time 1000)).1.1
       !! "d41d8cd98f00b204e9800998ecf8427e" = Some 1000%Z
  /\ lastSyncTime
       (updateClipboard (new_server false) (JString "") "D1" true (at_time 1000)).1.1
     = 1000%Z
  /\ (updateClipboard after_X (JString "X") "D2" true (at_time 3000)).2 = Duplicate
  /\ (updateClipboard
        (updateClipboard after_X (JString "") "D2" true (at_time 2000)).1.1
        (JString "X") "D2" true (at_time 3000)).2 = Synced.
Proof. vm_compute. auto 10. Qed.

(** C9, amended. An update with empty or missing content is fingerprinted
    like any other, with the fingerprint of the empty string; once past the
    gate, loop suppression, rate limit and conflict check it is remembered
    as the last known value and then rejected by the filter.  However the
    call returns, such an update is not recorded in the history, not written
    to the OS clipboard and not sent to any device. *)
Theorem C9_empty_content_filtered_after_fingerprint
    (s : server) (c : jsval) (src : string) (aw : bool) (e : env) :
  truthy c = false ->
  let r := updateClipboard s c src aw e in
  generateHash c = generateHash (JString "")
  /\ r.2 <> Synced
  /\ clipboardHistory r.1.1 = clipboardHistory s
  /\ os_writes r.1.2 = []
  /\ deliveries r.1.2 = []
  /\ history_emits r.1.2 = []
  /\ (gate_open s src ->
      generateHash (JString "") <> lastClipboardHash s ->
      (minSyncInterval s <= now e - lastSyncTime s)%Z ->
      conflicting s (generateHash (JString "")) (now e) = false ->
      r = (remember (generateHash (JString "")) (now e) c s, [Log LogBlocked], Filtered)).
Proof.
  intros Hc r. subst r.
  pose proof (generateHash_falsy c Hc) as Hh.
  pose proof (isContentFiltered_falsy s c Hc) as Hf.
  destruct (updateClipboard_filtered_silent s c src aw e Hf) as (H1 & H2 & H3 & H4 & H5).
  split; [exact Hh|]. split; [exact H1|]. split; [exact H2|].
  split; [exact H4|]. split; [exact H3|]. split; [exact H5|].
  intros Hg Hne Ht Hcf. rewrite <- Hh in Hne, Hcf. rewrite <- Hh.
  rewrite (updateClipboard_filtered s c src aw e Hg Hne Ht Hcf Hf).
  replace (isContentFiltered_log s c) with (@nil effect); [reflexivity|].
  destruct c as [| |str]; [reflexivity | reflexivity |].
  cbn in Hc. unfold isContentFiltered_log.
  destruct (str =? ""); [reflexivity | discriminate Hc].
Qed.

(** C9 at work: [null] posted to the API is remembered under the
    fingerprint of the empty string and sent to nobody. *)
Lemma C9_empty_content_filtered_after_fingerprint_witness :
  truthy JNull = false
  /\ (post_clipboard three_devices JNull (at_time 1000)).1
     = remember "d41d8cd98f00b204e9800998ecf8427e" 1000 JNull three_devices
  /\ deliveries (updateClipboard three_devices JNull "api" true (at_time 1000)).1.2 = [].
Proof.
  assert (truthy JNull = false) as H by reflexivity.
  split; [exact H|]. split; [vm_compute; reflexivity|].
  destruct (C9_empty_content_filtered_after_fingerprint three_devices JNull "api" true
              (at_time 1000) H) as (_ & _ & _ & _ & Hsent & _).
  exact Hsent.
Defined.

(** ** The global switch *)

Section Pause.

(** [addToHistory] neither reads nor writes [autoSyncEnabled]. *)
Lemma addToHistory_autoSyncEnabled (b : bool) s str t :
  addToHistory (set_autoSyncEnabled b s) str t
  = (set_autoSyncEnabled b (addToHistory s str t).1, (addToHistory s str t).2).
Proof.
  unfold addToHistory. cbn [clipboardHistory maxHistorySize set_autoSyncEnabled].
  destruct (str =? ""); [reflexivity|].
  destruct (findIndex _ _) as [[|i]|]; reflexivity.
Qed.

(** For the poller the switch makes no difference: the call does what it
    would do with sync on, and leaves the switch as it was. *)
Lemma updateClipboard_local_ignores_switch s c aw e :
  autoSyncEnabled s = false ->
  updateClipboard s c "local" aw e
  = (set_autoSyncEnabled false
       (updateClipboard (set_autoSyncEnabled true s) c "local" aw e).1.1,
     (updateClipboard (set_autoSyncEnabled true s) c "local" aw e).1.2,
     (updateClipboard (set_autoSyncEnabled true s) c "local" aw e).2).
Proof.
  intros Hoff. unfold updateClipboard.
  cbn [autoSyncEnabled set_autoSyncEnabled lastClipboardHash lastSyncTime minSyncInterval].
  rewrite Hoff. cbn [negb andb String.eqb Ascii.eqb Bool.eqb].
  destruct (generateHash c =? lastClipboardHash s).
  { destruct s; cbn in *; subst; reflexivity. }
  destruct (now e - lastSyncTime s <? minSyncInterval s)%Z.
  { unfold processSyncQueue. destruct s; cbn in *; subst.
    destruct (_ || _); reflexivity. }
  change (conflicting (set_autoSyncEnabled true s) (generateHash c) (now e))
    with (conflicting s (generateHash c) (now e)).
  destruct (conflicting s (generateHash c) (now e)).
  { destruct s; cbn in *; subst; reflexivity. }
  change (isContentFiltered (remember (generateHash c) (now e) c
                               (set_autoSyncEnabled true s)) c)
    with (isContentFiltered (remember (generateHash c) (now e) c s) c).
  destruct (isContentFiltered (remember (generateHash c) (now e) c s) c).
  { destruct s; cbn in *; subst; reflexivity. }
  change (remember (generateHash c) (now e) c (set_autoSyncEnabled true s))
    with (set_autoSyncEnabled true (remember (generateHash c) (now e) c s)).
  rewrite addToHistory_autoSyncEnabled.
  pose proof (addToHistory_frame (remember (generateHash c) (now e) c s)
                (or_empty c) (history_now e)) as Hfr.
  destruct (addToHistory (remember (generateHash c) (now e) c s) (or_empty c)
              (history_now e)) as [s2 hist].
  cbn [fst snd] in *. rewrite Hfr. destruct s; cbn in *; subst. reflexivity.
Qed.

End Pause.

(** C6 as stated fails: with sync paused, an update through
    [POST /api/clipboard] is answered with success and ignored, although the
    same update is accepted when sync is on. *)
Lemma C6_api_update_ignored_while_paused :
  autoSyncEnabled paused = false
  /\ post_clipboard paused (JString "hello") (at_time 1000)
     = (paused, [Log LogAutoSyncDisabled; HttpReply 200])
  /\ (updateClipboard three_devices (JString "hello") "api" true (at_time 1000)).2 = Synced.
Proof. vm_compute. auto. Qed.

(** C6, amended. While [autoSyncEnabled] is false an update is ignored,
    with no change of state and nothing sent, unless its [sourceId] is
    ["local"]: updates through the API path carry ["api"] and are ignored
    like those of any device, and updates from the local poller are
    processed as they are with sync on. *)
Theorem C6_pause_exempts_only_the_poller
    (s : server) (c : jsval) (src : string) (aw : bool) (e : env) :
  autoSyncEnabled s = false ->
  (src <> "local" ->
     updateClipboard s c src aw e = (s, [Log LogAutoSyncDisabled], Skipped))
  /\ (c <> JUndefined ->
     post_clipboard s c e = (s, [Log LogAutoSyncDisabled; HttpReply 200]))
  /\ updateClipboard s c "local" aw e
     = (set_autoSyncEnabled false
          (updateClipboard (set_autoSyncEnabled true s) c "local" aw e).1.1,
        (updateClipboard (set_autoSyncEnabled true s) c "local" aw e).1.2,
        (updateClipboard (set_autoSyncEnabled true s) c "local" aw e).2).
Proof.
  intros Hoff.
  assert (forall c' src' aw', src' <> "local" ->
            updateClipboard s c' src' aw' e = (s, [Log LogAutoSyncDisabled], Skipped)) as Hskip.
  { intros c' src' aw' Hne. unfold updateClipboard.
    rewrite gate_closed_test; [reflexivity|].
    intros [?|?]; congruence. }
  split; [apply Hskip|]. split.
  - intros Hdef. unfold post_clipboard.
    destruct c; [contradiction| |]; by rewrite Hskip.
  - by apply updateClipboard_local_ignores_switch.
Qed.

(** C6 at work: with sync paused D1's "hello" is skipped, the poller's is
    accepted. *)
Lemma C6_pause_exempts_only_the_poller_witness :
  autoSyncEnabled paused = false
  /\ updateClipboard paused (JString "hello") "D1" true (at_time 1000)
     = (paused, [Log LogAutoSyncDisabled], Skipped)
  /\ (updateClipboard paused (JString "hello") "local" false (at_time 1000)).2 = Synced.
Proof.
  assert (autoSyncEnabled paused = false) as H by (vm_compute; reflexivity).
  split; [exact H|].
  destruct (C6_pause_exempts_only_the_poller paused (JString "hello") "D1" true
              (at_time 1000) H) as (Hskip & _ & _).
  split; [apply Hskip; discriminate|].
  vm_compute. reflexivity.
Defined.

(** ** Rate limiting *)

Section RateLimit.

Variables (s : server) (c : jsval) (src : string) (aw : bool) (e : env).

(** A fresh update inside the interval goes to the queue and arms the
    timer; nothing else happens. *)
Lemma updateClipboard_queued :
  gate_open s src ->
  generateHash c <> lastClipboardHash s ->
  (now e - lastSyncTime s < minSyncInterval s)%Z ->
  updateClipboard s c src aw e
  = (set_processing true (set_syncQueue (syncQueue s ++ [queue_entry c src aw e]) s),
     [], Queued).
Proof.
  intros Hg Hh Ht. unfold updateClipboard.
  rewrite (gate_open_test _ _ Hg).
  destruct (String.eqb_spec (generateHash c) (lastClipboardHash s)); [contradiction|].
  destruct (Z.ltb_spec (now e - lastSyncTime s) (minSyncInterval s)); [|lia].
  unfold processSyncQueue, queue_entry.
  cbn [processing syncQueue set_syncQueue].
  rewrite length_app. cbn [length].
  replace (length (syncQueue s) + 1 =? 0)%nat with false
    by (symmetry; apply Nat.eqb_neq; lia).
  destruct (processing s) eqn:Hp; cbn [orb]; [|reflexivity].
  destruct s; cbn in *; subst; reflexivity.
Qed.

(** Conversely, only a call inside the interval returns through the queue. *)
Lemma updateClipboard_queued_inv :
  (updateClipboard s c src aw e).2 = Queued ->
  gate_open s src
  /\ generateHash c <> lastClipboardHash s
  /\ (now e - lastSyncTime s < minSyncInterval s)%Z.
Proof.
  unfold updateClipboard.
  destruct (negb _ && negb _) eqn:Hg; [discriminate|].
  destruct (String.eqb_spec (generateHash c) (lastClipboardHash s)); [discriminate|].
  destruct (Z.ltb_spec (now e - lastSyncTime s) (minSyncInterval s)).
  - intros _. repeat split; auto.
    unfold gate_open. destruct (autoSyncEnabled s); [auto|].
    destruct (String.eqb_spec src "local"); [auto | discriminate].
  - destruct (conflicting _ _ _); [discriminate|].
    destruct (isContentFiltered _ _); [discriminate|].
    destruct (addToHistory _ _ _). discriminate.
Qed.

End RateLimit.

(** C7 as stated fails: [updateClipboard] has no [forced] parameter, and the
    explicit request [POST /api/clipboard], which passes [true] as its third
    argument, is queued like any other update when it comes 10 ms after an
    accepted one: the value "Y" waits in [syncQueue], the last known value is
    still "X" and nothing is sent. *)
Lemma C7_explicit_update_is_queued :
  lastSyncTime after_X = 1000%Z
  /\ syncQueue (post_clipboard after_X (JString "Y") (at_time 1010)).1
     = [ {| q_content := JString "Y"; q_sourceId := "api"; q_autoWrite := true;
            q_timestamp := 1010; q_hash := "57cec4137b614c87cb4e24a3d003a3e0" |} ]
  /\ lastClipboard (post_clipboard after_X (JString "Y") (at_time 1010)).1 = JString "X"
  /\ (post_clipboard after_X (JString "Y") (at_time 1010)).2 = [HttpReply 200]
  /\ (updateClipboard after_X (JString "Y") "api" true (at_time 1010)).2 = Queued.
Proof. vm_compute. auto 10. Qed.

(** C7, amended. There is no [forced] flag and no way round the rate
    limit: every update that passes the gate with a fingerprint other than
    the last one and arrives within [minSyncInterval] of the last accepted
    update is pushed onto the queue for deferred re-evaluation, whatever its
    source and whatever its third argument (which is [autoWrite]); it is not
    evaluated at once.  The explicit requests are no exception:
    [POST /api/clipboard] is [updateClipboard] with source ["api"], and
    [force-sync] ingests nothing at all. *)
Theorem C7_no_bypass_of_rate_limit
    (s : server) (c : jsval) (src : string) (aw : bool) (e : env) :
  gate_open s src ->
  generateHash c <> lastClipboardHash s ->
  (now e - lastSyncTime s < minSyncInterval s)%Z ->
  updateClipboard s c src aw e
  = (set_processing true
       (set_syncQueue
          (syncQueue s ++
             [ {| q_content := c; q_sourceId := src; q_autoWrite := aw;
                  q_timestamp := now e; q_hash := generateHash c |} ]) s),
     [], Queued)
  /\ lastClipboard (updateClipboard s c src aw e).1.1 = lastClipboard s
  /\ clipboardHistory (updateClipboard s c src aw e).1.1 = clipboardHistory s
  /\ (c <> JUndefined ->
      post_clipboard s c e
      = ((updateClipboard s c "api" true e).1.1,
         (updateClipboard s c "api" true e).1.2 ++ [HttpReply 200]))
  /\ (forall socketId t, (forceSyncToDevice s socketId t).1 = s).
Proof.
  intros Hg Hh Ht. rewrite (updateClipboard_queued s c src aw e Hg Hh Ht).
  split; [reflexivity|]. split; [reflexivity|]. split; [reflexivity|].
  split; [|reflexivity].
  intros Hdef. unfold post_clipboard.
  destruct c; [contradiction| |]; by destruct (updateClipboard _ _ _ _ _) as [[? ?] ?].
Qed.

(** C7 at work: "Y" posted to the API 10 ms after "X" was accepted is queued. *)
Lemma C7_no_bypass_of_rate_limit_witness :
  gate_open after_X "api"
  /\ generateHash (JString "Y") <> lastClipboardHash after_X
  /\ (now (at_time 1010) - lastSyncTime after_X < minSyncInterval after_X)%Z
  /\ (updateClipboard after_X (JString "Y") "api" true (at_time 1010)).2 = Queued.
Proof.
  assert (gate_open after_X "api") as Hg by (left; vm_compute; reflexivity).
  assert (generateHash (JString "Y") <> lastClipboardHash after_X) as Hh
    by (vm_compute; discriminate).
  assert (now (at_time 1010) - lastSyncTime after_X < minSyncInterval after_X)%Z as Ht
    by (vm_compute; reflexivity).
  split; [exact Hg|]. split; [exact Hh|]. split; [exact Ht|].
  destruct (C7_no_bypass_of_rate_limit after_X (JString "Y") "api" true (at_time 1010)
              Hg Hh Ht) as (-> & _).
  reflexivity.
Defined.

(** ** The history *)

Section History.

Lemma findIndex_Some {A : Type} (p : A -> bool) (l : list A) (i : nat) :
  findIndex p l = Some i ->
  exists x, l !! i = Some x /\ p x = true.
Proof.
  revert i. induction l as [|y l IH]; intros i; cbn; [discriminate|].
  destruct (p y) eqn:Hy.
  - intros [= <-]. eauto.
  - destruct (findIndex p l) as [j|]; [|discriminate].
    intros [= <-]. destruct (IH j eq_refl) as (x & ? & ?). eauto.
Qed.

Lemma findIndex_None {A : Type} (p : A -> bool) (l : list A) :
  findIndex p l = None -> forall x, x ∈ l -> p x = false.
Proof.
  induction l as [|y l IH]; cbn; intros H x Hx.
  - by apply elem_of_nil in Hx.
  - destruct (p y) eqn:Hy; [discriminate|].
    destruct (findIndex p l); [discriminate|].
    apply elem_of_cons in Hx as [->|Hx]; auto.
Qed.

(** [find] and [remove_hash], in which the contract is worded, against the
    index arithmetic of the source. *)
Lemma find_findIndex hash (l : list historyItem) :
  List.find (fun item => h_hash item =? hash) l
  = findIndex (fun item => h_hash item =? hash) l ≫= (l !!.).
Proof.
  induction l as [|y l IH]; cbn; [reflexivity|].
  destruct (h_hash y =? hash); [reflexivity|].
  rewrite IH. destruct (findIndex _ l); reflexivity.
Qed.

Lemma remove_hash_delete hash (l : list historyItem) (i : nat) :
  findIndex (fun item => h_hash item =? hash) l = Some i ->
  remove_hash hash l = delete i l.
Proof.
  revert i. induction l as [|y l IH]; intros i; cbn; [discriminate|].
  destruct (h_hash y =? hash).
  - intros [= <-]. reflexivity.
  - destruct (findIndex _ l) as [j|]; [|discriminate].
    intros [= <-]. cbn. by rewrite (IH j).
Qed.

Lemma trim_take {A : Type} (cap : nat) (l : list A) :
  (if (cap <? length l)%nat then take cap l else l) = take cap l.
Proof.
  destruct (Nat.ltb_spec cap (length l)); [reflexivity|].
  symmetry. by apply take_ge.
Qed.

Lemma take_app_take {A : Type} (n : nat) (a b : list A) :
  take n (a ++ take n b) = take n (a ++ b).
Proof.
  rewrite !take_app, take_take. f_equal. f_equal. lia.
Qed.

(** The history after [addToHistory], in full. *)
Lemma addToHistory_history s content t :
  content <> "" ->
  clipboardHistory (addToHistory s content t).1
  = let hash := generateHash (JString content) in
    match findIndex (fun item => h_hash item =? hash) (clipboardHistory s) with
    | Some O => clipboardHistory s
    | Some i =>
        match clipboardHistory s !! i with
        | Some item => take (maxHistorySize s) (item :: delete i (clipboardHistory s))
        | None => take (maxHistorySize s) (clipboardHistory s)
        end
    | None => take (maxHistorySize s)
                (new_historyItem content t hash :: clipboardHistory s)
    end.
Proof.
  intros Hne. unfold addToHistory.
  destruct (String.eqb_spec content ""); [contradiction|].
  cbv zeta.
  destruct (findIndex _ _) as [[|i]|]; [reflexivity| |].
  - cbn [fst clipboardHistory set_clipboardHistory]. rewrite trim_take.
    destruct (clipboardHistory s !! Datatypes.S i); reflexivity.
  - cbn [fst clipboardHistory set_clipboardHistory]. apply trim_take.
Qed.

Lemma addToHistory_maxHistorySize s content t :
  maxHistorySize (addToHistory s content t).1 = maxHistorySize s.
Proof. rewrite (addToHistory_frame s content t). reflexivity. Qed.

(** The code against the contract without refreshing. *)
Lemma addToHistory_contract s content t :
  content <> "" ->
  length (clipboardHistory s) <= maxHistorySize s ->
  clipboardHistory (addToHistory s content t).1
  = record_contract false (maxHistorySize s) (clipboardHistory s) content
      (generateHash (JString content)) t.
Proof.
  intros Hne Hlen. rewrite addToHistory_history by assumption. cbv zeta.
  unfold record_contract.
  destruct (clipboardHistory s) as [|front rest] eqn:Hst; [reflexivity|].
  rewrite find_findIndex.
  destruct (findIndex _ (front :: rest)) as [i|] eqn:Hi.
  - cbn [mbind option_bind].
    destruct (findIndex_Some _ _ _ Hi) as (item & Hitem & _).
    rewrite Hitem. rewrite (remove_hash_delete _ _ _ Hi).
    destruct i as [|i].
    + cbn in Hi. destruct (h_hash front =? generateHash (JString content)); [reflexivity|].
      destruct (findIndex _ rest); discriminate.
    + cbn in Hi. destruct (h_hash front =? generateHash (JString content)); [discriminate|].
      apply take_ge. cbn [length]. rewrite length_delete by eauto.
      cbn [length] in *. lia.
  - cbn [mbind option_bind]. cbn in Hi.
    destruct (h_hash front =? generateHash (JString content)); [discriminate|].
    reflexivity.
Qed.

(** A promoted item is the stored one: its timestamp is that of its first
    recording. *)
Lemma addToHistory_promotes_unchanged s content t i item :
  content <> "" ->
  findIndex (fun it => h_hash it =? generateHash (JString content)) (clipboardHistory s)
    = Some (Datatypes.S i) ->
  clipboardHistory s !! Datatypes.S i = Some item ->
  length (clipboardHistory s) <= maxHistorySize s ->
  clipboardHistory (addToHistory s content t).1
  = item :: delete (Datatypes.S i) (clipboardHistory s).
Proof.
  intros Hne Hi Hitem Hlen. rewrite addToHistory_history by assumption. cbv zeta.
  rewrite Hi, Hitem. apply take_ge. cbn [length].
  rewrite length_delete by (eexists; exact Hitem).
  destruct (clipboardHistory s); [discriminate Hitem | cbn in *; lia].
Qed.

(** With room for one item, the content just recorded is at the front. *)
Lemma addToHistory_front s content t :
  content <> "" ->
  0 < maxHistorySize s ->
  exists item rest,
    clipboardHistory (addToHistory s content t).1 = item :: rest
    /\ h_hash item = generateHash (JString content).
Proof.
  intros Hne Hcap. rewrite addToHistory_history by assumption. cbv zeta.
  destruct (findIndex _ _) as [i|] eqn:Hi.
  - destruct (findIndex_Some _ _ _ Hi) as (item & Hitem & Hh).
    apply String.eqb_eq in Hh.
    destruct i as [|i].
    + destruct (clipboardHistory s) as [|x l]; [discriminate|].
      injection Hitem as ->. eauto.
    + rewrite Hitem. destruct (maxHistorySize s) as [|n]; [lia|].
      cbn [take]. eauto.
  - destruct (maxHistorySize s) as [|n]; [lia|]. cbn [take]. eauto.
Qed.

Lemma record_all_cons s ct cs :
  record_all s (ct :: cs) = record_all (addToHistory s ct.1 ct.2).1 cs.
Proof. reflexivity. Qed.

Lemma findIndex_fresh hash (l : list historyItem) :
  hash ∉ map h_hash l ->
  findIndex (fun item => h_hash item =? hash) l = None.
Proof.
  induction l as [|y l IH]; cbn; [reflexivity|].
  intros Hnotin. apply not_elem_of_cons in Hnotin as [Hy Hl].
  destruct (String.eqb_spec (h_hash y) hash); [congruence|].
  by rewrite IH.
Qed.

(** Contents with fresh, pairwise different fingerprints pile up in front,
    newest first, and the cap cuts the tail. *)
Lemma record_all_distinct cs : forall s,
  (forall ct, ct ∈ cs -> ct.1 <> "") ->
  NoDup (map (fun ct : string * Z => generateHash (JString ct.1)) cs) ->
  (forall ct, ct ∈ cs ->
     generateHash (JString ct.1) ∉ map h_hash (clipboardHistory s)) ->
  length (clipboardHistory s) <= maxHistorySize s ->
  clipboardHistory (record_all s cs)
  = take (maxHistorySize s) (reverse (map fresh_item cs) ++ clipboardHistory s).
Proof.
  induction cs as [|ct cs IH]; intros s Hne Hnd Hfresh Hlen.
  - cbn. symmetry. by apply take_ge.
  - rewrite record_all_cons.
    cbn [map] in Hnd. apply NoDup_cons in Hnd as [Hct Hnd].
    assert (clipboardHistory (addToHistory s ct.1 ct.2).1
            = take (maxHistorySize s) (fresh_item ct :: clipboardHistory s)) as Hstep.
    { rewrite addToHistory_history by (apply Hne; left). cbv zeta.
      rewrite findIndex_fresh by (apply Hfresh; left). reflexivity. }
    rewrite IH.
    + rewrite addToHistory_maxHistorySize, Hstep.
      rewrite take_app_take. cbn [map]. rewrite reverse_cons, <- app_assoc.
      reflexivity.
    + intros ct' Hin. apply Hne. by right.
    + exact Hnd.
    + intros ct' Hin. rewrite Hstep. intros Hmem.
      apply list_elem_of_fmap in Hmem as (item & Hhash & Hitem).
      apply subseteq_take in Hitem. apply elem_of_cons in Hitem as [->|Hitem].
      * apply Hct. cbn [fresh_item new_historyItem h_hash] in Hhash.
        rewrite <- Hhash. apply list_elem_of_fmap. by exists ct'.
      * apply (Hfresh ct'); [by right|].
        apply list_elem_of_fmap. eauto.
    + rewrite addToHistory_maxHistorySize, Hstep, length_take. lia.
Qed.

End History.

(** C3 as stated fails: when "A" is recorded at time 1, "B" at time 2 and
    "A" again at time 3, the item of "A" comes to the front with the
    timestamp 1 of its first recording, where the contract with refreshing
    puts the timestamp 3. *)
Lemma C3_promoted_item_keeps_its_timestamp :
  map (fun item => (h_content item, h_timestamp item))
      (clipboardHistory (addToHistory recorded_AB "A" 3).1)
  = [("A", 1%Z); ("B", 2%Z)]
  /\ map (fun item => (h_content item, h_timestamp item))
         (record_contract true 10 (clipboardHistory recorded_AB) "A"
            (generateHash (JString "A")) 3)
     = [("A", 3%Z); ("B", 2%Z)]
  /\ clipboardHistory (addToHistory recorded_AB "A" 3).1
     <> record_contract true (maxHistorySize recorded_AB) (clipboardHistory recorded_AB)
          "A" (generateHash (JString "A")) 3.
Proof.
  split; [vm_compute; reflexivity|]. split; [vm_compute; reflexivity|].
  vm_compute. discriminate.
Qed.

(** C3, amended. One call of [addToHistory] with a non-empty content keeps
    the contract in which a promoted item is not refreshed: nothing happens
    when the fingerprint is that of the front item; an item with that
    fingerprint further down moves to the front as it is stored, with the
    timestamp of its first recording; otherwise a new item goes to the front
    and the history is cut to the cap from the tail.  So "A", "B", "A" leaves
    ["A"; "B"], and one content more than the cap, all with different
    fingerprints, leaves exactly the cap's worth of items, the newest first
    and the oldest gone. *)
Theorem C3_record_contract_without_refresh (s : server) (content : string) (t : Z) :
  content <> "" ->
  length (clipboardHistory s) <= maxHistorySize s ->
  clipboardHistory (addToHistory s content t).1
  = record_contract false (maxHistorySize s) (clipboardHistory s) content
      (generateHash (JString content)) t
  /\ (forall front rest,
        clipboardHistory s = front :: rest ->
        h_hash front = generateHash (JString content) ->
        addToHistory s content t = (s, []))
  /\ (forall i item,
        findIndex (fun it => h_hash it =? generateHash (JString content))
          (clipboardHistory s) = Some (Datatypes.S i) ->
        clipboardHistory s !! Datatypes.S i = Some item ->
        clipboardHistory (addToHistory s content t).1
        = item :: delete (Datatypes.S i) (clipboardHistory s))
  /\ (forall headless0 tA tB tA',
        map h_content
          (clipboardHistory
             (record_all (new_server headless0) [("A", tA); ("B", tB); ("A", tA')]))
        = ["A"; "B"])
  /\ (forall cs,
        clipboardHistory s = [] ->
        length cs = Datatypes.S (maxHistorySize s) ->
        (forall ct, ct ∈ cs -> ct.1 <> "") ->
        NoDup (map (fun ct : string * Z => generateHash (JString ct.1)) cs) ->
        clipboardHistory (record_all s cs) = reverse (map fresh_item (drop 1 cs))
        /\ length (clipboardHistory (record_all s cs)) = maxHistorySize s).
Proof.
  intros Hne Hlen.
  split; [by apply addToHistory_contract|].
  split.
  { intros front rest Hst Hfront. unfold addToHistory.
    destruct (String.eqb_spec content ""); [contradiction|].
    rewrite Hst. cbn [findIndex]. rewrite Hfront, String.eqb_refl. reflexivity. }
  split; [intros i item Hi Hitem; by eapply addToHistory_promotes_unchanged|].
  split; [intros; vm_compute; reflexivity|].
  intros cs Hempty Hcs Hcsne Hnd.
  assert (clipboardHistory (record_all s cs) = reverse (map fresh_item (drop 1 cs))) as Heq.
  { rewrite record_all_distinct; try assumption.
    - rewrite Hempty, app_nil_r.
      destruct cs as [|ct cs]; [discriminate|].
      cbn [map drop]. rewrite reverse_cons.
      rewrite take_app_length'; [reflexivity|].
      rewrite length_reverse, length_map. cbn in Hcs. lia.
    - intros ct _. rewrite Hempty. apply not_elem_of_nil. }
  split; [exact Heq|].
  rewrite Heq, length_reverse, length_map, length_drop. lia.
Qed.

(** C3 at work: "A" recorded again after "A" and "B". *)
Lemma C3_record_contract_without_refresh_witness :
  "A" <> ""
  /\ length (clipboardHistory recorded_AB) <= maxHistorySize recorded_AB
  /\ clipboardHistory (addToHistory recorded_AB "A" 3).1
     = record_contract false (maxHistorySize recorded_AB) (clipboardHistory recorded_AB)
         "A" (generateHash (JString "A")) 3.
Proof.
  assert ("A" <> "") as Hne by discriminate.
  assert (length (clipboardHistory recorded_AB) <= maxHistorySize recorded_AB) as Hlen
    by (vm_compute; lia).
  split; [exact Hne|]. split; [exact Hlen|].
  exact (proj1 (C3_record_contract_without_refresh recorded_AB "A" 3 Hne Hlen)).
Defined.

(** ** A failing clipboard write *)

Section WriteFailure.

Variables (s : server) (c : jsval) (src : string) (aw : bool) (t th : Z).

(** Whether the write returns or throws changes neither the state nor the
    way [updateClipboard] returns. *)
Lemma updateClipboard_write_independent (b1 b2 : bool) :
  (updateClipboard s c src aw (mkEnv t b1 th)).1.1
  = (updateClipboard s c src aw (mkEnv t b2 th)).1.1
  /\ (updateClipboard s c src aw (mkEnv t b1 th)).2
     = (updateClipboard s c src aw (mkEnv t b2 th)).2.
Proof.
  unfold updateClipboard, queue_entry. cbn [now history_now].
  destruct (negb _ && negb _); [auto|].
  destruct (generateHash c =? lastClipboardHash s); [auto|].
  destruct (t - lastSyncTime s <? minSyncInterval s)%Z; [auto|].
  destruct (conflicting _ _ _); [auto|].
  destruct (isContentFiltered _ _); [auto|].
  destruct (addToHistory _ _ _). auto.
Qed.

Lemma broadcast_no_log (s0 : server) c0 src0 t0 h0 (m : logmsg) :
  ~ In (Log m) (broadcast s0 c0 src0 t0 h0).
Proof.
  unfold broadcast. induction (connectedDevices s0) as [|[k d] l IH]; cbn [flat_map].
  - intros [].
  - intros [H|H]%in_app_or; [|auto].
    destruct (negb (k =? src0) && dev_autoSync d); cbn in H; intuition discriminate.
Qed.

Lemma unfiltered_is_text (s0 : server) :
  isContentFiltered s0 c = false -> exists str, c = JString str /\ str <> "".
Proof.
  destruct c as [| |str]; cbn; try discriminate.
  destruct (String.eqb_spec str ""); [discriminate|]. eauto.
Qed.

End WriteFailure.

(** C8 as stated fails in one point: on a server started with [headless]
    the failure of the write is caught, the update is recorded and sent to
    D2 and D3, and nothing at all is printed. *)
Lemma C8_headless_failure_is_not_logged :
  (updateClipboard headless_devices (JString "hello") "D1" true (write_fails_at 1000)).2
  = Synced
  /\ In (OsWrite "hello" false)
       (updateClipboard headless_devices (JString "hello") "D1" true
          (write_fails_at 1000)).1.2
  /\ logs (updateClipboard headless_devices (JString "hello") "D1" true
             (write_fails_at 1000)).1.2 = []
  /\ map fst (deliveries
                (updateClipboard headless_devices (JString "hello") "D1" true
                   (write_fails_at 1000)).1.2) = ["D2"; "D3"].
Proof. vm_compute. auto 10. Qed.

(** C8, amended. Let an update from a source other than ["local"], sent with
    [autoWrite], pass the gate, the fingerprint check, the rate limit, the
    conflict window and the filter, so that the clipboard write is reached.
    When that write throws, the exception is caught: [updateClipboard] runs
    the accept path to its end and returns as it does when the write
    succeeds, with the same state, the same history and the same fan-out,
    so the update is recorded and sent to every target.  The failure is
    printed unless the server runs [headless], in which case it passes in
    silence. *)
Theorem C8_write_failure_is_contained
    (s : server) (c : jsval) (src : string) (t th : Z) :
  gate_open s src ->
  generateHash c <> lastClipboardHash s ->
  (minSyncInterval s <= t - lastSyncTime s)%Z ->
  conflicting s (generateHash c) t = false ->
  isContentFiltered s c = false ->
  src <> "local" ->
  let failed := updateClipboard s c src true (mkEnv t false th) in
  let ok := updateClipboard s c src true (mkEnv t true th) in
  failed.2 = Synced
  /\ In (OsWrite (or_empty c) false) failed.1.2
  /\ (logged LogWriteFailed failed.1.2 <-> headless s = false)
  /\ failed.1.1 = ok.1.1
  /\ ok.2 = Synced
  /\ history_emits failed.1.2 = history_emits ok.1.2
  /\ deliveries failed.1.2 = deliveries ok.1.2
  /\ deliveries failed.1.2
     = map (fun id => (id, payload c src t (generateHash c))) (fanout_targets s src)
  /\ (0 < maxHistorySize s ->
      exists item rest,
        clipboardHistory failed.1.1 = item :: rest /\ h_hash item = generateHash c).
Proof.
  intros Hgate Hfresh Hint Hcf Hpass Hsrc failed ok.
  assert (failed.2 = Synced) as H
    by (apply updateClipboard_accepts;
        [exact Hgate | exact Hfresh | exact Hint | exact Hcf | exact Hpass]).
  assert (ok.2 = Synced) as Hok
    by (apply updateClipboard_accepts;
        [exact Hgate | exact Hfresh | exact Hint | exact Hcf | exact Hpass]).
  destruct (updateClipboard_write_independent s c src true t th false true) as [Hst _].
  fold failed ok in Hst.
  split; [exact H|].
  pose proof (synced_deliveries _ _ _ _ _ H) as Hdel. fold failed in Hdel.
  pose proof (synced_deliveries _ _ _ _ _ Hok) as Hdel'. fold ok in Hdel'.
  destruct (updateClipboard_synced _ _ _ _ _ H) as (_ & _ & _ & _ & Hf & _ & Heff).
  destruct (updateClipboard_synced _ _ _ _ _ Hok) as (_ & _ & _ & _ & _ & _ & Heff').
  fold failed in Heff. fold ok in Heff'. cbn [now history_now write_ok] in *.
  destruct (String.eqb_spec src "local") as [|_]; [contradiction|].
  assert (write_clipboard (remember (generateHash c) t c s) (or_empty c) src true
            (mkEnv t false th)
          = OsWrite (or_empty c) false :: (if headless s then [] else [Log LogWriteFailed]))
    as Hw.
  { unfold write_clipboard. destruct (String.eqb_spec src "local"); [contradiction|].
    reflexivity. }
  destruct (addToHistory_effects (remember (generateHash c) t c s) (or_empty c) th)
    as (_ & _ & Hhist).
  split; [rewrite Heff, Hw; by left|].
  split.
  { unfold logged. rewrite Heff, Hw. split.
    - destruct (headless s); [|auto]. intros [Hin|Hin]; [discriminate|]. exfalso.
      cbn [app] in Hin. apply in_app_or in Hin as [Hin|Hin].
      + destruct Hhist as [Hh|Hh]; rewrite Hh in Hin; cbn in Hin; intuition discriminate.
      + apply in_app_or in Hin as [Hin|[]]. by apply broadcast_no_log in Hin.
    - intros ->. right. by left. }
  split; [exact Hst|]. split; [exact Hok|].
  split.
  { rewrite Heff, Heff', !history_emits_app, !write_clipboard_history_emits.
    reflexivity. }
  split; [by rewrite Hdel, Hdel'|]. split; [exact Hdel|].
  intros Hcap. unfold failed.
  destruct (updateClipboard_synced_state _ _ _ _ _ H) as (_ & _ & _ & _ & _ & ->).
  destruct (unfiltered_is_text c s Hf) as (str & -> & Hne). cbn [now history_now or_empty].
  apply addToHistory_front; assumption.
Qed.

(** C8 at work: the write of D1's "hello" fails on a server that is not
    headless; the failure is printed and the fan-out is that of a write
    that succeeds. *)
Lemma C8_write_failure_is_contained_witness :
  gate_open three_devices "D1"
  /\ generateHash (JString "hello") <> lastClipboardHash three_devices
  /\ (minSyncInterval three_devices <= 1000 - lastSyncTime three_devices)%Z
  /\ conflicting three_devices (generateHash (JString "hello")) 1000 = false
  /\ isContentFiltered three_devices (JString "hello") = false
  /\ "D1" <> "local"
  /\ (updateClipboard three_devices (JString "hello") "D1" true (mkEnv 1000 false 1000)).2
     = Synced
  /\ logged LogWriteFailed
       (updateClipboard three_devices (JString "hello") "D1" true
          (mkEnv 1000 false 1000)).1.2
  /\ deliveries
       (updateClipboard three_devices (JString "hello") "D1" true
          (mkEnv 1000 false 1000)).1.2
     = deliveries
         (updateClipboard three_devices (JString "hello") "D1" true
            (mkEnv 1000 true 1000)).1.2.
Proof.
  assert (gate_open three_devices "D1") as Hgate by (left; vm_compute; reflexivity).
  assert (generateHash (JString "hello") <> lastClipboardHash three_devices) as Hfresh
    by (vm_compute; discriminate).
  assert (minSyncInterval three_devices <= 1000 - lastSyncTime three_devices)%Z as Hint
    by (vm_compute; discriminate).
  assert (conflicting three_devices (generateHash (JString "hello")) 1000 = false) as Hcf
    by (vm_compute; reflexivity).
  assert (isContentFiltered three_devices (JString "hello") = false) as Hpass
    by (vm_compute; reflexivity).
  assert ("D1" <> "local") as Hsrc by discriminate.
  destruct (C8_write_failure_is_contained three_devices (JString "hello") "D1" 1000 1000
              Hgate Hfresh Hint Hcf Hpass Hsrc) as (Hacc & _ & Hlog & _ & _ & _ & Hsame & _).
  split; [exact Hgate|]. split; [exact Hfresh|]. split; [exact Hint|].
  split; [exact Hcf|]. split; [exact Hpass|]. split; [exact Hsrc|].
  split; [exact Hacc|]. split; [|exact Hsame].
  apply Hlog. vm_compute. reflexivity.
Defined.

(** ** Coalescing of queued updates *)

Section Coalescing.

Lemma last_snoc2 {A : Type} (l : list A) (x y : A) : last (l ++ [x; y]) = Some y.
Proof.
  change (l ++ [x; y]) with (l ++ [x] ++ [y]). rewrite app_assoc. apply last_snoc.
Qed.

(** Two updates queued one after the other leave the state as it was, but
    for the two entries at the end of the queue and the armed timer. *)
Lemma two_queued s c1 src1 aw1 e1 c2 src2 aw2 e2 :
  (updateClipboard s c1 src1 aw1 e1).2 = Queued ->
  (updateClipboard (updateClipboard s c1 src1 aw1 e1).1.1 c2 src2 aw2 e2).2 = Queued ->
  updateClipboard s c1 src1 aw1 e1
  = (set_processing true
       (set_syncQueue (syncQueue s ++ [queue_entry c1 src1 aw1 e1]) s), [], Queued)
  /\ updateClipboard (updateClipboard s c1 src1 aw1 e1).1.1 c2 src2 aw2 e2
     = (set_processing true
          (set_syncQueue
             (syncQueue s ++ [queue_entry c1 src1 aw1 e1; queue_entry c2 src2 aw2 e2]) s),
        [], Queued).
Proof.
  intros H1 H2.
  destruct (updateClipboard_queued_inv _ _ _ _ _ H1) as (Hg1 & Hh1 & Ht1).
  pose proof (updateClipboard_queued s c1 src1 aw1 e1 Hg1 Hh1 Ht1) as E1.
  rewrite E1 in H2 |- *. cbn [fst snd] in *. split; [reflexivity|].
  destruct (updateClipboard_queued_inv _ _ _ _ _ H2) as (Hg2 & Hh2 & Ht2).
  rewrite (updateClipboard_queued _ c2 src2 aw2 e2 Hg2 Hh2 Ht2).
  cbn [syncQueue set_syncQueue set_processing]. rewrite <- app_assoc.
  destruct s; reflexivity.
Qed.

End Coalescing.

(** C4 as stated fails: when the second update repeats the last accepted
    content it is dropped by loop suppression before it reaches the queue,
    and the first, older update is the one the timer re-submits.  After "X"
    was accepted, "Y" and then "X" arrive 10 ms apart: "Y" is recorded in
    front of "X" and sent to D2 and D3. *)
Lemma C4_older_update_wins_over_repeated_content :
  lastClipboard after_X = JString "X"
  /\ map h_content (clipboardHistory (run after_X stale_trace).1) = ["Y"; "X"]
  /\ map (fun d : string * updateData => (d.1, u_content d.2))
         (deliveries (run after_X stale_trace).2)
     = [("D2", JString "Y"); ("D3", JString "Y")]
  /\ lastClipboard (run after_X stale_trace).1 = JString "Y".
Proof. vm_compute. auto. Qed.

(** C4, amended. Given updates U1 then U2 that are both queued (each passes
    the gate with a fingerprint other than the last accepted one and arrives
    within [minSyncInterval] of the last accepted update), nothing is
    recorded or sent while they wait, and when the timer fires it
    re-submits U2 alone, exactly as if U2 had been ingested at that moment
    with an empty queue: U1 is dropped and leaves no trace in the history or
    in any broadcast.  If U2 then passes the rate limit, the conflict check
    and the filter, its content is sent to the fan-out targets and, the cap
    being positive, recorded at the front of the history. *)
Theorem C4_timer_resubmits_only_the_latest
    (s : server) (c1 c2 : jsval) (src1 src2 : string) (aw1 aw2 : bool) (e1 e2 e3 : env) :
  (updateClipboard s c1 src1 aw1 e1).2 = Queued ->
  (updateClipboard (updateClipboard s c1 src1 aw1 e1).1.1 c2 src2 aw2 e2).2 = Queued ->
  let s2 := (updateClipboard (updateClipboard s c1 src1 aw1 e1).1.1 c2 src2 aw2 e2).1.1 in
  let alone := updateClipboard (set_processing true (set_syncQueue [] s)) c2 src2 aw2 e3 in
  (updateClipboard s c1 src1 aw1 e1).1.2 = []
  /\ (updateClipboard (updateClipboard s c1 src1 aw1 e1).1.1 c2 src2 aw2 e2).1.2 = []
  /\ clipboardHistory s2 = clipboardHistory s
  /\ lastClipboard s2 = lastClipboard s
  /\ processing s2 = true
  /\ last (syncQueue s2) = Some (queue_entry c2 src2 aw2 e2)
  /\ step s2 (QueueTimer e3) = (set_processing false alone.1.1, alone.1.2)
  /\ ((minSyncInterval s <= now e3 - lastSyncTime s)%Z ->
      conflicting s (generateHash c2) (now e3) = false ->
      isContentFiltered s c2 = false ->
      alone.2 = Synced
      /\ deliveries alone.1.2
         = map (fun id => (id, payload c2 src2 (now e3) (generateHash c2)))
               (fanout_targets s src2)
      /\ syncQueue alone.1.1 = []
      /\ (0 < maxHistorySize s ->
          exists item rest,
            clipboardHistory alone.1.1 = item :: rest
            /\ h_hash item = generateHash c2)).
Proof.
  intros H1 H2 s2 alone.
  destruct (two_queued _ _ _ _ _ _ _ _ _ H1 H2) as [E1 E2].
  destruct (updateClipboard_queued_inv _ _ _ _ _ H1) as (_ & _ & _).
  assert (gate_open s src2 /\ generateHash c2 <> lastClipboardHash s) as [Hg2 Hh2].
  { destruct (updateClipboard_queued_inv _ _ _ _ _ H2) as (Hg & Hh & _).
    rewrite E1 in Hg, Hh. auto. }
  subst s2. rewrite E2. rewrite E1. cbn [fst snd].
  split; [reflexivity|]. split; [reflexivity|].
  split; [reflexivity|]. split; [reflexivity|]. split; [reflexivity|].
  split; [cbn [syncQueue set_syncQueue set_processing]; apply last_snoc2|].
  split.
  { cbn [step processing set_processing]. unfold syncQueueTimer.
    cbn [syncQueue set_syncQueue set_processing]. rewrite last_snoc2.
    cbn [q_content q_sourceId q_autoWrite queue_entry].
    replace (set_syncQueue []
               (set_processing true
                  (set_syncQueue
                     (syncQueue s ++
                        [queue_entry c1 src1 aw1 e1; queue_entry c2 src2 aw2 e2]) s)))
      with (set_processing true (set_syncQueue [] s)) by (destruct s; reflexivity).
    fold alone. destruct alone as [[sa effa] oa]. reflexivity. }
  intros Ht Hc Hf.
  assert (alone.2 = Synced) as Hsynced.
  { apply updateClipboard_accepts; assumption. }
  split; [exact Hsynced|].
  split; [exact (synced_deliveries _ _ _ _ _ Hsynced)|].
  destruct (updateClipboard_synced _ _ _ _ _ Hsynced) as (_ & _ & _ & _ & _ & Hst & _).
  fold alone in Hst.
  split.
  { rewrite Hst, addToHistory_frame. reflexivity. }
  intros Hcap. rewrite Hst.
  destruct (unfiltered_is_text c2 s Hf) as (str & -> & Hne). cbn [or_empty].
  cbn [clipboardHistory set_totalSyncs].
  apply addToHistory_front; assumption.
Qed.

(** C4 at work: "Y" from D1 and "Z" from D2 are queued after "X"; when the
    timer fires the history is "Z" in front of "X", without "Y". *)
Lemma C4_timer_resubmits_only_the_latest_witness :
  (updateClipboard after_X (JString "Y") "D1" true (at_time 1010)).2 = Queued
  /\ (updateClipboard
        (updateClipboard after_X (JString "Y") "D1" true (at_time 1010)).1.1
        (JString "Z") "D2" true (at_time 1020)).2 = Queued
  /\ map h_content
       (clipboardHistory
          (step (updateClipboard
                   (updateClipboard after_X (JString "Y") "D1" true (at_time 1010)).1.1
                   (JString "Z") "D2" true (at_time 1020)).1.1
                (QueueTimer (at_time 1060))).1)
     = ["Z"; "X"].
Proof.
  assert ((updateClipboard after_X (JString "Y") "D1" true (at_time 1010)).2 = Queued)
    as H1 by (vm_compute; reflexivity).
  assert ((updateClipboard
             (updateClipboard after_X (JString "Y") "D1" true (at_time 1010)).1.1
             (JString "Z") "D2" true (at_time 1020)).2 = Queued)
    as H2 by (vm_compute; reflexivity).
  split; [exact H1|]. split; [exact H2|].
  destruct (C4_timer_resubmits_only_the_latest after_X (JString "Y") (JString "Z")
              "D1" "D2" true true (at_time 1010) (at_time 1020) (at_time 1060) H1 H2)
    as (_ & _ & _ & _ & _ & _ & -> & _).
  vm_compute. reflexivity.
Defined.

(** ** Invariants of the transition system *)

Section Invariants.

Lemma map_set_keys k v m :
  map fst (map_set k v m)
  = if bool_decide (k ∈ map fst m) then map fst m else map fst m ++ [k].
Proof.
  induction m as [|[k' v'] m IH]; cbn [map_set map fst]; [reflexivity|].
  destruct (String.eqb_spec k' k) as [->|Hne].
  - cbn [map fst]. rewrite bool_decide_eq_true_2 by left. reflexivity.
  - cbn [map fst]. rewrite IH.
    destruct (bool_decide_reflect (k ∈ map fst m)) as [Hin|Hnin].
    + rewrite bool_decide_eq_true_2 by (by right). reflexivity.
    + rewrite bool_decide_eq_false_2; [reflexivity|].
      intros [?|?]%elem_of_cons; congruence.
Qed.

Lemma map_set_nodup k v m : NoDup (map fst m) -> NoDup (map fst (map_set k v m)).
Proof.
  intros Hnd. rewrite map_set_keys.
  destruct (bool_decide_reflect (k ∈ map fst m)) as [Hin|Hnin]; [assumption|].
  apply NoDup_app. split; [assumption|]. split.
  - intros x Hx [->|[]%elem_of_nil]%elem_of_cons. contradiction.
  - apply NoDup_singleton.
Qed.

Lemma map_delete_nodup k m : NoDup (map fst m) -> NoDup (map fst (map_delete k m)).
Proof.
  induction m as [|[k' v'] m IH]; cbn [map_delete map fst]; [auto|].
  intros [Hk Hnd]%NoDup_cons. destruct (k' =? k); [assumption|].
  cbn [map fst]. apply NoDup_cons. split; [|auto].
  intros Hin. apply Hk. clear -Hin.
  induction m as [|[k2 v2] m IH]; cbn [map_delete map fst] in *; [assumption|].
  destruct (k2 =? k); [by right|].
  cbn [map fst] in Hin. apply elem_of_cons in Hin as [->|Hin]; [by left|].
  right. auto.
Qed.

Lemma addToHistory_bounded s content t :
  length (clipboardHistory s) <= maxHistorySize s ->
  length (clipboardHistory (addToHistory s content t).1) <= maxHistorySize s.
Proof.
  intros Hlen. destruct (String.eqb_spec content "") as [->|Hne]; [exact Hlen|].
  rewrite addToHistory_history by assumption. cbv zeta.
  destruct (findIndex _ _) as [[|i]|]; [assumption| |].
  - destruct (clipboardHistory s !! Datatypes.S i); rewrite length_take; lia.
  - rewrite length_take; lia.
Qed.

Lemma updateClipboard_wf s c src aw e :
  wf s -> wf (updateClipboard s c src aw e).1.1.
Proof.
  intros [Hnd Hlen]. unfold updateClipboard.
  destruct (negb _ && negb _); [by split|].
  destruct (generateHash c =? lastClipboardHash s); [by split|].
  destruct (now e - lastSyncTime s <? minSyncInterval s)%Z.
  { unfold processSyncQueue. destruct (_ || _); by split. }
  destruct (conflicting _ _ _); [by split|].
  destruct (isContentFiltered _ _); [by split|].
  pose proof (addToHistory_frame (remember (generateHash c) (now e) c s)
                (or_empty c) (history_now e)) as Hfr.
  pose proof (addToHistory_bounded (remember (generateHash c) (now e) c s)
                (or_empty c) (history_now e) Hlen) as Hb.
  destruct (addToHistory _ _ _) as [s2 hist]. cbn [fst snd] in *.
  rewrite Hfr. split; [exact Hnd | exact Hb].
Qed.

Lemma step_wf s ev : wf s -> wf (step s ev).1.
Proof.
  intros Hwf. pose proof Hwf as [Hnd Hlen].
  destruct ev; cbn [step].
  - split; [by apply map_set_nodup | exact Hlen].
  - unfold clipboard_update.
    pose proof (updateClipboard_wf s (JString content) socketId (not_false autoWrite) e Hwf).
    by destruct (updateClipboard _ _ _ _ _) as [[? ?] ?].
  - unfold toggle_auto_sync. destruct (map_get _ _); [|exact Hwf].
    split; [by apply map_set_nodup | exact Hlen].
  - unfold use_history_item. destruct (history_at s index) as [item|]; [|exact Hwf].
    pose proof (updateClipboard_wf s (JString (h_content item)) socketId true e Hwf).
    by destruct (updateClipboard _ _ _ _ _) as [[? ?] ?].
  - split; [by apply map_delete_nodup | exact Hlen].
  - exact Hwf.
  - unfold post_clipboard.
    pose proof (updateClipboard_wf s content "api" true e Hwf).
    destruct content; [exact Hwf| |];
      by destruct (updateClipboard _ _ _ _ _) as [[? ?] ?].
  - unfold post_history. destruct (index ≫= history_at s) as [item|]; [|exact Hwf].
    pose proof (updateClipboard_wf s (JString (h_content item)) "history" true e Hwf).
    by destruct (updateClipboard _ _ _ _ _) as [[? ?] ?].
  - unfold post_settings. destruct autoSync; exact Hwf.
  - unfold monitor_tick. destruct read as [cur|]; [|exact Hwf].
    destruct (_ && _); [|exact Hwf].
    pose proof (updateClipboard_wf s (JString cur) "local" false e Hwf).
    by destruct (updateClipboard _ _ _ _ _) as [[? ?] ?].
  - destruct (processing s); [|exact Hwf].
    unfold syncQueueTimer. destruct (last (syncQueue s)) as [latest|]; [|exact Hwf].
    pose proof (updateClipboard_wf (set_syncQueue [] s) (q_content latest)
                  (q_sourceId latest) (q_autoWrite latest) e Hwf) as H.
    destruct (updateClipboard _ _ _ _ _) as [[? ?] ?]. exact H.
  - exact Hwf.
Qed.

(** Every state the server can reach is well formed. *)
Lemma run_wf evs : forall s, wf s -> wf (run s evs).1.
Proof.
  induction evs as [|ev evs IH]; intros s Hwf; cbn [run]; [exact Hwf|].
  pose proof (step_wf s ev Hwf) as H1.
  destruct (step s ev) as [s1 eff1]. specialize (IH s1 H1).
  destruct (run s1 evs) as [s2 eff2]. exact IH.
Qed.

Lemma new_server_wf h : wf (new_server h).
Proof. split; cbn; [constructor | lia]. Qed.

Lemma same_config_refl s : same_config s s.
Proof. by repeat split. Qed.

Lemma updateClipboard_same_config s c src aw e :
  same_config s (updateClipboard s c src aw e).1.1.
Proof.
  unfold updateClipboard.
  destruct (negb _ && negb _); [apply same_config_refl|].
  destruct (generateHash c =? lastClipboardHash s); [apply same_config_refl|].
  destruct (now e - lastSyncTime s <? minSyncInterval s)%Z.
  { unfold processSyncQueue. destruct (_ || _); by repeat split. }
  destruct (conflicting _ _ _); [apply same_config_refl|].
  destruct (isContentFiltered _ _); [by repeat split|].
  pose proof (addToHistory_frame (remember (generateHash c) (now e) c s)
                (or_empty c) (history_now e)) as Hfr.
  destruct (addToHistory _ _ _) as [s2 hist]. cbn [fst snd] in *.
  rewrite Hfr. by repeat split.
Qed.

Lemma step_same_config s ev : same_config s (step s ev).1.
Proof.
  destruct ev; cbn [step]; try apply same_config_refl; try (by repeat split).
  - unfold clipboard_update.
    pose proof (updateClipboard_same_config s (JString content) socketId
                  (not_false autoWrite) e).
    by destruct (updateClipboard _ _ _ _ _) as [[? ?] ?].
  - unfold toggle_auto_sync. destruct (map_get _ _); by repeat split.
  - unfold use_history_item.
    destruct (history_at s index) as [item|]; [|apply same_config_refl].
    pose proof (updateClipboard_same_config s (JString (h_content item)) socketId true e).
    by destruct (updateClipboard _ _ _ _ _) as [[? ?] ?].
  - unfold post_clipboard.
    pose proof (updateClipboard_same_config s content "api" true e).
    destruct content; [apply same_config_refl| |];
      by destruct (updateClipboard _ _ _ _ _) as [[? ?] ?].
  - unfold post_history.
    destruct (index ≫= history_at s) as [item|]; [|apply same_config_refl].
    pose proof (updateClipboard_same_config s (JString (h_content item)) "history" true e).
    by destruct (updateClipboard _ _ _ _ _) as [[? ?] ?].
  - unfold post_settings. destruct autoSync; by repeat split.
  - unfold monitor_tick. destruct read as [cur|]; [|apply same_config_refl].
    destruct (_ && _); [|apply same_config_refl].
    pose proof (updateClipboard_same_config s (JString cur) "local" false e).
    by destruct (updateClipboard _ _ _ _ _) as [[? ?] ?].
  - destruct (processing s); [|apply same_config_refl].
    unfold syncQueueTimer.
    destruct (last (syncQueue s)) as [latest|]; [|by repeat split].
    pose proof (updateClipboard_same_config (set_syncQueue [] s) (q_content latest)
                  (q_sourceId latest) (q_autoWrite latest) e) as H.
    destruct (updateClipboard _ _ _ _ _) as [[s1 ?] ?]. cbn [fst] in *.
    destruct H as (? & ? & ? & ? & ?). by repeat split.
Qed.

Lemma run_same_config evs : forall s, same_config s (run s evs).1.
Proof.
  induction evs as [|ev evs IH]; intros s; cbn [run]; [apply same_config_refl|].
  pose proof (step_same_config s ev) as H1.
  destruct (step s ev) as [s1 eff1]. specialize (IH s1).
  destruct (run s1 evs) as [s2 eff2]. cbn [fst] in *.
  destruct H1 as (? & ? & ? & ? & ?), IH as (? & ? & ? & ? & ?).
  repeat split; congruence.
Qed.

(** Whatever happens to a server, its history holds at most ten items, the
    interval between two syncs is 50 ms and the length limit 50000. *)
Lemma reachable_settings (h : bool) (evs : list event) :
  let s := (run (new_server h) evs).1 in
  wf s
  /\ maxHistorySize s = 10
  /\ length (clipboardHistory s) <= 10
  /\ minSyncInterval s = 50%Z
  /\ maxContentLength s = 50000%Z.
Proof.
  intros s. subst s.
  destruct (run_same_config evs (new_server h)) as (_ & Hcap & Hint & Hmax & _).
  pose proof (run_wf evs (new_server h) (new_server_wf h)) as Hwf.
  split; [exact Hwf|]. destruct Hwf as [_ Hlen].
  rewrite Hcap in Hlen |- *. rewrite Hint, Hmax. auto.
Qed.

End Invariants.

(** * Further properties of the server *)

(** ** The device registry *)

Section Registry.

Implicit Types (m : list (string * device)) (k : string) (v d : device).

Lemma map_get_None m k : map_get k m = None <-> k ∉ map fst m.
Proof.
  induction m as [|[k' v'] m IH]; cbn [map_get map fst].
  - split; [intros _; apply not_elem_of_nil | reflexivity].
  - rewrite not_elem_of_cons. destruct (String.eqb_spec k' k) as [->|Hne].
    + split; [discriminate | intros [? _]; congruence].
    + rewrite IH. split; [intros ?; split; [congruence | assumption] | tauto].
Qed.

Lemma map_get_elem m k d :
  NoDup (map fst m) -> map_get k m = Some d <-> (k, d) ∈ m.
Proof.
  induction m as [|[k' v'] m IH]; cbn [map_get map fst]; intros Hnd.
  - split; [discriminate | intros []%elem_of_nil].
  - apply NoDup_cons in Hnd as [Hk Hnd]. rewrite elem_of_cons.
    destruct (String.eqb_spec k' k) as [->|Hne].
    + split; [intros [= ->]; by left|].
      intros [[= ->]|Hin]; [reflexivity|].
      exfalso. apply Hk. apply list_elem_of_fmap. by exists (k, d).
    + rewrite (IH Hnd). split; [tauto|]. intros [[= ? ?]|?]; [congruence | assumption].
Qed.

Lemma map_get_set_eq k v m : map_get k (map_set k v m) = Some v.
Proof.
  induction m as [|[k' v'] m IH]; cbn [map_set map_get].
  - by rewrite String.eqb_refl.
  - destruct (String.eqb_spec k' k) as [->|Hne]; cbn [map_get].
    + by rewrite String.eqb_refl.
    + destruct (String.eqb_spec k' k); [contradiction | exact IH].
Qed.

Lemma map_get_set_ne k k' v m : k <> k' -> map_get k' (map_set k v m) = map_get k' m.
Proof.
  intros Hne. induction m as [|[k2 v2] m IH]; cbn [map_set map_get].
  - destruct (String.eqb_spec k k'); [contradiction | reflexivity].
  - destruct (String.eqb_spec k2 k) as [->|Hne2]; cbn [map_get].
    + destruct (String.eqb_spec k k'); [contradiction | reflexivity].
    + destruct (k2 =? k'); [reflexivity | exact IH].
Qed.

Lemma map_delete_absent k m : k ∉ map fst m -> map_delete k m = m.
Proof.
  induction m as [|[k' v'] m IH]; cbn [map_delete map fst]; [reflexivity|].
  intros [Hne Hnin]%not_elem_of_cons.
  destruct (String.eqb_spec k' k); [congruence|]. by rewrite IH.
Qed.

Lemma map_get_delete_eq k m : NoDup (map fst m) -> map_get k (map_delete k m) = None.
Proof.
  induction m as [|[k' v'] m IH]; cbn [map_delete map fst]; [reflexivity|].
  intros [Hk Hnd]%NoDup_cons. destruct (String.eqb_spec k' k) as [->|Hne].
  - by apply map_get_None.
  - cbn [map_get]. destruct (String.eqb_spec k' k); [contradiction | auto].
Qed.

Lemma map_get_delete_ne k k' m : k <> k' -> map_get k' (map_delete k m) = map_get k' m.
Proof.
  intros Hne. induction m as [|[k2 v2] m IH]; cbn [map_delete map_get]; [reflexivity|].
  destruct (String.eqb_spec k2 k) as [->|Hne2]; cbn [map_get].
  - destruct (String.eqb_spec k k'); [contradiction | reflexivity].
  - destruct (k2 =? k'); [reflexivity | exact IH].
Qed.

Lemma map_set_fresh k v m : k ∉ map fst m -> map_set k v m = m ++ [(k, v)].
Proof.
  induction m as [|[k' v'] m IH]; cbn [map_set map fst]; [reflexivity|].
  intros [Hne Hnin]%not_elem_of_cons.
  destruct (String.eqb_spec k' k); [congruence|]. by rewrite IH.
Qed.

Lemma map_delete_set_fresh k v m : k ∉ map fst m -> map_delete k (map_set k v m) = m.
Proof.
  induction m as [|[k' v'] m IH]; cbn [map_set map_delete map fst].
  - intros _. by rewrite String.eqb_refl.
  - intros [Hne Hnin]%not_elem_of_cons.
    destruct (String.eqb_spec k' k); [congruence|]. cbn [map_delete].
    destruct (String.eqb_spec k' k); [congruence|]. by rewrite IH.
Qed.

(** Who is in the fan-out, read through [Map.get]. *)
Lemma fanout_targets_get s src id :
  NoDup (map fst (connectedDevices s)) ->
  id ∈ fanout_targets s src <->
  exists d, map_get id (connectedDevices s) = Some d /\ dev_autoSync d = true /\ id <> src.
Proof.
  intros Hnd. rewrite fanout_targets_spec.
  split; intros (d & H & ?); exists d; (split; [|assumption]); by apply map_get_elem.
Qed.

(** Whatever [updateClipboard] does, it sends [clipboard-update] to fan-out
    targets only. *)
Lemma updateClipboard_not_synced_silent s c src aw e :
  (updateClipboard s c src aw e).2 <> Synced ->
  clipboardHistory (updateClipboard s c src aw e).1.1 = clipboardHistory s
  /\ deliveries (updateClipboard s c src aw e).1.2 = []
  /\ os_writes (updateClipboard s c src aw e).1.2 = []
  /\ history_emits (updateClipboard s c src aw e).1.2 = [].
Proof.
  unfold updateClipboard.
  destruct (negb _ && negb _); [cbn; auto|].
  destruct (generateHash c =? lastClipboardHash s); [cbn; auto|].
  destruct (now e - lastSyncTime s <? minSyncInterval s)%Z.
  { cbn. rewrite processSyncQueue_history. auto. }
  destruct (conflicting _ _ _); [cbn; auto|].
  destruct (isContentFiltered _ _) eqn:Hf.
  - intros _. cbn [fst snd].
    destruct (isContentFiltered_log_silent (remember (generateHash c) (now e) c s) c)
      as (H1 & H2 & H3).
    rewrite deliveries_app, os_writes_app, history_emits_app, H1, H2, H3. cbn. auto.
  - destruct (addToHistory _ _ _). cbn. congruence.
Qed.

Lemma updateClipboard_targets s c src aw e id :
  id ∈ map fst (deliveries (updateClipboard s c src aw e).1.2) ->
  id ∈ fanout_targets s src.
Proof.
  assert ((updateClipboard s c src aw e).2 = Synced
          \/ (updateClipboard s c src aw e).2 <> Synced) as [H|H]
    by (destruct (updateClipboard s c src aw e).2; (by left) || (by right)).
  - rewrite (synced_deliveries _ _ _ _ _ H), map_fst_deliveries. auto.
  - destruct (updateClipboard_not_synced_silent _ _ _ _ _ H) as (_ & -> & _).
    intros []%elem_of_nil.
Qed.

End Registry.

(** X1. A device that registers is from then on a fan-out target of every
    update of another source exactly when it did not register with
    [autoSync: false]; the standing of the other devices is not touched, and
    a socket that registers again keeps its single place in the [Map]. *)
Theorem register_device_joins_fanout
    (s : server) (socketId : string) (info : deviceInfo) (t : Z) :
  NoDup (map fst (connectedDevices s)) ->
  let s' := (register_device s socketId info t).1 in
  NoDup (map fst (connectedDevices s'))
  /\ (forall src, socketId ∈ fanout_targets s' src <->
        not_false (i_autoSync info) = true /\ socketId <> src)
  /\ (forall id src, id <> socketId ->
        id ∈ fanout_targets s' src <-> id ∈ fanout_targets s src)
  /\ (socketId ∈ map fst (connectedDevices s) ->
        map fst (connectedDevices s') = map fst (connectedDevices s))
  /\ (socketId ∉ map fst (connectedDevices s) ->
        map fst (connectedDevices s') = map fst (connectedDevices s) ++ [socketId]).
Proof.
  intros Hnd s'. subst s'. unfold register_device. cbn [fst connectedDevices set_connectedDevices].
  set (device := mkDevice _ _ _ _ _).
  assert (NoDup (map fst (map_set socketId device (connectedDevices s)))) as Hnd'
    by (by apply map_set_nodup).
  split; [exact Hnd'|]. split; [|split; [|split]].
  - intros src. rewrite fanout_targets_get by exact Hnd'.
    cbn [connectedDevices set_connectedDevices]. rewrite map_get_set_eq. split.
    + intros (d & [= <-] & Ha & Hne). auto.
    + intros [Ha Hne]. exists device. auto.
  - intros id src Hne. rewrite !fanout_targets_get by assumption.
    cbn [connectedDevices set_connectedDevices].
    rewrite map_get_set_ne by congruence. reflexivity.
  - intros Hin. rewrite map_set_keys. by rewrite bool_decide_eq_true_2.
  - intros Hnin. rewrite map_set_keys. by rewrite bool_decide_eq_false_2.
Qed.

(** X1 at work: D4 registers on manual with the three devices. *)
Lemma register_device_joins_fanout_witness :
  NoDup (map fst (connectedDevices three_devices))
  /\ fanout_targets
       (register_device three_devices "D4" (mkDeviceInfo None None (Some false)) 4).1 "D1"
     = ["D2"; "D3"]
  /\ ("D4" ∈ fanout_targets
               (register_device three_devices "D4" (mkDeviceInfo None None (Some false)) 4).1
               "D1"
      <-> not_false (Some false) = true /\ "D4" <> "D1").
Proof.
  assert (NoDup (map fst (connectedDevices three_devices))) as Hnd
    by (apply (bool_decide_unpack _); vm_compute; exact I).
  split; [exact Hnd|]. split; [vm_compute; reflexivity|].
  destruct (register_device_joins_fanout three_devices "D4"
              (mkDeviceInfo None None (Some false)) 4 Hnd) as (_ & H & _).
  exact (H "D1").
Defined.

(** X2. [toggle-auto-sync] from a registered socket puts that device into
    the fan-out or takes it out, as the flag says, and changes nothing for
    the others; from a socket that never registered it does nothing. *)
Theorem toggle_auto_sync_fanout (s : server) (socketId : string) (enabled : bool) :
  NoDup (map fst (connectedDevices s)) ->
  let s' := (toggle_auto_sync s socketId enabled).1 in
  map fst (connectedDevices s') = map fst (connectedDevices s)
  /\ (socketId ∈ map fst (connectedDevices s) ->
      forall src, socketId ∈ fanout_targets s' src <-> enabled = true /\ socketId <> src)
  /\ (forall id src, id <> socketId ->
        id ∈ fanout_targets s' src <-> id ∈ fanout_targets s src)
  /\ (socketId ∉ map fst (connectedDevices s) ->
      toggle_auto_sync s socketId enabled = (s, [])).
Proof.
  intros Hnd s'. subst s'. unfold toggle_auto_sync.
  destruct (map_get socketId (connectedDevices s)) as [device|] eqn:Hget.
  - cbn [fst connectedDevices set_connectedDevices].
    set (device' := mkDevice _ _ _ _ _).
    assert (socketId ∈ map fst (connectedDevices s)) as Hin.
    { destruct (decide (socketId ∈ map fst (connectedDevices s))) as [|Hnin]; [assumption|].
      apply map_get_None in Hnin. congruence. }
    assert (map fst (map_set socketId device' (connectedDevices s))
            = map fst (connectedDevices s)) as Hkeys
      by (rewrite map_set_keys; by rewrite bool_decide_eq_true_2).
    split; [exact Hkeys|]. split; [|split].
    + intros _ src. rewrite fanout_targets_get
        by (cbn [connectedDevices set_connectedDevices]; by rewrite Hkeys).
      cbn [connectedDevices set_connectedDevices]. rewrite map_get_set_eq. split.
      * intros (d & [= <-] & Ha & Hne). auto.
      * intros [Ha Hne]. exists device'. auto.
    + intros id src Hne. rewrite !fanout_targets_get
        by (cbn [connectedDevices set_connectedDevices]; by rewrite ?Hkeys).
      cbn [connectedDevices set_connectedDevices].
      rewrite map_get_set_ne by congruence. reflexivity.
    + intros Hnin. contradiction.
  - cbn [fst]. split; [reflexivity|]. split; [|split].
    + intros Hin. apply map_get_None in Hget. contradiction.
    + reflexivity.
    + reflexivity.
Qed.

(** X2 at work: D2 switches auto-sync off and drops out of the fan-out of
    D1's updates. *)
Lemma toggle_auto_sync_fanout_witness :
  NoDup (map fst (connectedDevices three_devices))
  /\ ("D2" ∈ map fst (connectedDevices three_devices))
  /\ ("D2" ∉ fanout_targets (toggle_auto_sync three_devices "D2" false).1 "D1")
  /\ fanout_targets (toggle_auto_sync three_devices "D2" false).1 "D1" = ["D3"].
Proof.
  assert (NoDup (map fst (connectedDevices three_devices))) as Hnd
    by (apply (bool_decide_unpack _); vm_compute; exact I).
  assert ("D2" ∈ map fst (connectedDevices three_devices)) as Hin
    by (apply (bool_decide_unpack _); vm_compute; exact I).
  split; [exact Hnd|]. split; [exact Hin|]. split; [|vm_compute; reflexivity].
  destruct (toggle_auto_sync_fanout three_devices "D2" false Hnd) as (_ & H & _).
  intros Hmem. apply (H Hin "D1") in Hmem as [Hf _]. discriminate Hf.
Defined.

(** X3. After [disconnect] the socket is in no fan-out and no update
    reaches it, whatever arrives next; the other devices keep their
    standing.  Disconnecting a socket that never registered leaves the
    registry as it is, and registering then disconnecting a new socket gives
    the registry back unchanged. *)
Theorem disconnect_leaves_fanout (s : server) (socketId : string) :
  NoDup (map fst (connectedDevices s)) ->
  let s' := (disconnect s socketId).1 in
  NoDup (map fst (connectedDevices s'))
  /\ (forall src, socketId ∉ fanout_targets s' src)
  /\ (forall c src aw e,
        socketId ∉ map fst (deliveries (updateClipboard s' c src aw e).1.2))
  /\ (forall id src, id <> socketId ->
        id ∈ fanout_targets s' src <-> id ∈ fanout_targets s src)
  /\ (socketId ∉ map fst (connectedDevices s) ->
      connectedDevices s' = connectedDevices s)
  /\ (forall info t,
        socketId ∉ map fst (connectedDevices s) ->
        connectedDevices (disconnect (register_device s socketId info t).1 socketId).1
        = connectedDevices s).
Proof.
  intros Hnd s'. subst s'. unfold disconnect.
  cbn [fst connectedDevices set_connectedDevices].
  assert (NoDup (map fst (map_delete socketId (connectedDevices s)))) as Hnd'
    by (by apply map_delete_nodup).
  assert (forall src,
            socketId ∉ fanout_targets
              (set_connectedDevices (map_delete socketId (connectedDevices s)) s) src)
    as Hout.
  { intros src. rewrite fanout_targets_get by exact Hnd'.
    cbn [connectedDevices set_connectedDevices].
    rewrite map_get_delete_eq by exact Hnd. intros (d & [=] & _). }
  split; [exact Hnd'|]. split; [exact Hout|]. split; [|split; [|split]].
  - intros c src aw e Hin. apply updateClipboard_targets in Hin. by apply Hout in Hin.
  - intros id src Hne. rewrite !fanout_targets_get by assumption.
    cbn [connectedDevices set_connectedDevices].
    rewrite map_get_delete_ne by congruence. reflexivity.
  - intros Hnin. by apply map_delete_absent.
  - intros info t Hnin. unfold register_device.
    cbn [fst connectedDevices set_connectedDevices]. by apply map_delete_set_fresh.
Qed.

(** X3 at work: D2 disconnects from the three devices. *)
Lemma disconnect_leaves_fanout_witness :
  NoDup (map fst (connectedDevices three_devices))
  /\ ("D2" ∉ map fst (deliveries
                       (updateClipboard (disconnect three_devices "D2").1
                          (JString "hello") "D1" true (at_time 1000)).1.2))
  /\ map fst (deliveries
                (updateClipboard (disconnect three_devices "D2").1
                   (JString "hello") "D1" true (at_time 1000)).1.2) = ["D3"].
Proof.
  assert (NoDup (map fst (connectedDevices three_devices))) as Hnd
    by (apply (bool_decide_unpack _); vm_compute; exact I).
  split; [exact Hnd|]. split; [|vm_compute; reflexivity].
  destruct (disconnect_leaves_fanout three_devices "D2" Hnd) as (_ & _ & H & _).
  exact (H (JString "hello") "D1" true (at_time 1000)).
Defined.

(** ** What an accepted update prints and writes *)

Section Accepted.

Lemma autosync_count_split (src : string) (m : list (string * device)) :
  NoDup (map fst m) ->
  length (filter (fun d => dev_autoSync d = true) (map snd m))
  = length (filter (fun kv : string * device =>
                      kv.1 <> src /\ dev_autoSync kv.2 = true) m)
    + match map_get src m with
      | Some d => if dev_autoSync d then 1 else 0
      | None => 0
      end.
Proof.
  induction m as [|[k d] m IH]; cbn [map fst snd map_get]; [reflexivity|].
  intros [Hk Hnd]%NoDup_cons. specialize (IH Hnd).
  destruct (String.eqb_spec k src) as [->|Hne].
  - apply map_get_None in Hk. rewrite Hk in IH.
    rewrite (filter_cons_False (fun kv : string * device => kv.1 <> src /\ _))
      by (cbn; tauto).
    destruct (dev_autoSync d) eqn:Ha.
    + rewrite filter_cons_True by exact Ha. cbn [length]. lia.
    + rewrite filter_cons_False by congruence. lia.
  - destruct (dev_autoSync d) eqn:Ha.
    + rewrite filter_cons_True by exact Ha.
      rewrite (filter_cons_True (fun kv : string * device => kv.1 <> src /\ _))
        by (cbn; auto).
      cbn [length]. lia.
    + rewrite filter_cons_False by congruence.
      rewrite (filter_cons_False (fun kv : string * device => kv.1 <> src /\ _))
        by (cbn; intros [_ ?]; congruence).
      exact IH.
Qed.

Lemma broadcast_os_writes s c src t h : os_writes (broadcast s c src t h) = [].
Proof.
  unfold broadcast. induction (connectedDevices s) as [|[k d] l IH]; [reflexivity|].
  cbn [flat_map]. rewrite os_writes_app, IH.
  destruct (negb (k =? src) && dev_autoSync d); reflexivity.
Qed.

Lemma broadcast_logs s c src t h : logs (broadcast s c src t h) = [].
Proof.
  unfold broadcast. induction (connectedDevices s) as [|[k d] l IH]; [reflexivity|].
  cbn [flat_map]. unfold logs in *. rewrite flat_map_app, IH.
  destruct (negb (k =? src) && dev_autoSync d); reflexivity.
Qed.

(** The clipboard is written at most once per call: when the update is
    accepted, asks for it and does not come from the poller. *)
Lemma updateClipboard_os_writes s c src aw e :
  os_writes (updateClipboard s c src aw e).1.2
  = match (updateClipboard s c src aw e).2 with
    | Synced => if aw && negb (src =? "local") then [or_empty c] else []
    | _ => []
    end.
Proof.
  assert ((updateClipboard s c src aw e).2 = Synced
          \/ (updateClipboard s c src aw e).2 <> Synced) as [H|H]
    by (destruct (updateClipboard s c src aw e).2; (by left) || (by right)).
  - rewrite H.
    destruct (updateClipboard_synced _ _ _ _ _ H) as (_ & _ & _ & _ & _ & _ & ->).
    rewrite !os_writes_app, broadcast_os_writes.
    destruct (addToHistory_effects (remember (generateHash c) (now e) c s)
                (or_empty c) (history_now e)) as (_ & -> & _).
    unfold write_clipboard. cbn [headless remember].
    destruct (aw && negb (src =? "local")), (write_ok e), (headless s); reflexivity.
  - destruct (updateClipboard_not_synced_silent _ _ _ _ _ H) as (_ & _ & -> & _).
    destruct (updateClipboard s c src aw e).2; congruence.
Qed.

End Accepted.

(** X4. The number of devices in the line "Clipboard synced to N devices"
    is the number of registered devices with auto-sync on, the sender
    included: it exceeds the number of devices the update was sent to by one
    whenever the sender is a registered device with auto-sync on, and equals
    it otherwise. *)
Theorem synced_line_counts_the_sender
    (s : server) (c : jsval) (src : string) (aw : bool) (e : env) :
  (updateClipboard s c src aw e).2 = Synced ->
  NoDup (map fst (connectedDevices s)) ->
  headless s = false ->
  let eff := (updateClipboard s c src aw e).1.2 in
  let sender := match map_get src (connectedDevices s) with
                | Some d => if dev_autoSync d then 1 else 0
                | None => 0
                end in
  exists n,
    last eff = Some (Log (LogSynced n (String.length (or_empty c))))
    /\ n = getAutoSyncDeviceCount s
    /\ n = length (deliveries eff) + sender.
Proof.
  intros H Hnd Hh eff sender. subst eff sender.
  exists (getAutoSyncDeviceCount s).
  rewrite (synced_deliveries _ _ _ _ _ H), length_map.
  destruct (updateClipboard_synced _ _ _ _ _ H) as (_ & _ & _ & _ & _ & _ & ->).
  rewrite Hh. split; [|split; [reflexivity|]].
  - rewrite !app_assoc. apply last_snoc.
  - unfold getAutoSyncDeviceCount, fanout_targets. rewrite length_map.
    by apply autosync_count_split.
Qed.

(** X4 at work: "hello" from D1 goes to two devices and the line says three. *)
Lemma synced_line_counts_the_sender_witness :
  (updateClipboard three_devices (JString "hello") "D1" true (at_time 1000)).2 = Synced
  /\ NoDup (map fst (connectedDevices three_devices))
  /\ headless three_devices = false
  /\ length (deliveries
               (updateClipboard three_devices (JString "hello") "D1" true
                  (at_time 1000)).1.2) = 2
  /\ exists n,
       last (updateClipboard three_devices (JString "hello") "D1" true (at_time 1000)).1.2
       = Some (Log (LogSynced n 5))
       /\ n = 3.
Proof.
  assert ((updateClipboard three_devices (JString "hello") "D1" true (at_time 1000)).2
          = Synced) as H by (vm_compute; reflexivity).
  assert (NoDup (map fst (connectedDevices three_devices))) as Hnd
    by (apply (bool_decide_unpack _); vm_compute; exact I).
  assert (headless three_devices = false) as Hh by (vm_compute; reflexivity).
  split; [exact H|]. split; [exact Hnd|]. split; [exact Hh|].
  split; [vm_compute; reflexivity|].
  destruct (synced_line_counts_the_sender three_devices (JString "hello") "D1" true
              (at_time 1000) H Hnd Hh) as (n & Hlast & Hn & _).
  exists n. split; [exact Hlast|]. rewrite Hn. vm_compute. reflexivity.
Defined.

(** X5. One call of [updateClipboard] writes the OS clipboard at most once,
    and only the accepted content: it writes exactly when the update is
    accepted, was sent with [autoWrite] and does not come from ["local"].
    An update with [autoWrite] off is still sent on to every fan-out target
    with [autoWrite: true]. *)
Theorem os_clipboard_written_only_on_remote_accept
    (s : server) (c : jsval) (src : string) (aw : bool) (e : env) :
  let r := updateClipboard s c src aw e in
  (os_writes r.1.2 = [or_empty c]
   <-> r.2 = Synced /\ aw = true /\ src <> "local")
  /\ (os_writes r.1.2 = [] \/ os_writes r.1.2 = [or_empty c])
  /\ (r.2 = Synced ->
      Forall (fun d : string * updateData =>
                u_autoWrite d.2 = true /\ u_content d.2 = c /\ u_from d.2 = src)
             (deliveries r.1.2)).
Proof.
  intros r. subst r. rewrite updateClipboard_os_writes.
  split; [|split].
  - destruct (updateClipboard s c src aw e).2;
      try (split; [discriminate | intros [[=] _]]).
    destruct aw; cbn [andb].
    + destruct (String.eqb_spec src "local") as [->|Hne]; cbn [negb].
      * split; [discriminate | intros (_ & _ & ?); congruence].
      * split; auto.
    + split; [discriminate | intros (_ & [=] & _)].
  - destruct (updateClipboard s c src aw e).2; auto.
    destruct (aw && negb (src =? "local")); auto.
  - intros H. rewrite (synced_deliveries _ _ _ _ _ H).
    apply Forall_forall. intros [id d] Hin.
    apply list_elem_of_fmap in Hin as (id' & [= -> ->] & _). cbn. auto.
Qed.

(** ** The local poller *)

(** X6. Once an update has been accepted, or remembered and rejected by the
    filter, a tick of the poller that reads the same text back from the OS
    clipboard does nothing: the state stays and nothing is sent, written or
    printed.  (This is what keeps the write of a remote update from coming
    back as a local change.) *)
Theorem poller_ignores_last_known_value
    (s : server) (str : string) (src : string) (aw : bool) (e e' : env) :
  (updateClipboard s (JString str) src aw e).2 = Synced
  \/ (updateClipboard s (JString str) src aw e).2 = Filtered ->
  monitor_tick (updateClipboard s (JString str) src aw e).1.1 (ReadOk str) e'
  = ((updateClipboard s (JString str) src aw e).1.1, []).
Proof.
  intros H.
  assert (lastClipboardHash (updateClipboard s (JString str) src aw e).1.1
          = generateHash (JString str)) as Hh
    by (apply (updateClipboard_last_known s (JString str) src aw e); tauto).
  unfold monitor_tick. rewrite Hh, String.eqb_refl. reflexivity.
Qed.

(** X6 at work: "hello" from D1 was written to the host, and the poller
    reads "hello". *)
Lemma poller_ignores_last_known_value_witness :
  ((updateClipboard three_devices (JString "hello") "D1" true (at_time 1000)).2 = Synced
   \/ (updateClipboard three_devices (JString "hello") "D1" true (at_time 1000)).2
      = Filtered)
  /\ (monitor_tick
        (updateClipboard three_devices (JString "hello") "D1" true (at_time 1000)).1.1
        (ReadOk "hello") (at_time 1100)).2 = [].
Proof.
  assert ((updateClipboard three_devices (JString "hello") "D1" true (at_time 1000)).2
          = Synced
          \/ (updateClipboard three_devices (JString "hello") "D1" true (at_time 1000)).2
             = Filtered) as H by (left; vm_compute; reflexivity).
  split; [exact H|].
  rewrite (poller_ignores_last_known_value three_devices "hello" "D1" true
             (at_time 1000) (at_time 1100) H).
  reflexivity.
Defined.

(** X7. A tick of the poller never writes to the OS clipboard.  A read that
    throws, and a clipboard that is empty, leave the state as it is and send
    nothing; the error of the read is printed exactly when the server is not
    headless and the message of the error is not ["No clipboard content"].
    What a tick does send is marked as coming from ["local"], goes to
    fan-out targets only, and tells the receivers to write it. *)
Theorem poller_never_writes_back (s : server) (read : clipboardRead) (e : env) :
  os_writes (monitor_tick s read e).2 = []
  /\ (forall message,
        read = ReadThrows message ->
        (monitor_tick s read e).1 = s
        /\ (logs (monitor_tick s read e).2 = [LogReadWarning]
            <-> headless s = false /\ message <> "No clipboard content")
        /\ (logs (monitor_tick s read e).2 = []
            <-> headless s = true \/ message = "No clipboard content")
        /\ deliveries (monitor_tick s read e).2 = [])
  /\ (read = ReadOk "" -> monitor_tick s read e = (s, []))
  /\ Forall (fun d : string * updateData =>
               d.1 ∈ fanout_targets s "local"
               /\ u_from d.2 = "local" /\ u_autoWrite d.2 = true
               /\ ReadOk (or_empty (u_content d.2)) = read)
            (deliveries (monitor_tick s read e).2).
Proof.
  unfold monitor_tick. destruct read as [cur|msg].
  - destruct (negb (generateHash (JString cur) =? lastClipboardHash s)
              && negb (cur =? "")) eqn:Hc.
    + pose proof (updateClipboard_os_writes s (JString cur) "local" false e) as Hw.
      assert (forall id d,
                (id, d) ∈ deliveries (updateClipboard s (JString cur) "local" false e).1.2 ->
                id ∈ fanout_targets s "local"
                /\ d = payload (JString cur) "local" (now e) (generateHash (JString cur)))
        as Hd.
      { intros id d Hin. split.
        - apply (updateClipboard_targets s (JString cur) "local" false e).
          apply list_elem_of_fmap. by exists (id, d).
        - assert ((updateClipboard s (JString cur) "local" false e).2 = Synced
                  \/ (updateClipboard s (JString cur) "local" false e).2 <> Synced)
            as [H|H]
            by (destruct (updateClipboard s (JString cur) "local" false e).2;
                (by left) || (by right)).
          + rewrite (synced_deliveries _ _ _ _ _ H) in Hin.
            apply list_elem_of_fmap in Hin as (id' & [= -> ->] & _). reflexivity.
          + destruct (updateClipboard_not_synced_silent _ _ _ _ _ H) as (_ & Hn & _).
            rewrite Hn in Hin. by apply elem_of_nil in Hin. }
      destruct (updateClipboard s (JString cur) "local" false e) as [[s1 eff] o].
      cbn [fst snd] in *.
      assert (os_writes ((if headless s then [] else [Log LogLocalChange]) ++ eff) = []).
      { rewrite os_writes_app, Hw. destruct (headless s), o; reflexivity. }
      assert (deliveries ((if headless s then [] else [Log LogLocalChange]) ++ eff)
              = deliveries eff) as Hdel
        by (rewrite deliveries_app; destruct (headless s); reflexivity).
      split; [assumption|]. split; [discriminate|]. split.
      * intros [= ->]. rewrite andb_false_r in Hc. discriminate.
      * rewrite Hdel. apply Forall_forall. intros [id d] Hin.
        destruct (Hd id d Hin) as [Ht ->]. cbn. auto.
    + cbn. split; [reflexivity|]. split; [discriminate|]. split; [reflexivity|].
      constructor.
  - cbn [fst snd].
    split; [by destruct (headless s), (msg =? "No clipboard content")|].
    split.
    + intros message [= <-]. split; [reflexivity|].
      destruct (String.eqb_spec msg "No clipboard content") as [Hm|Hm];
        destruct (headless s); cbn; repeat split;
        try tauto; try discriminate; try (intros [? ?]; congruence);
        try (intros [?|?]; congruence).
    + split; [discriminate|].
      destruct (headless s), (msg =? "No clipboard content"); constructor.
Qed.

(** ** The conflict window and the rate limit, over several updates *)

Section Windows.

(** The filter reads the two settings and nothing else of the state. *)
Lemma isContentFiltered_config s s' c :
  maxContentLength s' = maxContentLength s ->
  sensitivePatterns s' = sensitivePatterns s ->
  isContentFiltered s' c = isContentFiltered s c.
Proof.
  intros Hm Hp. unfold isContentFiltered, matches_sensitive. by rewrite Hm, Hp.
Qed.

(** Every field of the state after the accept path but the history. *)
Lemma updateClipboard_synced_fields s c src aw e :
  (updateClipboard s c src aw e).2 = Synced ->
  let s' := (updateClipboard s c src aw e).1.1 in
  conflictResolver s' = <[generateHash c := now e]> (conflictResolver s)
  /\ lastSyncTime s' = now e
  /\ lastClipboardHash s' = generateHash c
  /\ lastClipboard s' = c
  /\ minSyncInterval s' = minSyncInterval s
  /\ autoSyncEnabled s' = autoSyncEnabled s
  /\ syncQueue s' = syncQueue s
  /\ processing s' = processing s
  /\ totalSyncs s' = Datatypes.S (totalSyncs s)
  /\ isContentFiltered s' = isContentFiltered s.
Proof.
  intros H. destruct (updateClipboard_synced _ _ _ _ _ H) as (_ & _ & _ & _ & _ & -> & _).
  rewrite addToHistory_frame. cbn. auto 15.
Qed.

Lemma updateClipboard_conflict s c src aw e :
  gate_open s src ->
  generateHash c <> lastClipboardHash s ->
  (minSyncInterval s <= now e - lastSyncTime s)%Z ->
  conflicting s (generateHash c) (now e) = true ->
  updateClipboard s c src aw e = (s, [Log LogConflict], Conflict).
Proof.
  intros Hg Hh Ht Hc. unfold updateClipboard.
  rewrite (gate_open_test _ _ Hg).
  destruct (String.eqb_spec (generateHash c) (lastClipboardHash s)); [contradiction|].
  destruct (Z.ltb_spec (now e - lastSyncTime s) (minSyncInterval s)); [lia|].
  by rewrite Hc.
Qed.

End Windows.

(** X8. Content that was accepted less than a second ago is not accepted
    again, even after another content has been accepted in between: A, then
    B, then A again within 1000 ms of the first A is dropped as a conflict,
    with the state unchanged and nothing sent.  From 1000 ms on the same A
    is accepted again. *)
Theorem repeated_content_within_a_second_is_dropped
    (s : server) (cA cB : jsval) (srcA srcB src3 : string) (awA awB aw3 : bool)
    (e1 e2 e3 : env) :
  (updateClipboard s cA srcA awA e1).2 = Synced ->
  (updateClipboard (updateClipboard s cA srcA awA e1).1.1 cB srcB awB e2).2 = Synced ->
  gate_open s src3 ->
  (minSyncInterval s <= now e3 - now e2)%Z ->
  let s2 := (updateClipboard (updateClipboard s cA srcA awA e1).1.1 cB srcB awB e2).1.1 in
  ((now e3 - now e1 < 1000)%Z ->
     updateClipboard s2 cA src3 aw3 e3 = (s2, [Log LogConflict], Conflict))
  /\ ((1000 <= now e3 - now e1)%Z ->
     (updateClipboard s2 cA src3 aw3 e3).2 = Synced).
Proof.
  intros H1 H2 Hg Ht s2.
  destruct (updateClipboard_synced_fields _ _ _ _ _ H1)
    as (Hcr1 & _ & Hh1 & _ & Hi1 & Ha1 & _ & _ & _ & Hf1).
  destruct (updateClipboard_synced_fields _ _ _ _ _ H2)
    as (Hcr2 & Hlt2 & Hh2 & _ & Hi2 & Ha2 & _ & _ & _ & Hf2).
  fold s2 in Hcr2, Hlt2, Hh2, Hi2, Ha2, Hf2.
  destruct (updateClipboard_synced _ _ _ _ _ H1) as (_ & _ & _ & _ & HfA & _).
  destruct (updateClipboard_synced _ _ _ _ _ H2) as (_ & HneB & _).
  rewrite Hh1 in HneB.
  assert (conflictResolver s2 !! generateHash cA = Some (now e1)) as Hlook.
  { rewrite Hcr2, lookup_insert_ne by exact HneB. rewrite Hcr1. apply lookup_insert_eq. }
  assert (gate_open s2 src3) as Hg2.
  { unfold gate_open in *. rewrite Ha2, Ha1. exact Hg. }
  assert (generateHash cA <> lastClipboardHash s2) as Hne by (rewrite Hh2; congruence).
  assert (minSyncInterval s2 <= now e3 - lastSyncTime s2)%Z as Ht2
    by (rewrite Hi2, Hi1, Hlt2; exact Ht).
  split; intros Hage.
  - apply updateClipboard_conflict; try assumption.
    unfold conflicting. rewrite Hlook. apply Z.ltb_lt. exact Hage.
  - apply updateClipboard_accepts; try assumption.
    + unfold conflicting. rewrite Hlook. apply Z.ltb_ge. exact Hage.
    + rewrite Hf2, Hf1. exact HfA.
Qed.

(** X8 at work: "A" at 1000, "B" at 1100 and "A" again at 1200. *)
Lemma repeated_content_within_a_second_is_dropped_witness :
  (updateClipboard three_devices (JString "A") "D1" true (at_time 1000)).2 = Synced
  /\ (updateClipboard
        (updateClipboard three_devices (JString "A") "D1" true (at_time 1000)).1.1
        (JString "B") "D2" true (at_time 1100)).2 = Synced
  /\ gate_open three_devices "D3"
  /\ (minSyncInterval three_devices <= now (at_time 1200) - now (at_time 1100))%Z
  /\ (updateClipboard
        (updateClipboard
           (updateClipboard three_devices (JString "A") "D1" true (at_time 1000)).1.1
           (JString "B") "D2" true (at_time 1100)).1.1
        (JString "A") "D3" true (at_time 1200)).2 = Conflict.
Proof.
  assert ((updateClipboard three_devices (JString "A") "D1" true (at_time 1000)).2
          = Synced) as H1 by (vm_compute; reflexivity).
  assert ((updateClipboard
             (updateClipboard three_devices (JString "A") "D1" true (at_time 1000)).1.1
             (JString "B") "D2" true (at_time 1100)).2 = Synced) as H2
    by (vm_compute; reflexivity).
  assert (gate_open three_devices "D3") as Hg by (left; vm_compute; reflexivity).
  assert (minSyncInterval three_devices <= now (at_time 1200) - now (at_time 1100))%Z
    as Ht by (vm_compute; discriminate).
  split; [exact H1|]. split; [exact H2|]. split; [exact Hg|]. split; [exact Ht|].
  destruct (repeated_content_within_a_second_is_dropped three_devices
              (JString "A") (JString "B") "D1" "D2" "D3" true true true
              (at_time 1000) (at_time 1100) (at_time 1200) H1 H2 Hg Ht) as [Hdrop _].
  rewrite Hdrop; [reflexivity|]. vm_compute. reflexivity.
Defined.

(** X9. After an accepted update, an update with another fingerprint that
    the gate and the filter let through and whose fingerprint is not in the
    conflict window is accepted as soon as [minSyncInterval] has passed since
    the first, the boundary included, and is queued when it comes earlier. *)
Theorem second_update_waits_for_the_interval
    (s : server) (c1 c2 : jsval) (src1 src2 : string) (aw1 aw2 : bool) (e1 e2 : env) :
  (updateClipboard s c1 src1 aw1 e1).2 = Synced ->
  generateHash c2 <> generateHash c1 ->
  gate_open s src2 ->
  isContentFiltered s c2 = false ->
  conflicting s (generateHash c2) (now e2) = false ->
  let s1 := (updateClipboard s c1 src1 aw1 e1).1.1 in
  ((minSyncInterval s <= now e2 - now e1)%Z ->
     (updateClipboard s1 c2 src2 aw2 e2).2 = Synced
     /\ deliveries (updateClipboard s1 c2 src2 aw2 e2).1.2
        = map (fun id => (id, payload c2 src2 (now e2) (generateHash c2)))
              (fanout_targets s src2))
  /\ ((now e2 - now e1 < minSyncInterval s)%Z ->
     (updateClipboard s1 c2 src2 aw2 e2).2 = Queued
     /\ (updateClipboard s1 c2 src2 aw2 e2).1.2 = []).
Proof.
  intros H1 Hne Hg Hf Hc s1.
  destruct (updateClipboard_synced_fields _ _ _ _ _ H1)
    as (Hcr & Hlt & Hh & _ & Hi & Ha & _ & _ & _ & Hf1).
  destruct (updateClipboard_synced_state _ _ _ _ _ H1) as (_ & _ & _ & Hdev & _).
  fold s1 in Hcr, Hlt, Hh, Hi, Ha, Hf1, Hdev.
  assert (gate_open s1 src2) as Hg1 by (unfold gate_open in *; by rewrite Ha).
  assert (generateHash c2 <> lastClipboardHash s1) as Hne1 by (by rewrite Hh).
  split; intros Ht.
  - assert ((updateClipboard s1 c2 src2 aw2 e2).2 = Synced) as H2.
    { apply updateClipboard_accepts; try assumption.
      - rewrite Hi, Hlt. exact Ht.
      - unfold conflicting in *. rewrite Hcr, lookup_insert_ne by congruence. exact Hc.
      - rewrite Hf1. exact Hf. }
    split; [exact H2|]. rewrite (synced_deliveries _ _ _ _ _ H2).
    unfold fanout_targets. by rewrite Hdev.
  - rewrite updateClipboard_queued; try assumption; [auto|].
    rewrite Hi, Hlt. exact Ht.
Qed.

(** X9 at work: "B" from D2 exactly 50 ms after "A" from D1. *)
Lemma second_update_waits_for_the_interval_witness :
  (updateClipboard three_devices (JString "A") "D1" true (at_time 1000)).2 = Synced
  /\ generateHash (JString "B") <> generateHash (JString "A")
  /\ gate_open three_devices "D2"
  /\ isContentFiltered three_devices (JString "B") = false
  /\ conflicting three_devices (generateHash (JString "B")) (now (at_time 1050)) = false
  /\ (updateClipboard
        (updateClipboard three_devices (JString "A") "D1" true (at_time 1000)).1.1
        (JString "B") "D2" true (at_time 1050)).2 = Synced.
Proof.
  assert ((updateClipboard three_devices (JString "A") "D1" true (at_time 1000)).2
          = Synced) as H1 by (vm_compute; reflexivity).
  assert (generateHash (JString "B") <> generateHash (JString "A")) as Hne
    by (vm_compute; discriminate).
  assert (gate_open three_devices "D2") as Hg by (left; vm_compute; reflexivity).
  assert (isContentFiltered three_devices (JString "B") = false) as Hf
    by (vm_compute; reflexivity).
  assert (conflicting three_devices (generateHash (JString "B")) (now (at_time 1050))
          = false) as Hc by (vm_compute; reflexivity).
  split; [exact H1|]. split; [exact Hne|]. split; [exact Hg|]. split; [exact Hf|].
  split; [exact Hc|].
  destruct (second_update_waits_for_the_interval three_devices (JString "A") (JString "B")
              "D1" "D2" true true (at_time 1000) (at_time 1050) H1 Hne Hg Hf Hc)
    as [Hacc _].
  apply Hacc. vm_compute. discriminate.
Defined.

(** ** The periodic clean-up of [conflictResolver] *)

Section Cleanup.

Lemma cleanup_lookup s t h ts :
  conflictResolver (cleanup_conflicts s t) !! h = Some ts
  <-> conflictResolver s !! h = Some ts /\ (t - ts <= 5000)%Z.
Proof.
  unfold cleanup_conflicts. cbn [conflictResolver set_conflictResolver].
  rewrite map_lookup_filter_Some. cbn. split; intros [? ?]; split; auto; lia.
Qed.

(** An entry the clean-up removes is too old to matter to the conflict
    check of any later update. *)
Lemma conflicting_cleanup s t h t' :
  (t <= t')%Z ->
  conflicting (cleanup_conflicts s t) h t' = conflicting s h t'.
Proof.
  intros Hle. unfold conflicting.
  destruct (conflictResolver (cleanup_conflicts s t) !! h) as [ts|] eqn:Hc.
  - apply cleanup_lookup in Hc as [-> _]. reflexivity.
  - destruct (conflictResolver s !! h) as [ts|] eqn:Hs; [|reflexivity].
    destruct (Z.ltb_spec (t' - ts) 1000); [|reflexivity].
    assert (conflictResolver (cleanup_conflicts s t) !! h = Some ts) as Hc'
      by (apply cleanup_lookup; split; [assumption | lia]).
    congruence.
Qed.

Lemma addToHistory_conflictResolver (m : gmap string Z) s str t :
  addToHistory (set_conflictResolver m s) str t
  = (set_conflictResolver m (addToHistory s str t).1, (addToHistory s str t).2).
Proof.
  unfold addToHistory. cbn [clipboardHistory maxHistorySize set_conflictResolver].
  destruct (str =? ""); [reflexivity|].
  destruct (findIndex _ _) as [[|i]|]; reflexivity.
Qed.

(** [updateClipboard] reads [conflictResolver] in the conflict check only:
    on two states that differ in that map alone and agree on the check, it
    returns the same way with the same effects, and the states it leaves
    differ in that map alone. *)
Lemma updateClipboard_conflictResolver (m : gmap string Z) s c src aw e :
  conflicting (set_conflictResolver m s) (generateHash c) (now e)
  = conflicting s (generateHash c) (now e) ->
  let r := updateClipboard s c src aw e in
  let r' := updateClipboard (set_conflictResolver m s) c src aw e in
  r'.2 = r.2 /\ r'.1.2 = r.1.2
  /\ r'.1.1 = set_conflictResolver (conflictResolver r'.1.1) r.1.1.
Proof.
  intros Hc. unfold updateClipboard.
  cbn [autoSyncEnabled lastClipboardHash lastSyncTime minSyncInterval
       set_conflictResolver].
  destruct (negb _ && negb _); [by destruct s|].
  destruct (generateHash c =? lastClipboardHash s); [by destruct s|].
  destruct (now e - lastSyncTime s <? minSyncInterval s)%Z.
  { unfold processSyncQueue. cbn [processing syncQueue set_syncQueue set_conflictResolver].
    destruct (_ || _); by destruct s. }
  rewrite Hc. destruct (conflicting s (generateHash c) (now e)); [by destruct s|].
  change (isContentFiltered (remember (generateHash c) (now e) c
                               (set_conflictResolver m s)) c)
    with (isContentFiltered (remember (generateHash c) (now e) c s) c).
  change (isContentFiltered_log (remember (generateHash c) (now e) c
                                   (set_conflictResolver m s)) c)
    with (isContentFiltered_log (remember (generateHash c) (now e) c s) c).
  destruct (isContentFiltered (remember (generateHash c) (now e) c s) c).
  { by destruct s. }
  change (remember (generateHash c) (now e) c (set_conflictResolver m s))
    with (set_conflictResolver (<[generateHash c := now e]> m)
            (remember (generateHash c) (now e) c s)).
  rewrite addToHistory_conflictResolver.
  pose proof (addToHistory_frame (remember (generateHash c) (now e) c s)
                (or_empty c) (history_now e)) as Hfr.
  destruct (addToHistory (remember (generateHash c) (now e) c s) (or_empty c)
              (history_now e)) as [s2 hist].
  cbn [fst snd] in *. rewrite Hfr. by destruct s.
Qed.

End Cleanup.

(** X10. The clean-up that runs every ten seconds removes from
    [conflictResolver] exactly the entries older than 5000 ms, and it cannot
    be observed: an update that arrives at or after the time of the clean-up
    returns the same way, with the same effects, as it would have without
    the clean-up, and the states left differ in [conflictResolver] alone. *)
Theorem cleanup_is_unobservable
    (s : server) (t : Z) (c : jsval) (src : string) (aw : bool) (e : env) :
  (t <= now e)%Z ->
  let r := updateClipboard s c src aw e in
  let r' := updateClipboard (cleanup_conflicts s t) c src aw e in
  r'.2 = r.2
  /\ r'.1.2 = r.1.2
  /\ r'.1.1 = set_conflictResolver (conflictResolver r'.1.1) r.1.1
  /\ (forall h ts,
        conflictResolver (cleanup_conflicts s t) !! h = Some ts
        <-> conflictResolver s !! h = Some ts /\ (t - ts <= 5000)%Z).
Proof.
  intros Hle r r'. subst r r'.
  destruct (updateClipboard_conflictResolver
              (conflictResolver (cleanup_conflicts s t)) s c src aw e) as (H1 & H2 & H3).
  { apply (conflicting_cleanup s t (generateHash c) (now e) Hle). }
  split; [exact H1|]. split; [exact H2|]. split; [exact H3|].
  intros h ts. apply cleanup_lookup.
Qed.

(** X10 at work: "X" was accepted at 1000 and the clean-up at 10000 removes
    its entry; "Y" from D2 at 10001 fares the same with and without the
    clean-up. *)
Lemma cleanup_is_unobservable_witness :
  (10000 <= now (at_time 10001))%Z
  /\ conflictResolver (cleanup_conflicts after_X 10000) !! generateHash (JString "X") = None
  /\ (updateClipboard (cleanup_conflicts after_X 10000) (JString "Y") "D2" true
        (at_time 10001)).2
     = (updateClipboard after_X (JString "Y") "D2" true (at_time 10001)).2.
Proof.
  assert (10000 <= now (at_time 10001))%Z as Hle by (vm_compute; discriminate).
  split; [exact Hle|]. split; [vm_compute; reflexivity|].
  exact (proj1 (cleanup_is_unobservable after_X 10000 (JString "Y") "D2" true
                  (at_time 10001) Hle)).
Defined.

(** ** The timer of the queue *)

Section Timer.

Lemma updateClipboard_queue s c src aw e :
  let s' := (updateClipboard s c src aw e).1.1 in
  (syncQueue s' = syncQueue s /\ processing s' = processing s)
  \/ (syncQueue s' = syncQueue s ++ [queue_entry c src aw e] /\ processing s' = true).
Proof.
  unfold updateClipboard.
  destruct (negb _ && negb _); [by left|].
  destruct (generateHash c =? lastClipboardHash s); [by left|].
  destruct (now e - lastSyncTime s <? minSyncInterval s)%Z.
  { right. unfold processSyncQueue. cbn [fst processing syncQueue set_syncQueue].
    rewrite length_app. cbn [length].
    replace (length (syncQueue s) + 1 =? 0)%nat with false
      by (symmetry; apply Nat.eqb_neq; lia).
    destruct (processing s) eqn:Hp; cbn [orb]; auto. }
  destruct (conflicting _ _ _); [by left|].
  destruct (isContentFiltered _ _); [by left|].
  pose proof (addToHistory_frame (remember (generateHash c) (now e) c s)
                (or_empty c) (history_now e)) as Hfr.
  destruct (addToHistory _ _ _) as [s2 hist]. cbn [fst snd] in *.
  rewrite Hfr. by left.
Qed.

Lemma updateClipboard_timer_inv s c src aw e :
  timer_inv s -> timer_inv (updateClipboard s c src aw e).1.1.
Proof.
  unfold timer_inv. intros Hinv.
  destruct (updateClipboard_queue s c src aw e) as [[-> ->]|[-> _]]; [exact Hinv|].
  intros _. by destruct (syncQueue s).
Qed.

Lemma step_timer_inv s ev : timer_inv s -> timer_inv (step s ev).1.
Proof.
  intros Hinv. destruct ev; cbn [step]; try exact Hinv.
  - unfold clipboard_update.
    pose proof (updateClipboard_timer_inv s (JString content) socketId
                  (not_false autoWrite) e Hinv).
    by destruct (updateClipboard _ _ _ _ _) as [[? ?] ?].
  - unfold toggle_auto_sync. destruct (map_get _ _); exact Hinv.
  - unfold use_history_item. destruct (history_at s index) as [item|]; [|exact Hinv].
    pose proof (updateClipboard_timer_inv s (JString (h_content item)) socketId true e Hinv).
    by destruct (updateClipboard _ _ _ _ _) as [[? ?] ?].
  - unfold post_clipboard.
    pose proof (updateClipboard_timer_inv s content "api" true e Hinv).
    destruct content; [exact Hinv| |];
      by destruct (updateClipboard _ _ _ _ _) as [[? ?] ?].
  - unfold post_history. destruct (index ≫= history_at s) as [item|]; [|exact Hinv].
    pose proof (updateClipboard_timer_inv s (JString (h_content item)) "history" true e Hinv).
    by destruct (updateClipboard _ _ _ _ _) as [[? ?] ?].
  - unfold post_settings. destruct autoSync; exact Hinv.
  - unfold monitor_tick. destruct read as [cur|]; [|exact Hinv].
    destruct (_ && _); [|exact Hinv].
    pose proof (updateClipboard_timer_inv s (JString cur) "local" false e Hinv).
    by destruct (updateClipboard _ _ _ _ _) as [[? ?] ?].
  - destruct (processing s); [|exact Hinv].
    unfold syncQueueTimer. destruct (last (syncQueue s)) as [latest|].
    + destruct (updateClipboard _ _ _ _ _) as [[? ?] ?]. cbn. discriminate.
    + cbn. discriminate.
Qed.

Lemma run_timer_inv evs : forall s, timer_inv s -> timer_inv (run s evs).1.
Proof.
  induction evs as [|ev evs IH]; intros s Hinv; cbn [run]; [exact Hinv|].
  pose proof (step_timer_inv s ev Hinv) as H1.
  destruct (step s ev) as [s1 eff1]. specialize (IH s1 H1).
  destruct (run s1 evs) as [s2 eff2]. exact IH.
Qed.

End Timer.

(** X11. Whenever the timer of the queue fires on a server, the queue holds
    an update to re-submit: the timer is armed only over a non-empty queue
    and the queue is emptied nowhere but in the callback.  When the callback
    has run, no timer is armed and at most one update is left in the queue. *)
Theorem armed_timer_finds_an_update (s : server) (e : env) :
  reachable s ->
  processing s = true ->
  exists q,
    last (syncQueue s) = Some q
    /\ step s (QueueTimer e)
       = (set_processing false
            (updateClipboard (set_syncQueue [] s)
               (q_content q) (q_sourceId q) (q_autoWrite q) e).1.1,
          (updateClipboard (set_syncQueue [] s)
             (q_content q) (q_sourceId q) (q_autoWrite q) e).1.2)
    /\ processing (step s (QueueTimer e)).1 = false
    /\ length (syncQueue (step s (QueueTimer e)).1) <= 1.
Proof.
  intros (h & evs & ->) Hp.
  pose proof (run_timer_inv evs (new_server h)) as Hinv.
  unfold timer_inv in Hinv. specialize (Hinv ltac:(discriminate) Hp).
  set (s := (run (new_server h) evs).1) in *.
  destruct (last (syncQueue s)) as [q|] eqn:Hlast.
  - exists q. split; [reflexivity|]. cbn [step]. rewrite Hp. unfold syncQueueTimer.
    rewrite Hlast.
    pose proof (updateClipboard_queue (set_syncQueue [] s)
                  (q_content q) (q_sourceId q) (q_autoWrite q) e) as Hq.
    destruct (updateClipboard _ _ _ _ _) as [[s1 eff] o]. cbn [fst snd] in *.
    split; [reflexivity|]. split; [reflexivity|].
    cbn [fst syncQueue set_processing].
    destruct Hq as [[Hq _]|[Hq _]]; rewrite Hq; cbn; lia.
  - apply last_None in Hlast. contradiction.
Qed.

(** X11 at work: "Y" is queued 10 ms after "X" was accepted. *)
Lemma armed_timer_finds_an_update_witness :
  reachable (updateClipboard after_X (JString "Y") "D1" true (at_time 1010)).1.1
  /\ processing (updateClipboard after_X (JString "Y") "D1" true (at_time 1010)).1.1 = true
  /\ exists q,
       last (syncQueue (updateClipboard after_X (JString "Y") "D1" true (at_time 1010)).1.1)
       = Some q
       /\ q_content q = JString "Y".
Proof.
  assert (reachable (updateClipboard after_X (JString "Y") "D1" true (at_time 1010)).1.1)
    as Hr.
  { exists false, (after_X_trace ++ [ClipboardUpdateFrom "D1" "Y" None (at_time 1010)]).
    vm_compute. reflexivity. }
  assert (processing (updateClipboard after_X (JString "Y") "D1" true (at_time 1010)).1.1
          = true) as Hp by (vm_compute; reflexivity).
  split; [exact Hr|]. split; [exact Hp|].
  destruct (armed_timer_finds_an_update _ (at_time 1060) Hr Hp) as (q & Hlast & _).
  exists q. split; [exact Hlast|].
  revert Hlast. vm_compute. intros [= <-]. reflexivity.
Defined.

(** X12. When the update the timer re-submits falls inside the interval
    again, because another update was accepted while it waited, it goes
    back to the queue but no timer is armed for it: nothing is recorded or
    sent, and further firings do nothing.  The update stays in the queue
    until some other update is queued and arms a timer. *)
Theorem requeued_update_is_stranded (s : server) (q : queued) (e : env) :
  processing s = true ->
  last (syncQueue s) = Some q ->
  gate_open s (q_sourceId q) ->
  generateHash (q_content q) <> lastClipboardHash s ->
  (now e - lastSyncTime s < minSyncInterval s)%Z ->
  let s' := (step s (QueueTimer e)).1 in
  (step s (QueueTimer e)).2 = []
  /\ syncQueue s' = [queue_entry (q_content q) (q_sourceId q) (q_autoWrite q) e]
  /\ processing s' = false
  /\ clipboardHistory s' = clipboardHistory s
  /\ lastClipboard s' = lastClipboard s
  /\ (forall e', step s' (QueueTimer e') = (s', [])).
Proof.
  intros Hp Hlast Hg Hh Ht s'. subst s'. cbn [step]. rewrite Hp.
  unfold syncQueueTimer. rewrite Hlast.
  rewrite (updateClipboard_queued (set_syncQueue [] s) (q_content q) (q_sourceId q)
             (q_autoWrite q) e Hg Hh Ht).
  cbn. auto 10.
Qed.

(** X12 at work: "Y" waits since 1040, "Z" was accepted at 1060, and the
    timer of "Y" fires at 1090. *)
Lemma requeued_update_is_stranded_witness :
  processing overtaken = true
  /\ last (syncQueue overtaken)
     = Some (queue_entry (JString "Y") "D1" true (at_time 1040))
  /\ gate_open overtaken "D1"
  /\ generateHash (JString "Y") <> lastClipboardHash overtaken
  /\ (now (at_time 1090) - lastSyncTime overtaken < minSyncInterval overtaken)%Z
  /\ map q_content (syncQueue (step overtaken (QueueTimer (at_time 1090))).1)
     = [JString "Y"]
  /\ processing (step overtaken (QueueTimer (at_time 1090))).1 = false.
Proof.
  assert (processing overtaken = true) as Hp by (vm_compute; reflexivity).
  assert (last (syncQueue overtaken)
          = Some (queue_entry (JString "Y") "D1" true (at_time 1040))) as Hlast
    by (vm_compute; reflexivity).
  assert (gate_open overtaken "D1") as Hg by (left; vm_compute; reflexivity).
  assert (generateHash (JString "Y") <> lastClipboardHash overtaken) as Hh
    by (vm_compute; discriminate).
  assert (now (at_time 1090) - lastSyncTime overtaken < minSyncInterval overtaken)%Z
    as Ht by (vm_compute; reflexivity).
  split; [exact Hp|]. split; [exact Hlast|]. split; [exact Hg|]. split; [exact Hh|].
  split; [exact Ht|].
  destruct (requeued_update_is_stranded overtaken _ (at_time 1090) Hp Hlast Hg Hh Ht)
    as (_ & Hq & Hproc & _).
  split; [|exact Hproc]. rewrite Hq. reflexivity.
Defined.

(** ** The HTTP routes *)

Section Routes.

Lemma http_replies_app (a b : list effect) :
  http_replies (a ++ b) = http_replies a ++ http_replies b.
Proof. unfold http_replies. apply flat_map_app. Qed.

Lemma broadcast_http_replies s c src t h : http_replies (broadcast s c src t h) = [].
Proof.
  unfold broadcast. induction (connectedDevices s) as [|[k d] l IH]; [reflexivity|].
  cbn [flat_map]. rewrite http_replies_app, IH.
  destruct (negb (k =? src) && dev_autoSync d); reflexivity.
Qed.

(** [updateClipboard] answers no request: the reply is the route's. *)
Lemma updateClipboard_http_replies s c src aw e :
  http_replies (updateClipboard s c src aw e).1.2 = [].
Proof.
  unfold updateClipboard.
  destruct (negb _ && negb _); [reflexivity|].
  destruct (generateHash c =? lastClipboardHash s); [reflexivity|].
  destruct (now e - lastSyncTime s <? minSyncInterval s)%Z; [reflexivity|].
  destruct (conflicting _ _ _); [reflexivity|].
  destruct (isContentFiltered _ _).
  - cbn [fst snd]. unfold isContentFiltered_log.
    destruct c as [| |str]; try reflexivity.
    destruct (str =? ""); [reflexivity|].
    destruct (_ <? _)%Z; [reflexivity|].
    destruct (matches_sensitive _ _); reflexivity.
  - pose proof (addToHistory_effects (remember (generateHash c) (now e) c s)
                  (or_empty c) (history_now e)) as (_ & _ & Hh).
    destruct (addToHistory _ _ _) as [s2 hist]. cbn [fst snd] in *.
    rewrite !http_replies_app, broadcast_http_replies.
    unfold write_clipboard. cbn [headless remember set_totalSyncs].
    destruct Hh as [-> | ->];
      destruct (aw && negb (src =? "local")), (write_ok e), (headless s2), (headless s);
      reflexivity.
Qed.

Lemma history_at_Some s index item :
  history_at s index = Some item
  <-> (0 <= index < Z.of_nat (length (clipboardHistory s)))%Z
      /\ clipboardHistory s !! Z.to_nat index = Some item.
Proof.
  unfold history_at.
  destruct (Z.leb_spec 0 index), (Z.ltb_spec index (Z.of_nat (length (clipboardHistory s))));
    cbn [andb]; split; try discriminate; try tauto; try lia.
Qed.

Lemma run_app evs1 evs2 s :
  run s (evs1 ++ evs2)
  = ((run (run s evs1).1 evs2).1, (run s evs1).2 ++ (run (run s evs1).1 evs2).2).
Proof.
  revert s. induction evs1 as [|ev evs1 IH]; intros s; cbn [run app fst snd].
  - by destruct (run s evs2).
  - destruct (step s ev) as [s1 eff1]. rewrite IH.
    destruct (run s1 evs1) as [s2 eff2]. cbn [fst snd].
    destruct (run s2 evs2) as [s3 eff3]. cbn [fst snd]. by rewrite app_assoc.
Qed.

End Routes.

(** X13. [POST /api/clipboard] answers each request once: 400 when the body
    has no content, and then nothing happens, 200 in every other case,
    whatever becomes of the update.  In particular a content the filter
    rejects is answered with success although it is not recorded, written
    or sent. *)
Theorem post_clipboard_replies_whatever_happens (s : server) (c : jsval) (e : env) :
  http_replies (post_clipboard s c e).2
  = [match c with JUndefined => 400 | _ => 200 end]
  /\ (c = JUndefined -> post_clipboard s c e = (s, [HttpReply 400]))
  /\ (c <> JUndefined ->
      (post_clipboard s c e).1 = (updateClipboard s c "api" true e).1.1
      /\ deliveries (post_clipboard s c e).2
         = deliveries (updateClipboard s c "api" true e).1.2)
  /\ (c <> JUndefined -> isContentFiltered s c = true ->
      http_replies (post_clipboard s c e).2 = [200]
      /\ clipboardHistory (post_clipboard s c e).1 = clipboardHistory s
      /\ deliveries (post_clipboard s c e).2 = []
      /\ os_writes (post_clipboard s c e).2 = []).
Proof.
  assert (c <> JUndefined ->
          post_clipboard s c e
          = ((updateClipboard s c "api" true e).1.1,
             (updateClipboard s c "api" true e).1.2 ++ [HttpReply 200])) as Hpost.
  { intros Hdef. unfold post_clipboard.
    destruct c; [contradiction| |]; by destruct (updateClipboard _ _ _ _ _) as [[? ?] ?]. }
  split; [|split; [|split]].
  - destruct c; [reflexivity| |]; rewrite Hpost by discriminate; cbn [snd];
      by rewrite http_replies_app, updateClipboard_http_replies.
  - intros ->. reflexivity.
  - intros Hdef. rewrite (Hpost Hdef). cbn [fst snd].
    split; [reflexivity|]. by rewrite deliveries_app, app_nil_r.
  - intros Hdef Hf. rewrite (Hpost Hdef). cbn [fst snd].
    destruct (updateClipboard_filtered_silent s c "api" true e Hf) as (_ & H2 & H3 & H4 & _).
    rewrite http_replies_app, updateClipboard_http_replies, deliveries_app,
      os_writes_app, H3, H4. auto.
Qed.

(** X14. [POST /api/history/:index] answers 200 exactly when the index is a
    position of the history, and then hands the stored content of that item
    to [updateClipboard] under the source ["history"]; for every other
    index, and for one that is no number, it answers 404 and changes
    nothing.  The socket event [use-history-item] with an index outside the
    history does nothing at all. *)
Theorem history_routes_check_the_index (s : server) (e : env) :
  (forall index,
     http_replies (post_history s index e).2 = [200]
     <-> exists i item,
           index = Some i
           /\ (0 <= i < Z.of_nat (length (clipboardHistory s)))%Z
           /\ clipboardHistory s !! Z.to_nat i = Some item)
  /\ (forall index,
        http_replies (post_history s index e).2 <> [200] ->
        post_history s index e = (s, [HttpReply 404]))
  /\ (forall i item,
        history_at s i = Some item ->
        (post_history s (Some i) e).1
        = (updateClipboard s (JString (h_content item)) "history" true e).1.1)
  /\ (forall socketId i,
        ~ (0 <= i < Z.of_nat (length (clipboardHistory s)))%Z ->
        use_history_item s socketId i e = (s, [])).
Proof.
  assert (forall index item,
            index ≫= history_at s = Some item ->
            post_history s index e
            = ((updateClipboard s (JString (h_content item)) "history" true e).1.1,
               (updateClipboard s (JString (h_content item)) "history" true e).1.2
                 ++ [HttpReply 200])) as Hok.
  { intros index item H. unfold post_history. rewrite H.
    by destruct (updateClipboard _ _ _ _ _) as [[? ?] ?]. }
  assert (forall index, index ≫= history_at s = None ->
            post_history s index e = (s, [HttpReply 404])) as Hbad.
  { intros index H. unfold post_history. by rewrite H. }
  split; [|split; [|split]].
  - intros index. destruct (index ≫= history_at s) as [item|] eqn:Hat.
    + rewrite (Hok _ _ Hat). cbn [snd].
      rewrite http_replies_app, updateClipboard_http_replies. split; [intros _|reflexivity].
      destruct index as [i|]; [|discriminate]. cbn in Hat.
      apply history_at_Some in Hat as [? ?]. eauto.
    + rewrite (Hbad _ Hat). split; [discriminate|].
      intros (i & item & -> & Hr & Hl). cbn in Hat.
      assert (history_at s i = Some item) by (by apply history_at_Some). congruence.
  - intros index Hne. destruct (index ≫= history_at s) as [item|] eqn:Hat; [|auto].
    exfalso. apply Hne. rewrite (Hok _ _ Hat). cbn [snd].
    by rewrite http_replies_app, updateClipboard_http_replies.
  - intros i item Hat. by rewrite (Hok (Some i) item Hat).
  - intros socketId i Hout. unfold use_history_item.
    destruct (history_at s i) as [item|] eqn:Hat; [|reflexivity].
    apply history_at_Some in Hat as [? _]. contradiction.
Qed.

(** X15. What devices and the API send while sync is paused is lost, not
    kept for later: after pausing through the settings route, any number of
    updates from devices, history picks and API posts, and resuming, the
    server is in the state it was in before the pause, and in between
    nothing was sent to a device, written to the clipboard or announced as
    history. *)
Theorem updates_while_paused_are_lost (s : server) (evs : list event) :
  autoSyncEnabled s = true ->
  Forall remote_ingest evs ->
  (run s (PostSettings (Some false) :: evs ++ [PostSettings (Some true)])).1 = s
  /\ deliveries
       (run s (PostSettings (Some false) :: evs ++ [PostSettings (Some true)])).2 = []
  /\ os_writes
       (run s (PostSettings (Some false) :: evs ++ [PostSettings (Some true)])).2 = []
  /\ history_emits
       (run s (PostSettings (Some false) :: evs ++ [PostSettings (Some true)])).2 = [].
Proof.
  intros Hon Hall.
  assert (forall s0, autoSyncEnabled s0 = false -> forall c src aw e, src <> "local" ->
            updateClipboard s0 c src aw e = (s0, [Log LogAutoSyncDisabled], Skipped))
    as Hskip.
  { intros s0 Hoff c src aw e Hne. unfold updateClipboard.
    rewrite gate_closed_test; [reflexivity|]. intros [?|?]; congruence. }
  assert (forall s0 ev, autoSyncEnabled s0 = false -> remote_ingest ev ->
            (step s0 ev).1 = s0 /\ deliveries (step s0 ev).2 = []
            /\ os_writes (step s0 ev).2 = [] /\ history_emits (step s0 ev).2 = [])
    as Hstep.
  { intros s0 ev Hoff Hev. destruct ev; cbn in Hev; try contradiction; cbn [step].
    - unfold clipboard_update. rewrite (Hskip s0 Hoff) by exact Hev. cbn. auto.
    - unfold use_history_item. destruct (history_at s0 index); [|cbn; auto].
      rewrite (Hskip s0 Hoff) by exact Hev. cbn. auto.
    - unfold post_clipboard. destruct content; [cbn; auto| |];
        rewrite (Hskip s0 Hoff) by discriminate; cbn; auto.
    - unfold post_history. destruct (index ≫= history_at s0); [|cbn; auto].
      rewrite (Hskip s0 Hoff) by discriminate. cbn. auto. }
  assert (forall s0, autoSyncEnabled s0 = false ->
            (run s0 evs).1 = s0 /\ deliveries (run s0 evs).2 = []
            /\ os_writes (run s0 evs).2 = [] /\ history_emits (run s0 evs).2 = [])
    as Hrun.
  { induction Hall as [|ev evs Hev Hall IH]; intros s0 Hoff; [cbn; auto|].
    cbn [run]. destruct (Hstep s0 ev Hoff Hev) as (H1 & H2 & H3 & H4).
    destruct (step s0 ev) as [s1 eff1]. cbn [fst snd] in *. subst s1.
    destruct (IH s0 Hoff) as (I1 & I2 & I3 & I4).
    destruct (run s0 evs) as [s2 eff2]. cbn [fst snd] in *.
    rewrite deliveries_app, os_writes_app, history_emits_app, H2, H3, H4, I2, I3, I4.
    auto. }
  cbn [run step post_settings]. rewrite run_app.
  destruct (Hrun (set_autoSyncEnabled false s) eq_refl) as (R1 & R2 & R3 & R4).
  destruct (run (set_autoSyncEnabled false s) evs) as [s1 eff1]. cbn [fst snd] in *.
  subst s1. cbn [run step post_settings fst snd].
  rewrite !deliveries_app, !os_writes_app, !history_emits_app, R2, R3, R4.
  split; [destruct s; cbn in *; subst; reflexivity | auto].
Qed.

(** X15 at work: while the three devices are paused D1 sends "hello" and
    the API gets "world". *)
Lemma updates_while_paused_are_lost_witness :
  autoSyncEnabled three_devices = true
  /\ Forall remote_ingest
       [ ClipboardUpdateFrom "D1" "hello" None (at_time 1000);
         PostClipboard (JString "world") (at_time 2000) ]
  /\ (run three_devices
        (PostSettings (Some false)
         :: [ ClipboardUpdateFrom "D1" "hello" None (at_time 1000);
              PostClipboard (JString "world") (at_time 2000) ]
            ++ [PostSettings (Some true)])).1 = three_devices.
Proof.
  assert (autoSyncEnabled three_devices = true) as Hon by (vm_compute; reflexivity).
  assert (Forall remote_ingest
            [ ClipboardUpdateFrom "D1" "hello" None (at_time 1000);
              PostClipboard (JString "world") (at_time 2000) ]) as Hall
    by (repeat constructor; discriminate).
  split; [exact Hon|]. split; [exact Hall|].
  exact (proj1 (updates_while_paused_are_lost three_devices _ Hon Hall)).
Defined.

(** ** The shape of a step *)

Section Shape.

Lemma synced_lines_app (a b : list effect) :
  synced_lines (a ++ b) = synced_lines a + synced_lines b.
Proof. unfold synced_lines. by rewrite flat_map_app, length_app. Qed.

Lemma set_syncQueue_same s : set_syncQueue (syncQueue s) s = s.
Proof. by destruct s. Qed.

Lemma set_processing_same s : set_processing (processing s) s = s.
Proof. by destruct s. Qed.

(** Every event either hands one content to [updateClipboard] and shows what
    that call shows, or leaves everything but the registry, the pause flag,
    the conflict table and the timer flag alone and sends at most the
    current history and the last known value. *)
Lemma step_shape s ev :
  (exists q p c src aw e,
     (step s ev).1 = set_processing p (updateClipboard (set_syncQueue q s) c src aw e).1.1
     /\ synced_lines (step s ev).2
        = synced_lines (updateClipboard (set_syncQueue q s) c src aw e).1.2
     /\ os_writes (step s ev).2
        = os_writes (updateClipboard (set_syncQueue q s) c src aw e).1.2
     /\ history_emits (step s ev).2
        = history_emits (updateClipboard (set_syncQueue q s) c src aw e).1.2
     /\ deliveries (step s ev).2
        = deliveries (updateClipboard (set_syncQueue q s) c src aw e).1.2)
  \/ (exists d a m p,
        (step s ev).1
        = set_connectedDevices d
            (set_autoSyncEnabled a (set_conflictResolver m (set_processing p s)))
        /\ synced_lines (step s ev).2 = 0
        /\ os_writes (step s ev).2 = []
        /\ (history_emits (step s ev).2 = []
            \/ history_emits (step s ev).2 = [clipboardHistory s])
        /\ (deliveries (step s ev).2 = []
            \/ exists id t f,
                 truthy (lastClipboard s) = true
                 /\ deliveries (step s ev).2 = [(id, server_update s t f)])).
Proof.
  assert (forall (r : server * list effect) c src aw e (pre post : list effect),
            synced_lines pre = 0 -> os_writes pre = [] -> history_emits pre = [] ->
            deliveries pre = [] ->
            synced_lines post = 0 -> os_writes post = [] -> history_emits post = [] ->
            deliveries post = [] ->
            r = ((updateClipboard s c src aw e).1.1,
                 pre ++ (updateClipboard s c src aw e).1.2 ++ post) ->
            exists q p c src aw e,
              r.1 = set_processing p (updateClipboard (set_syncQueue q s) c src aw e).1.1
              /\ synced_lines r.2
                 = synced_lines (updateClipboard (set_syncQueue q s) c src aw e).1.2
              /\ os_writes r.2
                 = os_writes (updateClipboard (set_syncQueue q s) c src aw e).1.2
              /\ history_emits r.2
                 = history_emits (updateClipboard (set_syncQueue q s) c src aw e).1.2
              /\ deliveries r.2
                 = deliveries (updateClipboard (set_syncQueue q s) c src aw e).1.2) as Hupd.
  { intros r c src aw e pre post P1 P2 P3 P4 Q1 Q2 Q3 Q4 ->.
    exists (syncQueue s), (processing (updateClipboard s c src aw e).1.1), c, src, aw, e.
    rewrite set_syncQueue_same, set_processing_same. cbn [fst snd].
    rewrite !synced_lines_app, !os_writes_app, !history_emits_app, !deliveries_app,
      P1, P2, P3, P4, Q1, Q2, Q3, Q4, !app_nil_r. cbn [app]. auto with lia. }
  assert (forall (r : server * list effect) (eff : list effect),
            synced_lines eff = 0 -> os_writes eff = [] ->
            history_emits eff = [] -> deliveries eff = [] ->
            r = (s, eff) ->
            exists d a m p,
              r.1 = set_connectedDevices d
                      (set_autoSyncEnabled a (set_conflictResolver m (set_processing p s)))
              /\ synced_lines r.2 = 0
              /\ os_writes r.2 = []
              /\ (history_emits r.2 = [] \/ history_emits r.2 = [clipboardHistory s])
              /\ (deliveries r.2 = []
                  \/ exists id t f,
                       truthy (lastClipboard s) = true
                       /\ deliveries r.2 = [(id, server_update s t f)])) as Hsame.
  { intros r eff E1 E2 E3 E4 ->.
    exists (connectedDevices s), (autoSyncEnabled s), (conflictResolver s), (processing s).
    cbn [fst snd]. split; [by destruct s|]. auto. }
  destruct ev; cbn [step].
  - (* register-device *)
    right. unfold register_device. cbn [fst snd].
    eexists _, (autoSyncEnabled s), (conflictResolver s), (processing s).
    split; [by destruct s|].
    cbn [lastClipboard set_connectedDevices clipboardHistory].
    destruct (truthy (lastClipboard s)) eqn:Ht; cbn; repeat split; eauto.
    right. eexists socketId, t, false. split; [reflexivity|]. by destruct s.
  - left. unfold clipboard_update.
    apply (Hupd _ (JString content) socketId (not_false autoWrite) e
             [Log (LogUpdateFrom socketId)] []); [reflexivity..|].
    destruct (updateClipboard _ _ _ _ _) as [[? ?] ?]. cbn. by rewrite app_nil_r.
  - right. unfold toggle_auto_sync. destruct (map_get _ _) as [device|].
    + eexists _, (autoSyncEnabled s), (conflictResolver s), (processing s).
      cbn. split; [by destruct s|]. auto.
    + by apply (Hsame _ []).
  - unfold use_history_item. destruct (history_at s index) as [item|] eqn:Hat.
    + left. apply (Hupd _ (JString (h_content item)) socketId true e [] []);
        [reflexivity..|].
      destruct (updateClipboard _ _ _ _ _) as [[? ?] ?]. cbn. by rewrite app_nil_r.
    + right. by apply (Hsame _ []).
  - right. unfold disconnect.
    eexists _, (autoSyncEnabled s), (conflictResolver s), (processing s).
    cbn. split; [by destruct s|]. auto.
  - right. unfold forceSyncToDevice.
    exists (connectedDevices s), (autoSyncEnabled s), (conflictResolver s), (processing s).
    cbn [fst snd]. split; [by destruct s|].
    destruct (truthy (lastClipboard s)) eqn:Ht; cbn; repeat split; auto.
    right. by exists socketId, t, true.
  - unfold post_clipboard. destruct content as [| |str].
    + right. by apply (Hsame _ [HttpReply 400]).
    + left. apply (Hupd _ JNull "api" true e [] [HttpReply 200]); [reflexivity..|].
      by destruct (updateClipboard _ _ _ _ _) as [[? ?] ?].
    + left. apply (Hupd _ (JString str) "api" true e [] [HttpReply 200]); [reflexivity..|].
      by destruct (updateClipboard _ _ _ _ _) as [[? ?] ?].
  - unfold post_history. destruct (index ≫= history_at s) as [item|] eqn:Hat.
    + left. apply (Hupd _ (JString (h_content item)) "history" true e [] [HttpReply 200]);
        [reflexivity..|].
      by destruct (updateClipboard _ _ _ _ _) as [[? ?] ?].
    + right. by apply (Hsame _ [HttpReply 404]).
  - right. unfold post_settings.
    exists (connectedDevices s),
      (match autoSync with Some b => b | None => autoSyncEnabled s end),
      (conflictResolver s), (processing s).
    cbn. split; [by destruct s, autoSync|]. auto.
  - unfold monitor_tick. destruct read as [cur|msg].
    + destruct (_ && _) eqn:Hchg.
      * left. apply (Hupd _ (JString cur) "local" false e
                       (if headless s then [] else [Log LogLocalChange]) []);
          [by destruct (headless s)..|].
        destruct (updateClipboard _ _ _ _ _) as [[? ?] ?]. cbn [fst snd].
        by rewrite app_nil_r.
      * right. by apply (Hsame _ []).
    + right.
      apply (Hsame _ (if negb (headless s) && negb (msg =? "No clipboard content")
                      then [Log LogReadWarning] else []));
        by destruct (headless s), (msg =? "No clipboard content").
  - destruct (processing s) eqn:Hp.
    + unfold syncQueueTimer. destruct (last (syncQueue s)) as [latest|].
      * left. exists [], false, (q_content latest), (q_sourceId latest),
          (q_autoWrite latest), e.
        by destruct (updateClipboard _ _ _ _ _) as [[? ?] ?].
      * right.
        exists (connectedDevices s), (autoSyncEnabled s), (conflictResolver s), false.
        cbn. split; [by destruct s|]. auto.
    + right. by apply (Hsame _ []).
  - right. unfold cleanup_conflicts.
    exists (connectedDevices s), (autoSyncEnabled s),
      (filter (fun kv : string * Z => ¬ (t - kv.2 > 5000)%Z) (conflictResolver s)),
      (processing s).
    cbn [fst snd]. split; [by destruct s|]. cbn. auto.
Qed.

End Shape.

(** ** Counters *)

Section Stats.

Lemma broadcast_synced_lines s c src t h : synced_lines (broadcast s c src t h) = 0.
Proof.
  unfold broadcast. induction (connectedDevices s) as [|[k d] l IH]; [reflexivity|].
  cbn [flat_map]. rewrite synced_lines_app, IH.
  destruct (negb (k =? src) && dev_autoSync d); reflexivity.
Qed.

Lemma addToHistory_length s str t :
  length (clipboardHistory (addToHistory s str t).1) <= Datatypes.S (length (clipboardHistory s)).
Proof.
  destruct (String.eqb_spec str "") as [->|Hne]; [cbn; lia|].
  rewrite addToHistory_history by assumption. cbv zeta.
  destruct (findIndex _ _) as [[|i]|] eqn:Hfind; [lia| |].
  - destruct (clipboardHistory s !! Datatypes.S i) as [item|] eqn:Hitem.
    + rewrite length_take. cbn [length].
      rewrite length_delete by (eexists; exact Hitem). lia.
    + rewrite length_take. lia.
  - rewrite length_take. cbn [length]. lia.
Qed.

(** One call counts at most one sync, adds at most one history item with
    it, and prints the synced line unless the server is headless. *)
Lemma updateClipboard_counts s c src aw e :
  exists k,
    k <= 1
    /\ totalSyncs (updateClipboard s c src aw e).1.1 = totalSyncs s + k
    /\ length (clipboardHistory (updateClipboard s c src aw e).1.1)
       <= length (clipboardHistory s) + k
    /\ synced_lines (updateClipboard s c src aw e).1.2 = (if headless s then 0 else k)
    /\ headless (updateClipboard s c src aw e).1.1 = headless s.
Proof.
  assert ((updateClipboard s c src aw e).2 = Synced
          \/ (updateClipboard s c src aw e).2 <> Synced) as [Hs|Hs]
    by (destruct (updateClipboard s c src aw e).2; (by left) || (by right)).
  - exists 1.
    destruct (updateClipboard_synced s c src aw e Hs) as (_ & _ & _ & _ & _ & Hst & Heff).
    rewrite Hst, Heff.
    pose proof (addToHistory_frame (remember (generateHash c) (now e) c s)
                  (or_empty c) (history_now e)) as Hfr.
    pose proof (addToHistory_length (remember (generateHash c) (now e) c s)
                  (or_empty c) (history_now e)) as Hlen.
    pose proof (addToHistory_effects (remember (generateHash c) (now e) c s)
                  (or_empty c) (history_now e)) as (_ & _ & Hh).
    cbv zeta in Hfr.
    destruct (addToHistory _ _ _) as [s2 hist]. cbn [fst snd] in *.
    assert (totalSyncs s2 = totalSyncs s) as Ht by (rewrite Hfr; reflexivity).
    assert (headless s2 = headless s) as Hh2 by (rewrite Hfr; reflexivity).
    rewrite !synced_lines_app, broadcast_synced_lines.
    cbn [totalSyncs set_totalSyncs clipboardHistory headless].
    rewrite Ht, Hh2. cbn [clipboardHistory remember] in Hlen.
    repeat split; [lia|lia|lia|].
    assert (synced_lines hist = 0) as -> by (destruct Hh as [-> | ->]; reflexivity).
    unfold write_clipboard. cbn [headless remember].
    destruct (aw && negb (src =? "local")), (write_ok e), (headless s); reflexivity.
  - exists 0. revert Hs. unfold updateClipboard.
    destruct (negb _ && negb _); [intros _; cbn; destruct (headless s); repeat split; lia|].
    destruct (generateHash c =? lastClipboardHash s);
      [intros _; cbn; destruct (headless s); repeat split; lia|].
    destruct (now e - lastSyncTime s <? minSyncInterval s)%Z.
    { intros _. cbn [fst snd]. unfold processSyncQueue.
      destruct (_ || _); cbn; destruct (headless s); repeat split; lia. }
    destruct (conflicting _ _ _); [intros _; cbn; destruct (headless s); repeat split; lia|].
    destruct (isContentFiltered _ _).
    + intros _. cbn [fst snd]. unfold isContentFiltered_log.
      destruct c as [| |str]; try (cbn; destruct (headless s); repeat split; lia).
      destruct (str =? ""); [cbn; destruct (headless s); repeat split; lia|].
      destruct (_ <? _)%Z; [cbn; destruct (headless s); repeat split; lia|].
      destruct (matches_sensitive _ _); cbn; destruct (headless s); repeat split; lia.
    + destruct (addToHistory _ _ _). intros H. by contradiction H.
Qed.

Lemma step_counts s ev :
  exists k,
    totalSyncs (step s ev).1 = totalSyncs s + k
    /\ length (clipboardHistory (step s ev).1) <= length (clipboardHistory s) + k
    /\ synced_lines (step s ev).2 = (if headless s then 0 else k)
    /\ headless (step s ev).1 = headless s.
Proof.
  destruct (step_shape s ev) as
    [(q & p & c & src & aw & e & -> & -> & _)|(d & a & m & p & -> & -> & _)].
  - destruct (updateClipboard_counts (set_syncQueue q s) c src aw e)
      as (k & _ & H1 & H2 & H3 & H4).
    exists k. cbn [totalSyncs clipboardHistory headless set_processing set_syncQueue] in *.
    by destruct (updateClipboard _ _ _ _ _) as [[[] ?] ?].
  - exists 0. cbn. destruct (headless s); repeat split; lia.
Qed.

Lemma run_counts evs : forall s,
  exists k,
    totalSyncs (run s evs).1 = totalSyncs s + k
    /\ length (clipboardHistory (run s evs).1) <= length (clipboardHistory s) + k
    /\ synced_lines (run s evs).2 = (if headless s then 0 else k).
Proof.
  induction evs as [|ev evs IH]; intros s; cbn [run].
  - exists 0. cbn. by destruct (headless s); repeat split; lia.
  - destruct (step_counts s ev) as (k1 & A1 & A2 & A3 & A4).
    destruct (step s ev) as [s1 eff1]. cbn [fst snd] in *.
    destruct (IH s1) as (k2 & B1 & B2 & B3).
    destruct (run s1 evs) as [s2 eff2]. cbn [fst snd] in *.
    exists (k1 + k2). rewrite synced_lines_app, A3, B3, A4.
    destruct (headless s); repeat split; lia.
Qed.

End Stats.

(** X16. The counter [totalSyncs] that [getStats] reports counts the
    accepted updates: on a server that prints, it is the number of
    "Clipboard synced" lines printed so far, whatever the events were; a
    headless server counts the same way and prints none.  The history never
    holds more items than there were syncs. *)
Theorem totalSyncs_counts_the_synced_lines (h : bool) (evs : list event) :
  synced_lines (run (new_server h) evs).2
  = (if h then 0 else totalSyncs (run (new_server h) evs).1)
  /\ length (clipboardHistory (run (new_server h) evs).1)
     <= totalSyncs (run (new_server h) evs).1.
Proof.
  destruct (run_counts evs (new_server h)) as (k & H1 & H2 & H3).
  cbn [totalSyncs clipboardHistory headless new_server length] in *.
  rewrite H3, H1. destruct h; split; lia.
Qed.



(** ** The history over all runs *)

Section HistoryItems.

Lemma length_substring0 (n : nat) : forall str,
  String.length (substring 0 n str) = Nat.min n (String.length str).
Proof.
  induction n as [|n IH]; intros [|c str]; cbn; [reflexivity..|].
  by rewrite IH.
Qed.

Lemma substring0_all (n : nat) : forall str,
  String.length str <= n -> substring 0 n str = str.
Proof.
  induction n as [|n IH]; intros [|c str] Hlen; cbn in *; [reflexivity|lia|reflexivity|].
  rewrite IH; [reflexivity|lia].
Qed.

Lemma length_replace_newlines str :
  String.length (replace_newlines str) = String.length str.
Proof. induction str as [|c str IH]; cbn; [reflexivity|by rewrite IH]. Qed.

Lemma replace_newlines_clean str :
  ~ In "010"%char (list_ascii_of_string (replace_newlines str)).
Proof.
  induction str as [|c str IH]; cbn; [tauto|].
  intros [H|H]; [|tauto].
  destruct (Ascii.eqb_spec c "010"%char) as [_|Hc]; [discriminate H|]. by symmetry in H.
Qed.

Lemma unfiltered_length s str :
  isContentFiltered s (JString str) = false ->
  0 < String.length str /\ (Z.of_nat (String.length str) <= maxContentLength s)%Z.
Proof.
  unfold isContentFiltered.
  destruct (String.eqb_spec str "") as [->|Hne]; [discriminate 1|].
  destruct (Z.ltb_spec (maxContentLength s) (Z.of_nat (String.length str)));
    [discriminate 1|].
  intros _. split; [|assumption]. destruct str; [contradiction|cbn; lia].
Qed.

Lemma history_inv_config s s' :
  clipboardHistory s' = clipboardHistory s ->
  maxContentLength s' = maxContentLength s ->
  sensitivePatterns s' = sensitivePatterns s ->
  history_inv s -> history_inv s'.
Proof.
  intros Hh Hm Hp [Hall Hnd]. unfold history_inv. rewrite Hh. split; [|exact Hnd].
  eapply Forall_impl; [exact Hall|].
  intros item (content & t & -> & Hf). exists content, t. split; [reflexivity|].
  by rewrite (isContentFiltered_config s s' _ Hm Hp).
Qed.

Lemma NoDup_map_take {A B : Type} (f : A -> B) (n : nat) (l : list A) :
  NoDup (map f l) -> NoDup (map f (take n l)).
Proof.
  intros H. change (NoDup (f <$> take n l)). rewrite fmap_take.
  eapply sublist_NoDup; [exact H|apply sublist_take].
Qed.

(** [addToHistory] keeps the hashes of the history distinct. *)
Lemma addToHistory_history_inv s str t :
  isContentFiltered s (JString str) = false ->
  history_inv s -> history_inv (addToHistory s str t).1.
Proof.
  intros Hf [Hall Hnd].
  destruct (unfiltered_is_text (JString str) s Hf) as (str' & [= <-] & Hne).
  pose proof (addToHistory_frame s str t) as Hfr. cbv zeta in Hfr.
  assert (Forall (item_of_accepted s) (clipboardHistory (addToHistory s str t).1)
          /\ NoDup (map h_hash (clipboardHistory (addToHistory s str t).1))) as [Hall' Hnd'].
  { rewrite addToHistory_history by assumption. cbv zeta.
    destruct (findIndex _ _) as [[|i]|] eqn:Hfind; [by split| |].
    - destruct (clipboardHistory s !! Datatypes.S i) as [item|] eqn:Hitem.
      + assert (item :: delete (Datatypes.S i) (clipboardHistory s) ≡ₚ clipboardHistory s)
          as Hperm by (symmetry; by apply delete_Permutation).
        split.
        * apply Forall_take. by rewrite Hperm.
        * apply NoDup_map_take.
          change (NoDup (h_hash <$> item :: delete (Datatypes.S i) (clipboardHistory s))).
          by rewrite Hperm.
      + split; [by apply Forall_take|]. by apply NoDup_map_take.
    - split.
      + apply Forall_take. constructor; [|exact Hall]. by exists str, t.
      + apply NoDup_map_take.
        change (NoDup (generateHash (JString str) :: map h_hash (clipboardHistory s))).
        apply NoDup_cons. split; [|exact Hnd].
        intros Hin. apply list_elem_of_fmap in Hin as (x & Hx & Hin).
        pose proof (findIndex_None _ _ Hfind x Hin) as Hno. cbn in Hno.
        rewrite <- Hx, String.eqb_refl in Hno. discriminate Hno. }
  split; [|exact Hnd'].
  eapply Forall_impl; [exact Hall'|].
  intros item (content & t' & -> & Hf'). exists content, t'. split; [reflexivity|].
  rewrite Hfr.
  by rewrite (isContentFiltered_config s (set_clipboardHistory _ s) _ eq_refl eq_refl).
Qed.

Lemma updateClipboard_history_inv s c src aw e :
  history_inv s -> history_inv (updateClipboard s c src aw e).1.1.
Proof.
  intros Hinv.
  pose proof (updateClipboard_same_config s c src aw e) as (_ & _ & _ & Hm & Hp).
  assert ((updateClipboard s c src aw e).2 = Synced
          \/ (updateClipboard s c src aw e).2 <> Synced) as [Hs|Hs]
    by (destruct (updateClipboard s c src aw e).2; (by left) || (by right)).
  - destruct (updateClipboard_synced s c src aw e Hs) as (_ & _ & _ & _ & Hf & _).
    destruct (updateClipboard_synced_state s c src aw e Hs) as (_ & _ & _ & _ & _ & Hh).
    destruct (unfiltered_is_text c s Hf) as (str & -> & Hne).
    assert (history_inv (remember (generateHash (JString str)) (now e) (JString str) s))
      as Hinv1 by (by apply (history_inv_config s)).
    apply (addToHistory_history_inv _ str (history_now e)) in Hinv1;
      [|by rewrite (isContentFiltered_config s (remember _ _ _ s) _ eq_refl eq_refl)].
    pose proof (addToHistory_frame
                  (remember (generateHash (JString str)) (now e) (JString str) s)
                  str (history_now e)) as Hfr.
    cbv zeta in Hfr. revert Hinv1.
    apply history_inv_config;
      [exact Hh | rewrite Hm, Hfr; reflexivity | rewrite Hp, Hfr; reflexivity].
  - destruct (updateClipboard_not_synced_silent s c src aw e Hs) as (Hh & _).
    by apply (history_inv_config s).
Qed.

Lemma step_history_inv s ev : history_inv s -> history_inv (step s ev).1.
Proof.
  intros Hinv.
  destruct (step_shape s ev) as
    [(q & p & c & src & aw & e & -> & _)|(d & a & m & p & -> & _)].
  - assert (history_inv (set_syncQueue q s)) as Hq by (by apply (history_inv_config s)).
    apply (updateClipboard_history_inv _ c src aw e) in Hq.
    revert Hq. by apply history_inv_config.
  - revert Hinv. by apply history_inv_config.
Qed.

Lemma run_history_inv evs : forall s, history_inv s -> history_inv (run s evs).1.
Proof.
  induction evs as [|ev evs IH]; intros s Hinv; cbn [run]; [exact Hinv|].
  pose proof (step_history_inv s ev Hinv) as H1.
  destruct (step s ev) as [s1 eff1]. cbn [fst] in *.
  pose proof (IH s1 H1) as H2. by destruct (run s1 evs).
Qed.

Lemma reachable_history_inv s : reachable s -> history_inv s.
Proof.
  intros (h & evs & ->). apply run_history_inv. split; cbn; constructor.
Qed.

(** ** The last known value *)

Lemma updateClipboard_last_known_inv s c src aw e :
  last_known_inv s -> last_known_inv (updateClipboard s c src aw e).1.1.
Proof.
  intros Hinv.
  assert (((updateClipboard s c src aw e).2 = Filtered
           \/ (updateClipboard s c src aw e).2 = Synced)
          \/ (lastClipboard (updateClipboard s c src aw e).1.1 = lastClipboard s
              /\ lastClipboardHash (updateClipboard s c src aw e).1.1
                 = lastClipboardHash s)) as [Hs|[Hl Hh]].
  { unfold updateClipboard.
    destruct (negb _ && negb _); [by right|].
    destruct (generateHash c =? lastClipboardHash s); [by right|].
    destruct (now e - lastSyncTime s <? minSyncInterval s)%Z.
    { right. cbn [fst snd]. unfold processSyncQueue. by destruct (_ || _). }
    destruct (conflicting _ _ _); [by right|].
    destruct (isContentFiltered _ _); [left; by left|].
    destruct (addToHistory _ _ _). left. by right. }
  - destruct (updateClipboard_last_known s c src aw e Hs) as [Hl Hh].
    right. by rewrite Hl, Hh.
  - unfold last_known_inv. by rewrite Hl, Hh.
Qed.

Lemma step_last_known_inv s ev : last_known_inv s -> last_known_inv (step s ev).1.
Proof.
  intros Hinv.
  destruct (step_shape s ev) as
    [(q & p & c & src & aw & e & -> & _)|(d & a & m & p & -> & _)].
  - assert (last_known_inv (set_syncQueue q s)) as Hq by exact Hinv.
    apply (updateClipboard_last_known_inv _ c src aw e) in Hq. exact Hq.
  - exact Hinv.
Qed.

Lemma run_last_known_inv evs : forall s, last_known_inv s -> last_known_inv (run s evs).1.
Proof.
  induction evs as [|ev evs IH]; intros s Hinv; cbn [run]; [exact Hinv|].
  pose proof (step_last_known_inv s ev Hinv) as H1.
  destruct (step s ev) as [s1 eff1]. cbn [fst] in *.
  pose proof (IH s1 H1) as H2. by destruct (run s1 evs).
Qed.

(** ** Announcing the history *)

Lemma broadcast_history_emits s c src t h : history_emits (broadcast s c src t h) = [].
Proof.
  unfold broadcast. induction (connectedDevices s) as [|[k d] l IH]; [reflexivity|].
  cbn [flat_map]. rewrite history_emits_app, IH.
  destruct (negb (k =? src) && dev_autoSync d); reflexivity.
Qed.

Lemma addToHistory_quiet s str t :
  (addToHistory s str t).2 = [] -> (addToHistory s str t).1 = s.
Proof.
  unfold addToHistory. destruct (str =? ""); [reflexivity|].
  destruct (findIndex _ _) as [[|i]|]; [reflexivity|discriminate 1..].
Qed.

Lemma updateClipboard_announces s c src aw e :
  (history_emits (updateClipboard s c src aw e).1.2 = []
   /\ clipboardHistory (updateClipboard s c src aw e).1.1 = clipboardHistory s)
  \/ history_emits (updateClipboard s c src aw e).1.2
     = [clipboardHistory (updateClipboard s c src aw e).1.1].
Proof.
  assert ((updateClipboard s c src aw e).2 = Synced
          \/ (updateClipboard s c src aw e).2 <> Synced) as [Hs|Hs]
    by (destruct (updateClipboard s c src aw e).2; (by left) || (by right)).
  - destruct (updateClipboard_synced s c src aw e Hs) as (_ & _ & _ & _ & _ & Hst & Heff).
    rewrite Hst, Heff.
    pose proof (addToHistory_effects (remember (generateHash c) (now e) c s)
                  (or_empty c) (history_now e)) as (_ & _ & Hh).
    pose proof (addToHistory_quiet (remember (generateHash c) (now e) c s)
                  (or_empty c) (history_now e)) as Hq.
    destruct (addToHistory _ _ _) as [s2 hist]. cbn [fst snd] in *.
    rewrite !history_emits_app, write_clipboard_history_emits, broadcast_history_emits.
    cbn [clipboardHistory set_totalSyncs app].
    assert (history_emits (if headless s then []
                           else [Log (LogSynced (getAutoSyncDeviceCount s)
                                        (String.length (or_empty c)))]) = []) as ->
      by (by destruct (headless s)).
    rewrite app_nil_r. destruct Hh as [-> | ->].
    + left. split; [reflexivity|]. by rewrite (Hq eq_refl).
    + by right.
  - left. destruct (updateClipboard_not_synced_silent s c src aw e Hs) as (Hh & _ & _ & He).
    by split.
Qed.

Lemma step_announces s ev :
  (history_emits (step s ev).2 = []
   /\ clipboardHistory (step s ev).1 = clipboardHistory s)
  \/ history_emits (step s ev).2 = [clipboardHistory (step s ev).1].
Proof.
  destruct (step_shape s ev) as
    [(q & p & c & src & aw & e & -> & _ & _ & -> & _)
    |(d & a & m & p & -> & _ & _ & He & _)].
  - destruct (updateClipboard_announces (set_syncQueue q s) c src aw e) as [[H1 H2]|H1].
    + left. split; [exact H1|]. exact H2.
    + right. exact H1.
  - destruct He as [He|He]; [left; by split|right; exact He].
Qed.

End HistoryItems.

(** X18. On every state the server can reach, the history holds no two
    items with the same hash, and each item is the record of a content
    that passed the filter: its size is between 1 and 50000, its content is
    the first 1000 characters and its preview the first 100, with no line
    feed left in the preview.  An item of at most 1000 characters still
    carries the fingerprint of its stored content, and that content passes
    the filter when it is used again. *)
Theorem history_items_are_accepted_contents (s : server) :
  reachable s ->
  NoDup (map h_hash (clipboardHistory s))
  /\ forall item, item ∈ clipboardHistory s ->
       0 < h_size item <= Z.to_nat 50000
       /\ String.length (h_content item) = Nat.min 1000 (h_size item)
       /\ String.length (h_preview item) = Nat.min 100 (h_size item)
       /\ ~ In "010"%char (list_ascii_of_string (h_preview item))
       /\ (h_size item <= 1000 ->
           h_hash item = generateHash (JString (h_content item))
           /\ isContentFiltered s (JString (h_content item)) = false).
Proof.
  intros Hr. destruct (reachable_history_inv s Hr) as [Hall Hnd].
  split; [exact Hnd|]. intros item Hin.
  rewrite Forall_forall in Hall. destruct (Hall item Hin) as (content & t & -> & Hf).
  destruct (unfiltered_length s content Hf) as [Hpos Hmax].
  assert (maxContentLength s = 50000%Z) as Hcap.
  { destruct Hr as (h & evs & ->).
    by destruct (reachable_settings h evs) as (_ & _ & _ & _ & ?). }
  cbn [new_historyItem h_size h_content h_preview h_hash].
  split; [lia|]. split; [apply length_substring0|].
  split; [by rewrite length_replace_newlines, length_substring0|].
  split; [apply replace_newlines_clean|].
  intros Hshort. by rewrite substring0_all.
Qed.

(** X18 at work: the state after D1 sent "X". *)
Lemma history_items_are_accepted_contents_witness :
  reachable after_X /\ NoDup (map h_hash (clipboardHistory after_X)).
Proof.
  assert (reachable after_X) as Hr
    by (exists false, after_X_trace; vm_compute; reflexivity).
  split; [exact Hr|].
  exact (proj1 (history_items_are_accepted_contents after_X Hr)).
Defined.

(** X19. Every [clipboard-update] the server sends carries the fingerprint
    of the content it carries, whichever handler sends it: the fan-out of an
    accepted update, the greeting of [register-device] and the answer to
    [force-sync]. *)
Theorem sent_hash_is_the_fingerprint_of_the_content (s : server) (ev : event) :
  reachable s ->
  forall target d,
    (target, d) ∈ deliveries (step s ev).2 ->
    u_hash d = generateHash (u_content d).
Proof.
  intros (h & evs & ->) target d Hin.
  assert (last_known_inv (run (new_server h) evs).1) as Hinv
    by (apply run_last_known_inv; by left).
  set (s := (run (new_server h) evs).1) in *.
  destruct (step_shape s ev) as
    [(q & p & c & src & aw & e & _ & _ & _ & _ & Hd)
    |(dv & a & m & p & _ & _ & _ & _ & Hd)].
  - rewrite Hd in Hin.
    assert ((updateClipboard (set_syncQueue q s) c src aw e).2 = Synced
            \/ (updateClipboard (set_syncQueue q s) c src aw e).2 <> Synced) as [Hs|Hs]
      by (destruct (updateClipboard (set_syncQueue q s) c src aw e).2;
          (by left) || (by right)).
    + rewrite (synced_deliveries _ _ _ _ _ Hs) in Hin.
      apply list_elem_of_fmap in Hin as (id & [= _ ->] & _). reflexivity.
    + destruct (updateClipboard_not_synced_silent _ c src aw e Hs) as (_ & Hno & _).
      rewrite Hno in Hin. by apply elem_of_nil in Hin.
  - destruct Hd as [Hd|(id & t & f & Htruthy & Hd)]; rewrite Hd in Hin.
    + by apply elem_of_nil in Hin.
    + apply list_elem_of_singleton in Hin as [= _ ->].
      cbn [server_update u_hash u_content].
      destruct Hinv as [[Hl _]|Hh]; [|exact Hh].
      rewrite Hl in Htruthy. discriminate Htruthy.
Qed.

(** X19 at work: D2 registers again after D1 sent "X" and is greeted with
    "X" and its fingerprint. *)
Lemma sent_hash_is_the_fingerprint_of_the_content_witness :
  reachable after_X
  /\ u_hash (server_update after_X 2000 false)
     = generateHash (u_content (server_update after_X 2000 false)).
Proof.
  assert (reachable after_X) as Hr
    by (exists false, after_X_trace; vm_compute; reflexivity).
  split; [exact Hr|].
  apply (sent_hash_is_the_fingerprint_of_the_content after_X
           (RegisterDevice "D2" plain_info 2000) Hr "D2").
  vm_compute. apply list_elem_of_here.
Defined.

(** X20. Clients hear of every change of the history: over any run from any
    state, either no history was sent and the history is the one the run
    started with, or the last history sent is the history the server now
    holds. *)
Theorem last_history_sent_is_current (s : server) (evs : list event) :
  (history_emits (run s evs).2 = []
   /\ clipboardHistory (run s evs).1 = clipboardHistory s)
  \/ last (history_emits (run s evs).2) = Some (clipboardHistory (run s evs).1).
Proof.
  revert s. induction evs as [|ev evs IH]; intros s; cbn [run]; [by left|].
  pose proof (step_announces s ev) as H1.
  destruct (step s ev) as [s1 eff1]. cbn [fst snd] in *.
  specialize (IH s1). destruct (run s1 evs) as [s2 eff2]. cbn [fst snd] in *.
  rewrite history_emits_app.
  destruct IH as [[E2 Hh2]|Hl2].
  - rewrite E2, app_nil_r, Hh2.
    destruct H1 as [[E1 Hh1]|E1]; [left; by rewrite E1, Hh1|right; by rewrite E1].
  - right. destruct (history_emits eff2) as [|x l] eqn:E2; [discriminate Hl2|].
    rewrite last_app, Hl2. reflexivity.
Qed.

(** ** What the patterns catch *)

Section Patterns.

Lemma list_ascii_of_string_app (a b : string) :
  list_ascii_of_string (a +:+ b) = list_ascii_of_string a ++ list_ascii_of_string b.
Proof. induction a as [|c a IH]; simpl; [reflexivity|by rewrite IH]. Qed.

Lemma search_unfold r prev l :
  Regex.search r prev l
  = if Regex.match_here r prev l then true
    else match l with
         | c :: l' => Regex.search r (Some c) l'
         | [] => false
         end.
Proof. by destruct l. Qed.

(** A match anywhere in the subject is found. *)
Lemma search_finds r l :
  (forall prev, Regex.match_here r prev l = true) ->
  forall pre prev, Regex.search r prev (pre ++ l) = true.
Proof.
  intros Hl pre. induction pre as [|c pre IH]; intros prev; rewrite search_unfold.
  - cbn [app]. by rewrite Hl.
  - cbn [app]. rewrite IH. by destruct (Regex.match_here _ _ _).
Qed.

Lemma match_once set r prev c l :
  Regex.match_here (Regex.once set :: r) prev (c :: l)
  = if Regex.in_class set c then Regex.match_here r (Some c) l else false.
Proof.
  unfold Regex.once. cbn [Regex.match_here Regex.below Nat.ltb Nat.leb].
  destruct (Regex.in_class set c); [|reflexivity].
  destruct l; cbn [Regex.below Nat.ltb Nat.leb];
    by destruct (Regex.match_here r (Some c) _).
Qed.

(** Under the [i] flag a letter matches itself in either case. *)
Lemma ci_lower_char c : Regex.in_class (Regex.ci (lower_char c)) c = true.
Proof. destruct c as [[] [] [] [] [] [] [] []]; vm_compute; reflexivity. Qed.

Lemma match_lit_ci r rest :
  (forall prev, Regex.match_here r prev rest = true) ->
  forall w prev,
    Regex.match_here (Regex.lit_ci (lower_string w) ++ r) prev
      (list_ascii_of_string w ++ rest) = true.
Proof.
  intros Hr w. induction w as [|c w IH]; intros prev; [apply Hr|].
  unfold Regex.lit_ci. cbn [lower_string list_ascii_of_string map app].
  fold (Regex.lit_ci (lower_string w)).
  rewrite match_once, ci_lower_char. apply IH.
Qed.

(** [x?]: the rest of the pattern may follow at once. *)
Lemma match_optional_skip set r prev l :
  Regex.match_here r prev l = true ->
  Regex.match_here (Regex.Cls set 0 (Some 1) :: r) prev l = true.
Proof.
  intros Hr. cbn [Regex.match_here].
  destruct l as [|c l]; cbn [Nat.leb Nat.ltb Regex.below]; rewrite Hr.
  - reflexivity.
  - by destruct (if Regex.in_class set c then _ else _).
Qed.

(** [x?]: or after one character of the class. *)
Lemma match_optional_take set r prev c l :
  Regex.in_class set c = true ->
  Regex.match_here r (Some c) l = true ->
  Regex.match_here (Regex.Cls set 0 (Some 1) :: r) prev (c :: l) = true.
Proof.
  intros Hc Hr. cbn [Regex.match_here Regex.below Nat.ltb Nat.leb]. rewrite Hc.
  destruct l; cbn [Regex.below Nat.ltb Nat.leb]; by rewrite Hr.
Qed.

(** [x*] takes every character of the class that stands before the rest. *)
Lemma match_star set r rest :
  (forall prev, Regex.match_here r prev rest = true) ->
  forall sp prev,
    Forall (fun c => Regex.in_class set c = true) sp ->
    Regex.match_here (Regex.Cls set 0 None :: r) prev (sp ++ rest) = true.
Proof.
  intros Hr sp prev Hsp. cbn [Regex.match_here Nat.leb Regex.below].
  generalize 0 as n. revert prev.
  induction Hsp as [|c sp Hc _ IH]; intros prev n.
  - cbn [app]. destruct rest as [|c rest]; rewrite Hr.
    + reflexivity.
    + by destruct (if Regex.in_class set c then _ else _).
  - cbn [app]. by rewrite Hc, IH.
Qed.

(** [x{m}] matches [m] characters of the class. *)
Lemma match_exactly set m r rest :
  (forall prev, Regex.match_here r prev rest = true) ->
  forall ds prev,
    Forall (fun c => Regex.in_class set c = true) ds ->
    length ds = m ->
    Regex.match_here (Regex.Cls set m (Some m) :: r) prev (ds ++ rest) = true.
Proof.
  intros Hr ds prev Hds Hlen. cbn [Regex.match_here].
  assert (0 + length ds = m) as Hn by lia. clear Hlen. revert Hn.
  generalize 0 as n. revert prev.
  induction Hds as [|c ds Hc _ IH]; intros prev n Hn.
  - cbn [app length] in *. replace n with m by lia.
    destruct rest as [|c rest]; cbn [Regex.below];
      rewrite ?Nat.ltb_irrefl, Nat.leb_refl; apply Hr.
  - cbn [app length Regex.below] in *.
    assert ((n <? m)%nat = true) as -> by (apply Nat.ltb_lt; lia).
    rewrite Hc, IH by lia. reflexivity.
Qed.

Lemma reachable_patterns s : reachable s -> sensitivePatterns s = sensitivePatterns0.
Proof.
  intros (h & evs & ->).
  by destruct (run_same_config evs (new_server h)) as (_ & _ & _ & _ & ->).
Qed.

(** A content one of whose patterns matches is filtered, whatever its
    length. *)
Lemma isContentFiltered_match s str p :
  In p (sensitivePatterns s) -> Regex.test p str = true ->
  isContentFiltered s (JString str) = true.
Proof.
  intros Hin Ht. unfold isContentFiltered.
  destruct (str =? ""); [reflexivity|].
  destruct (_ <? _)%Z; [reflexivity|].
  unfold matches_sensitive. apply existsb_exists. eauto.
Qed.

Lemma test_finds p pre mid post :
  (forall prev,
     Regex.match_here p prev (list_ascii_of_string mid ++ list_ascii_of_string post) = true) ->
  Regex.test p (pre +:+ mid +:+ post) = true.
Proof.
  intros H. with_strategy transparent [Regex.test] unfold Regex.test.
  rewrite !list_ascii_of_string_app. by apply search_finds.
Qed.

End Patterns.

(** X21. A text that contains one of the words password, secret and token,
    in any mix of upper and lower case and anywhere in the text, is always
    filtered. *)
Theorem sensitive_words_are_filtered (s : server) (pre w post : string) :
  reachable s ->
  lower_string w = "password" \/ lower_string w = "secret" \/ lower_string w = "token" ->
  isContentFiltered s (JString (pre +:+ w +:+ post)) = true.
Proof.
  intros Hr Hw.
  assert (In (Regex.lit_ci (lower_string w)) (sensitivePatterns s)) as Hin.
  { rewrite (reachable_patterns s Hr). unfold sensitivePatterns0.
    destruct Hw as [-> | [-> | ->]]; cbn [In]; auto. }
  apply (isContentFiltered_match s _ _ Hin). apply test_finds. intros prev.
  rewrite <- (app_nil_r (Regex.lit_ci (lower_string w))).
  by apply match_lit_ci.
Qed.

(** X21 at work: "My PassWord is x" on the three devices. *)
Lemma sensitive_words_are_filtered_witness :
  isContentFiltered three_devices (JString ("My " +:+ "PassWord" +:+ " is x")) = true.
Proof.
  apply sensitive_words_are_filtered.
  - exists false, [ RegisterDevice "D1" plain_info 1; RegisterDevice "D2" plain_info 2;
                    RegisterDevice "D3" plain_info 3 ].
    reflexivity.
  - left. vm_compute. reflexivity.
Defined.

(** X22. So is a text that contains "api" and "key", in any case, with
    nothing, an underscore or a hyphen between them. *)
Theorem api_keys_are_filtered (s : server) (pre a sep k post : string) :
  reachable s ->
  lower_string a = "api" -> lower_string k = "key" ->
  sep = "" \/ sep = "_" \/ sep = "-" ->
  isContentFiltered s (JString (pre +:+ (a +:+ sep +:+ k) +:+ post)) = true.
Proof.
  intros Hr Ha Hk Hsep.
  assert (In (Regex.lit_ci (lower_string a)
                ++ [Regex.Cls (Regex.chars "_-") 0 (Some 1)]
                ++ Regex.lit_ci (lower_string k)) (sensitivePatterns s)) as Hin.
  { rewrite (reachable_patterns s Hr), Ha, Hk. unfold sensitivePatterns0.
    cbn [In]. auto 10. }
  apply (isContentFiltered_match s _ _ Hin). apply test_finds. intros prev.
  rewrite !list_ascii_of_string_app, <- !app_assoc.
  apply match_lit_ci. intros prev1.
  assert (forall prev2,
            Regex.match_here (Regex.lit_ci (lower_string k)) prev2
              (list_ascii_of_string k ++ list_ascii_of_string post) = true) as Hkey.
  { intros prev2. rewrite <- (app_nil_r (Regex.lit_ci (lower_string k))).
    by apply match_lit_ci. }
  cbn [app]. destruct Hsep as [-> | [-> | ->]]; cbn [list_ascii_of_string app].
  - apply match_optional_skip, Hkey.
  - apply match_optional_take; [vm_compute; reflexivity|apply Hkey].
  - apply match_optional_take; [vm_compute; reflexivity|apply Hkey].
Qed.

(** X22 at work: "use API-Key 42". *)
Lemma api_keys_are_filtered_witness :
  isContentFiltered three_devices
    (JString ("use " +:+ ("API" +:+ "-" +:+ "Key") +:+ " 42")) = true.
Proof.
  apply api_keys_are_filtered.
  - exists false, [ RegisterDevice "D1" plain_info 1; RegisterDevice "D2" plain_info 2;
                    RegisterDevice "D3" plain_info 3 ].
    reflexivity.
  - vm_compute. reflexivity.
  - vm_compute. reflexivity.
  - right. right. reflexivity.
Defined.

(** X23. So is a text in which "key", in any case, is followed by a colon or
    an equals sign, with any white space between. *)
Theorem key_assignments_are_filtered (s : server) (pre k sp sep post : string) :
  reachable s ->
  lower_string k = "key" ->
  Forall (fun c => Regex.in_class Regex.space c = true) (list_ascii_of_string sp) ->
  sep = ":" \/ sep = "=" ->
  isContentFiltered s (JString (pre +:+ (k +:+ sp +:+ sep) +:+ post)) = true.
Proof.
  intros Hr Hk Hsp Hsep.
  assert (In (Regex.lit_ci (lower_string k)
                ++ [Regex.Cls Regex.space 0 None; Regex.once (Regex.chars ":=")])
             (sensitivePatterns s)) as Hin.
  { rewrite (reachable_patterns s Hr), Hk. unfold sensitivePatterns0.
    cbn [In]. auto 10. }
  apply (isContentFiltered_match s _ _ Hin). apply test_finds. intros prev.
  rewrite !list_ascii_of_string_app, <- !app_assoc.
  apply match_lit_ci. intros prev1.
  apply match_star; [|exact Hsp]. intros prev2.
  destruct Hsep as [-> | ->]; cbn [list_ascii_of_string app];
    rewrite match_once; reflexivity.
Qed.

(** X23 at work: "KEY  = abc". *)
Lemma key_assignments_are_filtered_witness :
  isContentFiltered three_devices
    (JString ("" +:+ ("KEY" +:+ "  " +:+ "=") +:+ " abc")) = true.
Proof.
  apply key_assignments_are_filtered.
  - exists false, [ RegisterDevice "D1" plain_info 1; RegisterDevice "D2" plain_info 2;
                    RegisterDevice "D3" plain_info 3 ].
    reflexivity.
  - vm_compute. reflexivity.
  - repeat constructor.
  - right. reflexivity.
Defined.

(** X24. So is a text with sixteen decimal digits in a row, wherever they
    stand and whatever surrounds them: longer runs of digits and digits
    inside a word are caught as well. *)
Theorem sixteen_digits_are_filtered (s : server) (pre ds post : string) :
  reachable s ->
  all_digits ds -> String.length ds = 16 ->
  isContentFiltered s (JString (pre +:+ ds +:+ post)) = true.
Proof.
  intros Hr Hds Hlen.
  assert (In [Regex.Cls Regex.digit 16 (Some 16)] (sensitivePatterns s)) as Hin.
  { rewrite (reachable_patterns s Hr). unfold sensitivePatterns0. cbn [In]. auto 10. }
  apply (isContentFiltered_match s _ _ Hin). apply test_finds. intros prev.
  apply match_exactly; [reflexivity|exact Hds|].
  rewrite <- Hlen. clear. induction ds as [|c ds IH]; cbn; [reflexivity|by rewrite IH].
Qed.

(** X24 at work: a card number inside a sentence. *)
Lemma sixteen_digits_are_filtered_witness :
  isContentFiltered three_devices
    (JString ("card" +:+ "4111111111111111" +:+ "!")) = true.
Proof.
  apply sixteen_digits_are_filtered.
  - exists false, [ RegisterDevice "D1" plain_info 1; RegisterDevice "D2" plain_info 2;
                    RegisterDevice "D3" plain_info 3 ].
    reflexivity.
  - repeat constructor.
  - reflexivity.
Defined.

(** X25. The [totalSyncs] that [GET /api/device-info] reports is not the
    counter of [getStats]: it is the length of the queue of deferred
    updates.  An accepted update leaves it as it is while the counter goes
    up by one; an update deferred by the rate limit raises it by one while
    the counter stays. *)
Theorem device_info_counts_deferred_updates (s : server) (c : jsval) (src : string)
    (aw : bool) (e : env) :
  ((updateClipboard s c src aw e).2 = Synced ->
     (device_info_stats (updateClipboard s c src aw e).1.1).1 = (device_info_stats s).1
     /\ totalSyncs (updateClipboard s c src aw e).1.1 = Datatypes.S (totalSyncs s))
  /\ ((updateClipboard s c src aw e).2 = Queued ->
        (device_info_stats (updateClipboard s c src aw e).1.1).1
        = Datatypes.S (device_info_stats s).1
        /\ totalSyncs (updateClipboard s c src aw e).1.1 = totalSyncs s).
Proof.
  split.
  - intros Hs.
    destruct (updateClipboard_synced_fields s c src aw e Hs)
      as (_ & _ & _ & _ & _ & _ & Hq & _ & Ht & _).
    unfold device_info_stats. cbn [fst]. by rewrite Hq, Ht.
  - intros Hq.
    destruct (updateClipboard_queued_inv s c src aw e Hq) as (Hg & Hne & Hlt).
    rewrite (updateClipboard_queued s c src aw e Hg Hne Hlt).
    unfold device_info_stats. cbn. rewrite length_app. cbn. split; [lia|reflexivity].
Qed.
